(** * Add-on reconciliation and role-assignment waiting in azext_aks_preview

    A shallow embedding of three functions of
    [src/aks-preview/azext_aks_preview/custom.py]:

    - [_delete_role_assignments], the bounded retry loop around the
      role-assignment deletion;
    - [_update_addons], the add-on reconciliation on a managed cluster
      object;
    - [aks_enable_addons], the command handler that reconciles and then
      submits the cluster.

    Python objects are mutable and shared; the embedding passes the state
    explicitly.  A call that raises still hands back the state in which it
    left the object it was given. *)

From Stdlib Require Import String Ascii List ZArith Bool Lia.
Import ListNotations.
Open Scope string_scope.
Open Scope list_scope.

(** ** Python values *)

Module Py.

(** The lowering of the letters A to Z, which is what [str.lower] does to
    ASCII text. *)
Definition lower_ascii (c : ascii) : ascii :=
  let n := nat_of_ascii c in
  if (65 <=? n)%nat && (n <=? 90)%nat then ascii_of_nat (n + 32) else c.

Fixpoint lower (s : string) : string :=
  match s with
  | EmptyString => EmptyString
  | String c r => String (lower_ascii c) (lower r)
  end.

(** [s.split(sep)] for a one-character separator. *)
Fixpoint split (sep : ascii) (s : string) : list string :=
  match s with
  | EmptyString => [EmptyString]
  | String c r =>
      if Ascii.eqb c sep then EmptyString :: split sep r
      else match split sep r with
           | [] => [String c EmptyString]
           | w :: ws => String c w :: ws
           end
  end.

(** A [dict] with string keys, in insertion order.  The order is kept
    because [list(d)] is iterated by the reconciliation. *)
Definition dict (V : Type) : Type := list (string * V).

Section Dict.
Context {V : Type}.

Definition keys (d : dict V) : list string := map fst d.

(** [d.get(k)] *)
Fixpoint get (d : dict V) (k : string) : option V :=
  match d with
  | [] => None
  | (k', v) :: r => if String.eqb k' k then Some v else get r k
  end.

(** [k in d] *)
Definition contains (d : dict V) (k : string) : bool :=
  match get d k with Some _ => true | None => false end.

(** [d[k] = v]: an existing key keeps its place, a new one goes last. *)
Fixpoint set (d : dict V) (k : string) (v : V) : dict V :=
  match d with
  | [] => [(k, v)]
  | (k', v') :: r =>
      if String.eqb k' k then (k', v) :: r else (k', v') :: set r k v
  end.

(** The dictionary left by [d.pop(k)]. *)
Definition remove (d : dict V) (k : string) : dict V :=
  filter (fun kv => negb (String.eqb (fst kv) k)) d.

(** [d.pop(k)]: the value and the remaining dictionary, [None] for the
    [KeyError]. *)
Definition pop (d : dict V) (k : string) : option (V * dict V) :=
  match get d k with
  | Some v => Some (v, remove d k)
  | None => None
  end.
End Dict.

(** The values found in an add-on [config]: strings, and the booleans
    that the command line flags carry. *)
Inductive value : Type :=
| Str (s : string)
| Bool (b : bool).

(** [str(v)] *)
Definition str (v : value) : string :=
  match v with
  | Str s => s
  | Bool true => "True"
  | Bool false => "False"
  end.

Definition comma : ascii := ","%char.
Definition newline : string := String (ascii_of_nat 10) EmptyString.
Definition dquote : string := String (ascii_of_nat 34) EmptyString.

End Py.

(** ** Exceptions and outcomes *)

Inductive exn : Type :=
| CLIError (msg : string)
| CloudError (msg : string)
| ArgumentUsageError (msg : string)
| TypeError
| AttributeError
| IndexError
| KeyError (key : string)
| OtherError (msg : string).

Inductive outcome (A : Type) : Type :=
| Returned (a : A)
| Raised (e : exn).
Arguments Returned {A} a.
Arguments Raised {A} e.

(** ** The role-assignment deletion waiter *)

Module RoleAssignmentWaiter.

(** What the function does to the outside world, in order.  The progress
    value [0.1 * x] is recorded as the number [x] of tenths. *)
Inductive event : Type :=
| ProgressAdd (message : string) (tenths : Z)
| LogInfo (message : string)
| DeleteCall (role assignee : string) (scope : option string)
| Sleep (seconds : Z).

(** How the [for ... else] loop is left. *)
Inductive loop_exit : Type :=
| Break
| Exhausted
| Propagate (e : exn).

Section Waiter.
(** [delete_role_assignments] talks to the directory service; its
    outcome at the attempt numbered [x] is given by the environment. *)
Variable delete_role_assignments : nat -> outcome unit.

Variables (role service_principal : string) (delay : Z)
          (scope : option string).

(** [for x in range(0, 10): ...] over the remaining values of [x].
    [time.sleep] raises [ValueError] on a negative argument; the sleeps
    recorded are those of a [delay] that is not negative. *)
Fixpoint retry_loop (xs : list nat) : list event * loop_exit :=
  match xs with
  | [] => ([], Exhausted)
  | x :: rest =>
      let attempt :=
        [ProgressAdd "Waiting for AAD role to delete" (Z.of_nat x);
         DeleteCall role service_principal scope] in
      match delete_role_assignments x with
      | Returned _ => (attempt, Break)
      | Raised (CLIError m) => (attempt, Propagate (CLIError m))
      | Raised (CloudError m) =>
          let '(later, how) := retry_loop rest in
          (attempt
             ++ [LogInfo m; Sleep (delay + delay * Z.of_nat x)]
             ++ later,
           how)
      | Raised e => (attempt, Propagate e)
      end
  end.

Definition _delete_role_assignments : list event * outcome bool :=
  let intro :=
    [ProgressAdd "Waiting for AAD role to delete" 0;
     LogInfo "Waiting for AAD role to delete"] in
  match retry_loop (seq 0 10) with
  | (tr, Exhausted) => (intro ++ tr, Returned false)
  | (tr, Propagate e) => (intro ++ tr, Raised e)
  | (tr, Break) =>
      (intro ++ tr
         ++ [ProgressAdd "AAD role deletion done" 10;
             LogInfo "AAD role deletion done"],
       Returned true)
  end.
End Waiter.

(** Observations on a trace. *)
Definition sleeps (tr : list event) : list Z :=
  flat_map (fun e => match e with Sleep s => [s] | _ => [] end) tr.

Definition attempts (tr : list event) : nat :=
  length (filter (fun e => match e with DeleteCall _ _ _ => true
                                   | _ => false end) tr).

Definition total (l : list Z) : Z := fold_right Z.add 0%Z l.

(** The default of the [delay] parameter. *)
Definition default_delay : Z := 2.

End RoleAssignmentWaiter.

(** ** The managed cluster resource

    The SDK models are not defined in [custom.py]; the records carry the
    attributes the code reads and writes, and [other_properties] stands for
    every attribute of the cluster the code never names. *)

Record ManagedClusterAddonProfile : Type := {
  enabled : bool;
  config : option (Py.dict Py.value);
  identity : option string
}.

Module WebAppRouting.
Record t : Type := {
  enabled : option bool;
  dns_zone_resource_id : option string
}.
End WebAppRouting.

Record ManagedClusterIngressProfile : Type := {
  web_app_routing : option WebAppRouting.t
}.

Record ManagedClusterServicePrincipalProfile : Type := {
  client_id : string;
  secret : option string
}.

Record ManagedClusterAgentPoolProfile : Type := {
  vnet_subnet_id : option string
}.

Record ManagedCluster : Type := {
  addon_profiles : option (Py.dict ManagedClusterAddonProfile);
  ingress_profile : option ManagedClusterIngressProfile;
  service_principal_profile : option ManagedClusterServicePrincipalProfile;
  location : string;
  agent_pool_profiles : option (list ManagedClusterAgentPoolProfile);
  other_properties : Py.dict string
}.

(** [ManagedClusterAddonProfile(enabled=e, config=c)] *)
Definition new_addon_profile (e : bool) (c : option (Py.dict Py.value))
  : ManagedClusterAddonProfile :=
  {| enabled := e; config := c; identity := None |}.

(** Attribute assignments. *)
Definition with_config (p : ManagedClusterAddonProfile)
    (c : option (Py.dict Py.value)) : ManagedClusterAddonProfile :=
  {| enabled := enabled p; config := c; identity := identity p |}.

Definition with_enabled (p : ManagedClusterAddonProfile) (e : bool)
  : ManagedClusterAddonProfile :=
  {| enabled := e; config := config p; identity := identity p |}.

Definition with_addon_profiles (i : ManagedCluster)
    (d : option (Py.dict ManagedClusterAddonProfile)) : ManagedCluster :=
  {| addon_profiles := d;
     ingress_profile := ingress_profile i;
     service_principal_profile := service_principal_profile i;
     location := location i;
     agent_pool_profiles := agent_pool_profiles i;
     other_properties := other_properties i |}.

Definition with_ingress_profile (i : ManagedCluster)
    (g : option ManagedClusterIngressProfile) : ManagedCluster :=
  {| addon_profiles := addon_profiles i;
     ingress_profile := g;
     service_principal_profile := service_principal_profile i;
     location := location i;
     agent_pool_profiles := agent_pool_profiles i;
     other_properties := other_properties i |}.

Definition with_service_principal_profile (i : ManagedCluster)
    (s : option ManagedClusterServicePrincipalProfile) : ManagedCluster :=
  {| addon_profiles := addon_profiles i;
     ingress_profile := ingress_profile i;
     service_principal_profile := s;
     location := location i;
     agent_pool_profiles := agent_pool_profiles i;
     other_properties := other_properties i |}.

(** ** Constants and collaborators

    [azext_aks_preview._consts] is imported by [custom.py] and is not part
    of it: the catalog and the key names are parameters of the embedding. *)

Class Consts : Type := {
  ADDONS : Py.dict string;
  CONST_MONITORING_ADDON_NAME : string;
  CONST_MONITORING_LOG_ANALYTICS_WORKSPACE_RESOURCE_ID : string;
  CONST_MONITORING_USING_AAD_MSI_AUTH : string;
  CONST_VIRTUAL_NODE_ADDON_NAME : string;
  CONST_VIRTUAL_NODE_SUBNET_NAME : string;
  CONST_INGRESS_APPGW_ADDON_NAME : string;
  CONST_INGRESS_APPGW_APPLICATION_GATEWAY_NAME : string;
  CONST_INGRESS_APPGW_APPLICATION_GATEWAY_ID : string;
  CONST_INGRESS_APPGW_SUBNET_CIDR : string;
  CONST_INGRESS_APPGW_SUBNET_ID : string;
  CONST_INGRESS_APPGW_WATCH_NAMESPACE : string;
  CONST_OPEN_SERVICE_MESH_ADDON_NAME : string;
  CONST_CONFCOM_ADDON_NAME : string;
  CONST_ACC_SGX_QUOTE_HELPER_ENABLED : string;
  CONST_AZURE_KEYVAULT_SECRETS_PROVIDER_ADDON_NAME : string;
  CONST_SECRET_ROTATION_ENABLED : string;
  CONST_ROTATION_POLL_INTERVAL : string;
  CONST_KUBE_DASHBOARD_ADDON_NAME : string
}.

(** The functions [custom.py] imports from the Azure CLI core and calls
    during reconciliation and submission.  Each either returns or raises,
    and none of them assigns to the objects it is handed. *)
Class Collaborators : Type := {
  (** [(cmd, subscription_id, resource_group_name)] to a workspace id *)
  ensure_default_log_analytics_workspace_for_monitoring :
    string -> string -> outcome string;
  sanitize_loganalytics_ws_resource_id : string -> string;
  (** [(addon, subscription_id, resource_group_name, name, location,
      aad_route)]; [None] when the call returns *)
  ensure_container_insights_for_monitoring :
    ManagedClusterAddonProfile -> string -> string -> string -> string ->
    bool -> option exn;
  (** [LongRunningOperation(cli_ctx)(client.begin_create_or_update(...))]:
      the cluster as the service materialises it *)
  create_or_update_and_wait :
    string -> string -> ManagedCluster -> outcome ManagedCluster
}.

(** [str.lower] follows Unicode: it lowers letters outside ASCII, some of
    them to ASCII letters (the Kelvin sign to "k").  Where the code
    compares two arbitrary strings up to letter case, as it does with the
    keys of the add-on dictionary, [str.lower] is a parameter of the
    embedding and nothing is assumed of it.  [Py.lower] stands for it only
    where the code compares with "true" and "azurecloud", which hold no
    letter that a character outside ASCII lowers to. *)
Class Casing : Type := {
  str_lower : string -> string
}.

(** Keyword arguments of [_update_addons], with the defaults of its
    signature in [Kwargs.default]. *)
Module Kwargs.
Record t : Type := {
  workspace_resource_id : option string;
  enable_msi_auth_for_monitoring : bool;
  subnet_name : option string;
  appgw_name : option string;
  appgw_subnet_prefix : option string;
  appgw_subnet_cidr : option string;
  appgw_id : option string;
  appgw_subnet_id : option string;
  appgw_watch_namespace : option string;
  enable_sgxquotehelper : bool;
  enable_secret_rotation : bool;
  disable_secret_rotation : bool;
  rotation_poll_interval : option string;
  dns_zone_resource_id : option string
}.

Definition default : t :=
  {| workspace_resource_id := None;
     enable_msi_auth_for_monitoring := false;
     subnet_name := None;
     appgw_name := None;
     appgw_subnet_prefix := None;
     appgw_subnet_cidr := None;
     appgw_id := None;
     appgw_subnet_id := None;
     appgw_watch_namespace := None;
     enable_sgxquotehelper := false;
     enable_secret_rotation := false;
     disable_secret_rotation := false;
     rotation_poll_interval := None;
     dns_zone_resource_id := None |}.
End Kwargs.

(** ** The add-on reconciler: [_update_addons] *)

Module Reconciler.

(** Adjacent literals and f-strings of the source, joined. *)
Definition cat (parts : list string) : string := String.concat "" parts.

Definition os_type : string := "Linux".

(** The error messages of [_update_addons]. *)
Definition invalid_addon_message (addon_arg : string) : string :=
  cat ["Invalid addon name: "; addon_arg; "."].

Definition not_installed_message (addon : string) : string :=
  cat ["The addon "; addon; " is not installed."].

Definition monitoring_enabled_message : string :=
  cat ["The monitoring addon is already enabled for this managed cluster.";
       Py.newline;
       "To change monitoring configuration, run ";
       Py.dquote; "az aks disable-addons -a monitoring"; Py.dquote;
       "before enabling it again."].

(** This message is not an f-string: the braces are printed as they are. *)
Definition virtual_node_enabled_message : string :=
  cat ["The virtual-node addon is already enabled for this managed cluster.";
       Py.newline;
       "To change virtual-node configuration, run ";
       Py.dquote;
       "az aks disable-addons -a virtual-node -g {resource_group_name}";
       Py.dquote; " ";
       "before enabling it again."].

(** The four messages built alike, for [ingress-appgw],
    [open-service-mesh], [confcom] and
    [azure-keyvault-secrets-provider]. *)
Definition already_enabled_message (cli_name name resource_group_name : string)
  : string :=
  cat ["The "; cli_name;
       " addon is already enabled for this managed cluster.";
       Py.newline;
       "To change "; cli_name; " configuration, run ";
       Py.dquote;
       "az aks disable-addons -a "; cli_name; " -n "; name;
       " -g "; resource_group_name;
       Py.dquote; " ";
       "before enabling it again."].

Definition subnet_required_message : string :=
  "The aci-connector addon requires setting a subnet name.".

(** The variables of one call: the cluster object passed in, the local
    [addon_profiles], whether that local is the very dictionary held by
    [instance.addon_profiles] (it is a fresh [{}] when the attribute is
    [None] or empty), and the local [workspace_resource_id]. *)
Record frame : Type := {
  instance : ManagedCluster;
  profiles : Py.dict ManagedClusterAddonProfile;
  shared : bool;
  workspace : option string
}.

(** A write to the local dictionary; it is seen through the instance when
    the two are one object. *)
Definition store (st : frame) (d : Py.dict ManagedClusterAddonProfile)
  : frame :=
  {| instance := if shared st
                 then with_addon_profiles (instance st) (Some d)
                 else instance st;
     profiles := d;
     shared := shared st;
     workspace := workspace st |}.

Definition with_workspace (st : frame) (w : option string) : frame :=
  {| instance := instance st;
     profiles := profiles st;
     shared := shared st;
     workspace := w |}.

Definition with_instance (st : frame) (i : ManagedCluster) : frame :=
  {| instance := i;
     profiles := profiles st;
     shared := shared st;
     workspace := workspace st |}.

(** [if v is not None: config[k] = v] *)
Definition set_if_given (c : Py.dict Py.value) (k : string)
    (v : option string) : Py.dict Py.value :=
  match v with
  | Some s => Py.set c k (Py.Str s)
  | None => c
  end.

(** [for key in list(addon_profiles): if key.lower() == addon.lower() and
    key != addon: addon_profiles[addon] = addon_profiles.pop(key)] over
    the snapshot [ks] of the keys. *)
Fixpoint honor_names `{Casing} (ks : list string) (addon : string)
    (d : Py.dict ManagedClusterAddonProfile)
  : Py.dict ManagedClusterAddonProfile :=
  match ks with
  | [] => d
  | key :: rest =>
      if String.eqb (str_lower key) (str_lower addon)
         && negb (String.eqb key addon)
      then
        match Py.pop d key with
        | Some (p, d') => honor_names rest addon (Py.set d' addon p)
        | None => honor_names rest addon d
        end
      else honor_names rest addon d
  end.

Section Reconcile.
Context `{Casing} `{Consts} `{Collaborators}.

Variables (subscription_id resource_group_name name : string).
Variable enable : bool.
Variable kw : Kwargs.t.

(** The [web_application_routing] branch: the ingress profile, not the
    add-on dictionary, carries the setting. *)
Definition web_application_routing (i : ManagedCluster) : ManagedCluster :=
  let ingress :=
    match ingress_profile i with
    | None => {| web_app_routing := None |}
    | Some g => g
    end in
  let routing :=
    match web_app_routing ingress with
    | None => {| WebAppRouting.enabled := None;
                 WebAppRouting.dns_zone_resource_id := None |}
    | Some r => r
    end in
  let routing :=
    {| WebAppRouting.enabled := Some enable;
       WebAppRouting.dns_zone_resource_id :=
         match Kwargs.dns_zone_resource_id kw with
         | Some z => Some z
         | None => WebAppRouting.dns_zone_resource_id routing
         end |} in
  with_ingress_profile i (Some {| web_app_routing := Some routing |}).

(** The [if enable:] branch up to and including
    [addon_profiles[addon] = addon_profile]. *)
Definition enable_addon (addon : string) (st : frame)
  : outcome unit * frame :=
  let addon_profile :=
    match Py.get (profiles st) addon with
    | Some p => p
    | None => new_addon_profile false None
    end in
  if String.eqb addon CONST_MONITORING_ADDON_NAME then
    if enabled addon_profile then
      (Raised (CLIError monitoring_enabled_message), st)
    else
      let resolved :=
        match workspace st with
        | Some w =>
            if String.eqb w ""
            then ensure_default_log_analytics_workspace_for_monitoring
                   subscription_id resource_group_name
            else Returned w
        | None =>
            ensure_default_log_analytics_workspace_for_monitoring
              subscription_id resource_group_name
        end in
      match resolved with
      | Raised e => (Raised e, st)
      | Returned w =>
          let w := sanitize_loganalytics_ws_resource_id w in
          let c :=
            [(CONST_MONITORING_LOG_ANALYTICS_WORKSPACE_RESOURCE_ID,
              Py.Str w)] in
          let c :=
            Py.set c CONST_MONITORING_USING_AAD_MSI_AUTH
              (Py.Bool (Kwargs.enable_msi_auth_for_monitoring kw)) in
          let addon_profile := with_config addon_profile (Some c) in
          (Returned tt,
           with_workspace
             (store st (Py.set (profiles st) addon addon_profile))
             (Some w))
      end
  else if String.eqb addon (CONST_VIRTUAL_NODE_ADDON_NAME ++ os_type)%string
  then
    if enabled addon_profile then
      (Raised (CLIError virtual_node_enabled_message), st)
    else
      match Kwargs.subnet_name kw with
      | Some s =>
          if String.eqb s "" then
            (Raised (CLIError subnet_required_message), st)
          else
            let addon_profile :=
              with_config addon_profile
                (Some [(CONST_VIRTUAL_NODE_SUBNET_NAME, Py.Str s)]) in
            (Returned tt,
             store st (Py.set (profiles st) addon addon_profile))
      | None => (Raised (CLIError subnet_required_message), st)
      end
  else if String.eqb addon CONST_INGRESS_APPGW_ADDON_NAME then
    if enabled addon_profile then
      (Raised (CLIError (already_enabled_message
                           "ingress-appgw" name resource_group_name)),
       st)
    else
      let c := [] in
      let c := set_if_given c CONST_INGRESS_APPGW_APPLICATION_GATEWAY_NAME
                 (Kwargs.appgw_name kw) in
      let c := set_if_given c CONST_INGRESS_APPGW_SUBNET_CIDR
                 (Kwargs.appgw_subnet_prefix kw) in
      let c := set_if_given c CONST_INGRESS_APPGW_SUBNET_CIDR
                 (Kwargs.appgw_subnet_cidr kw) in
      let c := set_if_given c CONST_INGRESS_APPGW_APPLICATION_GATEWAY_ID
                 (Kwargs.appgw_id kw) in
      let c := set_if_given c CONST_INGRESS_APPGW_SUBNET_ID
                 (Kwargs.appgw_subnet_id kw) in
      let c := set_if_given c CONST_INGRESS_APPGW_WATCH_NAMESPACE
                 (Kwargs.appgw_watch_namespace kw) in
      let addon_profile := new_addon_profile true (Some c) in
      (Returned tt, store st (Py.set (profiles st) addon addon_profile))
  else if String.eqb addon CONST_OPEN_SERVICE_MESH_ADDON_NAME then
    if enabled addon_profile then
      (Raised (CLIError (already_enabled_message
                           "open-service-mesh" name resource_group_name)),
       st)
    else
      let addon_profile := new_addon_profile true (Some []) in
      (Returned tt, store st (Py.set (profiles st) addon addon_profile))
  else if String.eqb addon CONST_CONFCOM_ADDON_NAME then
    if enabled addon_profile then
      (Raised (CLIError (already_enabled_message
                           "confcom" name resource_group_name)),
       st)
    else
      let c := [(CONST_ACC_SGX_QUOTE_HELPER_ENABLED, Py.Str "false")] in
      let c := if Kwargs.enable_sgxquotehelper kw
               then Py.set c CONST_ACC_SGX_QUOTE_HELPER_ENABLED
                      (Py.Str "true")
               else c in
      let addon_profile := new_addon_profile true (Some c) in
      (Returned tt, store st (Py.set (profiles st) addon addon_profile))
  else if String.eqb addon CONST_AZURE_KEYVAULT_SECRETS_PROVIDER_ADDON_NAME
  then
    if enabled addon_profile then
      (Raised (CLIError (already_enabled_message
                           "azure-keyvault-secrets-provider"
                           name resource_group_name)),
       st)
    else
      let c := [(CONST_SECRET_ROTATION_ENABLED, Py.Str "false")] in
      let c := Py.set c CONST_ROTATION_POLL_INTERVAL (Py.Str "2m") in
      let c := if Kwargs.enable_secret_rotation kw
               then Py.set c CONST_SECRET_ROTATION_ENABLED (Py.Str "true")
               else c in
      let c := if Kwargs.disable_secret_rotation kw
               then Py.set c CONST_SECRET_ROTATION_ENABLED (Py.Str "false")
               else c in
      let c := set_if_given c CONST_ROTATION_POLL_INTERVAL
                 (Kwargs.rotation_poll_interval kw) in
      let addon_profile := new_addon_profile true (Some c) in
      let d := Py.set (profiles st)
                 CONST_AZURE_KEYVAULT_SECRETS_PROVIDER_ADDON_NAME
                 addon_profile in
      (Returned tt, store st (Py.set d addon addon_profile))
  else
    (Returned tt, store st (Py.set (profiles st) addon addon_profile)).

(** The [else:] branch: disabling. *)
Definition disable_addon (addon : string) (st : frame)
  : outcome unit * frame :=
  let installed :=
    if Py.contains (profiles st) addon then Returned st
    else if String.eqb addon CONST_KUBE_DASHBOARD_ADDON_NAME then
      Returned (store st (Py.set (profiles st) addon
                            (new_addon_profile false None)))
    else Raised (CLIError (not_installed_message addon)) in
  match installed with
  | Raised e => (Raised e, st)
  | Returned st' =>
      match Py.get (profiles st') addon with
      | Some p =>
          (Returned tt,
           store st' (Py.set (profiles st') addon (with_config p None)))
      | None => (Raised (KeyError addon), st')
      end
  end.

(** [addon_profiles[addon].enabled = enable], the last statement of the
    loop body. *)
Definition mark_enabled (addon : string) (st : frame)
  : outcome unit * frame :=
  match Py.get (profiles st) addon with
  | Some p =>
      (Returned tt,
       store st (Py.set (profiles st) addon (with_enabled p enable)))
  | None => (Raised (KeyError addon), st)
  end.

(** The canonical key of a catalog key. *)
Definition canonical (addon : string) : string :=
  if String.eqb addon CONST_VIRTUAL_NODE_ADDON_NAME
  then (addon ++ os_type)%string
  else addon.

(** One turn of [for addon_arg in addon_args]. *)
Definition reconcile_addon (addon_arg : string) (st : frame)
  : outcome unit * frame :=
  if String.eqb addon_arg "web_application_routing" then
    (Returned tt, with_instance st (web_application_routing (instance st)))
  else
    match Py.get ADDONS addon_arg with
    | None => (Raised (CLIError (invalid_addon_message addon_arg)), st)
    | Some addon =>
        let addon := canonical addon in
        let st :=
          store st
            (honor_names (Py.keys (profiles st)) addon (profiles st)) in
        match (if enable then enable_addon addon st
               else disable_addon addon st) with
        | (Raised e, st') => (Raised e, st')
        | (Returned _, st') => mark_enabled addon st'
        end
    end.

Fixpoint reconcile_all (addon_args : list string) (st : frame)
  : outcome unit * frame :=
  match addon_args with
  | [] => (Returned tt, st)
  | addon_arg :: rest =>
      match reconcile_addon addon_arg st with
      | (Returned _, st') => reconcile_all rest st'
      | (Raised e, st') => (Raised e, st')
      end
  end.

(** The frame on entry to the loop:
    [addon_profiles = instance.addon_profiles or {}]. *)
Definition enter (i : ManagedCluster) : frame :=
  match addon_profiles i with
  | Some (kv :: d) =>
      {| instance := i; profiles := kv :: d; shared := true;
         workspace := Kwargs.workspace_resource_id kw |}
  | _ =>
      {| instance := i; profiles := []; shared := false;
         workspace := Kwargs.workspace_resource_id kw |}
  end.

(** [_update_addons]: what the call returns or raises, and the state in
    which it leaves the cluster object it was given. *)
Definition _update_addons (i : ManagedCluster) (addons : string)
  : outcome ManagedCluster * ManagedCluster :=
  let addon_args := Py.split Py.comma addons in
  match reconcile_all addon_args (enter i) with
  | (Raised e, st) => (Raised e, instance st)
  | (Returned _, st) =>
      let i' := with_addon_profiles (instance st) (Some (profiles st)) in
      let i' := with_service_principal_profile i' None in
      (Returned i', i')
  end.
End Reconcile.

End Reconciler.

(** ** The command handler: [aks_enable_addons] *)

Module Submitter.

(** The calls the handler makes after reconciliation, in order. *)
Inductive event : Type :=
| ContainerInsights (aad_route : bool)
| BeginCreateOrUpdateAndWait (instance : ManagedCluster)
| SdkNoWait (no_wait : bool) (instance : ManagedCluster)
| AddMonitoringRoleAssignment (result : ManagedCluster)
| AddIngressAppgwRoleAssignment (result : ManagedCluster)
| AddVirtualNodeRoleAssignment (result : ManagedCluster)
    (vnet_subnet_id : option string).

(** What the handler returns: the cluster read back from the finished
    operation, or the poller of an operation in flight. *)
Inductive submitted : Type :=
| Materialized (result : ManagedCluster)
| Handle (no_wait : bool) (instance : ManagedCluster).


Section Handler.
Context `{Casing} `{Consts} `{Collaborators}.

Variables (subscription_id resource_group_name name : string).
Variable kw : Kwargs.t.
Variable no_wait : bool.
(** [cmd.cli_ctx.cloud.name] *)
Variable cloud_name : string.

(** [key in instance.addon_profiles and
    instance.addon_profiles[key].enabled]; the attribute is a
    dictionary by then, [monitoring_setup] has raised otherwise. *)
Definition addon_enabled (i : ManagedCluster) (key : string) : bool :=
  match addon_profiles i with
  | Some d =>
      match Py.get d key with
      | Some p => enabled p
      | None => false
      end
  | None => false
  end.

(** [CONST_VIRTUAL_NODE_ADDON_NAME + os_type in instance.addon_profiles] *)
Definition virtual_node_present (i : ManagedCluster) : bool :=
  match addon_profiles i with
  | Some d =>
      Py.contains d (CONST_VIRTUAL_NODE_ADDON_NAME ++ Reconciler.os_type)%string
  | None => false
  end.

Definition need_post_creation_role_assignment (i : ManagedCluster) : bool :=
  addon_enabled i CONST_MONITORING_ADDON_NAME
  || addon_enabled i CONST_INGRESS_APPGW_ADDON_NAME
  || virtual_node_present i.


(** The role assignments that follow the blocking submission. *)
Definition role_assignments (i result : ManagedCluster)
  : list event * outcome unit :=
  let monitoring := addon_enabled i CONST_MONITORING_ADDON_NAME in
  let ingress := addon_enabled i CONST_INGRESS_APPGW_ADDON_NAME in
  let first :=
    (if monitoring && String.eqb (Py.lower cloud_name) "azurecloud"
     then [AddMonitoringRoleAssignment result] else [])
    ++ (if ingress then [AddIngressAppgwRoleAssignment result] else []) in
  if virtual_node_present i then
    match agent_pool_profiles result with
    | None => (first, Raised TypeError)
    | Some [] => (first, Raised IndexError)
    | Some (random_agent_pool :: _) =>
        match vnet_subnet_id random_agent_pool with
        | Some "" => (first, Returned tt)
        | v => (first ++ [AddVirtualNodeRoleAssignment result v],
                Returned tt)
        end
    end
  else (first, Returned tt).

(** The submission of the reconciled cluster [i]. *)
Definition submit (i : ManagedCluster) : list event * outcome submitted :=
  if need_post_creation_role_assignment i then
    match create_or_update_and_wait resource_group_name name i with
    | Raised e => ([BeginCreateOrUpdateAndWait i], Raised e)
    | Returned result =>
        match role_assignments i result with
        | (tr, Raised e) => (BeginCreateOrUpdateAndWait i :: tr, Raised e)
        | (tr, Returned _) =>
            (BeginCreateOrUpdateAndWait i :: tr,
             Returned (Materialized result))
        end
    end
  else ([SdkNoWait no_wait i], Returned (Handle no_wait i)).

End Handler.

End Submitter.

(** ** A catalog to compute with *)

(** Modelled from the spec: the constants of [azext_aks_preview._consts],
    which [custom.py] imports and this repository's sources do not include.
    The spec names the add-ons "monitoring", "http_application_routing" and
    "virtual-node" and gives "aciConnector" as the base key of the last;
    the remaining add-on names are those the error messages of
    [_update_addons] print, and the remaining keys follow the names of the
    imported constants.  The general theorems below hold for every
    [Consts]; this one instance serves the concrete examples. *)
Definition aks_consts : Consts :=
  {| ADDONS :=
       [("http_application_routing", "httpApplicationRouting");
        ("monitoring", "omsagent");
        ("virtual-node", "aciConnector");
        ("kube-dashboard", "kubeDashboard");
        ("ingress-appgw", "ingressApplicationGateway");
        ("open-service-mesh", "openServiceMesh");
        ("confcom", "ACCSGXDevicePlugin");
        ("azure-keyvault-secrets-provider", "azureKeyvaultSecretsProvider")];
     CONST_MONITORING_ADDON_NAME := "omsagent";
     CONST_MONITORING_LOG_ANALYTICS_WORKSPACE_RESOURCE_ID :=
       "logAnalyticsWorkspaceResourceID";
     CONST_MONITORING_USING_AAD_MSI_AUTH := "useAADAuth";
     CONST_VIRTUAL_NODE_ADDON_NAME := "aciConnector";
     CONST_VIRTUAL_NODE_SUBNET_NAME := "SubnetName";
     CONST_INGRESS_APPGW_ADDON_NAME := "ingressApplicationGateway";
     CONST_INGRESS_APPGW_APPLICATION_GATEWAY_NAME := "applicationGatewayName";
     CONST_INGRESS_APPGW_APPLICATION_GATEWAY_ID := "applicationGatewayId";
     CONST_INGRESS_APPGW_SUBNET_CIDR := "subnetCIDR";
     CONST_INGRESS_APPGW_SUBNET_ID := "subnetId";
     CONST_INGRESS_APPGW_WATCH_NAMESPACE := "watchNamespace";
     CONST_OPEN_SERVICE_MESH_ADDON_NAME := "openServiceMesh";
     CONST_CONFCOM_ADDON_NAME := "ACCSGXDevicePlugin";
     CONST_ACC_SGX_QUOTE_HELPER_ENABLED := "ACCSGXQuoteHelperEnabled";
     CONST_AZURE_KEYVAULT_SECRETS_PROVIDER_ADDON_NAME :=
       "azureKeyvaultSecretsProvider";
     CONST_SECRET_ROTATION_ENABLED := "enableSecretRotation";
     CONST_ROTATION_POLL_INTERVAL := "rotationPollInterval";
     CONST_KUBE_DASHBOARD_ADDON_NAME := "kubeDashboard" |}.

(** On ASCII text [str.lower] is [Py.lower]; the keys of the examples are
    ASCII. *)
Definition ascii_casing : Casing := {| str_lower := Py.lower |}.

(** Collaborators that succeed: the default workspace is a fixed id, the
    sanitiser strips nothing, the service hands the cluster back as sent. *)
Definition quiet_collaborators : Collaborators :=
  {| ensure_default_log_analytics_workspace_for_monitoring :=
       fun _ _ => Returned "/subscriptions/s/resourcegroups/d/providers/microsoft.operationalinsights/workspaces/default";
     sanitize_loganalytics_ws_resource_id := fun w => w;
     ensure_container_insights_for_monitoring :=
       fun _ _ _ _ _ _ => None;
     create_or_update_and_wait := fun _ _ i => Returned i |}.

(** Clusters to compute with. *)
Module Samples.

Definition service_principal : ManagedClusterServicePrincipalProfile :=
  {| client_id := "msi"; secret := None |}.

Definition cluster (d : option (Py.dict ManagedClusterAddonProfile))
  : ManagedCluster :=
  {| addon_profiles := d;
     ingress_profile := None;
     service_principal_profile := Some service_principal;
     location := "westeurope";
     agent_pool_profiles := Some [{| vnet_subnet_id := Some "" |}];
     other_properties := [("name", "c1"); ("kubernetes_version", "1.24.6")] |}.

(** A cluster without add-ons. *)
Definition bare : ManagedCluster := cluster (Some []).

Definition workspace_id : string :=
  "/subscriptions/s/resourceGroups/rg/providers/Microsoft.OperationalInsights/workspaces/ws1".

Definition monitoring_profile : ManagedClusterAddonProfile :=
  {| enabled := true;
     config := Some [("logAnalyticsWorkspaceResourceID",
                      Py.Str workspace_id)];
     identity := Some "omsagent-c1" |}.

Definition dashboard_profile : ManagedClusterAddonProfile :=
  {| enabled := true; config := None; identity := None |}.

(** Monitoring enabled, under the canonical key. *)
Definition monitored : ManagedCluster :=
  cluster (Some [("omsagent", monitoring_profile)]).

(** Monitoring enabled, under a key in the casing of the service. *)
Definition monitored_other_case : ManagedCluster :=
  cluster (Some [("omsAgent", monitoring_profile)]).

(** The dashboard enabled. *)
Definition with_dashboard : ManagedCluster :=
  cluster (Some [("kubeDashboard", dashboard_profile)]).

(** Two add-ons installed. *)
Definition two_addons : ManagedCluster :=
  cluster (Some [("kubeDashboard", dashboard_profile);
                 ("omsagent", monitoring_profile)]).

(** Monitoring under two casings of its key, as a cluster could come
    back from the service. *)
Definition two_casings : ManagedCluster :=
  cluster (Some [("omsagent", monitoring_profile);
                 ("OMSAgent", monitoring_profile)]).

(** A virtual-node entry left disabled under a key in another casing. *)
Definition virtual_node_other_case : ManagedCluster :=
  cluster (Some [("ACIConnectorLinux",
                  {| enabled := false; config := None;
                     identity := Some "aci-c1" |})]).

(** [subnet_name="vn-subnet"], the other keyword arguments at their
    defaults. *)
Definition with_subnet : Kwargs.t :=
  {| Kwargs.workspace_resource_id := None;
     Kwargs.enable_msi_auth_for_monitoring := false;
     Kwargs.subnet_name := Some "vn-subnet";
     Kwargs.appgw_name := None;
     Kwargs.appgw_subnet_prefix := None;
     Kwargs.appgw_subnet_cidr := None;
     Kwargs.appgw_id := None;
     Kwargs.appgw_subnet_id := None;
     Kwargs.appgw_watch_namespace := None;
     Kwargs.enable_sgxquotehelper := false;
     Kwargs.enable_secret_rotation := false;
     Kwargs.disable_secret_rotation := false;
     Kwargs.rotation_poll_interval := None;
     Kwargs.dns_zone_resource_id := None |}.

(** [workspace_resource_id=workspace_id], the rest at their defaults. *)
Definition with_workspace_id : Kwargs.t :=
  {| Kwargs.workspace_resource_id := Some workspace_id;
     Kwargs.enable_msi_auth_for_monitoring := false;
     Kwargs.subnet_name := None;
     Kwargs.appgw_name := None;
     Kwargs.appgw_subnet_prefix := None;
     Kwargs.appgw_subnet_cidr := None;
     Kwargs.appgw_id := None;
     Kwargs.appgw_subnet_id := None;
     Kwargs.appgw_watch_namespace := None;
     Kwargs.enable_sgxquotehelper := false;
     Kwargs.enable_secret_rotation := false;
     Kwargs.disable_secret_rotation := false;
     Kwargs.rotation_poll_interval := None;
     Kwargs.dns_zone_resource_id := None |}.

End Samples.

(** ** Custom headers: [get_aks_custom_headers] *)

Module Headers.

Definition format_message : string := "custom headers format is incorrect".

Definition equals : ascii := "="%char.

(** [for pair in aks_custom_headers.split(','): ...] on the remaining
    pairs, with the dictionary built so far. *)
Fixpoint add_pairs (pairs : list string) (headers : Py.dict string)
  : outcome (Py.dict string) :=
  match pairs with
  | [] => Returned headers
  | item :: rest =>
      match Py.split equals item with
      | [key; value] => add_pairs rest (Py.set headers key value)
      | _ => Raised (CLIError format_message)
      end
  end.

Definition get_aks_custom_headers (aks_custom_headers : option string)
  : outcome (Py.dict string) :=
  match aks_custom_headers with
  | None => Returned []
  | Some s =>
      if String.eqb s "" then Returned []
      else add_pairs (Py.split Py.comma s) []
  end.

(** The number of occurrences of a character. *)
Fixpoint count (c : ascii) (s : string) : nat :=
  match s with
  | EmptyString => 0
  | String c' r => (if Ascii.eqb c' c then 1 else 0) + count c r
  end.

(** The text of one pair, and of a list of pairs as a caller writes it. *)
Definition pair_text (kv : string * string) : string :=
  (fst kv ++ String equals (snd kv))%string.

Definition render (kvs : list (string * string)) : string :=
  String.concat (String Py.comma EmptyString) (map pair_text kvs).

(** The dictionary that the pairs [kvs] make of [h], one assignment
    after the other. *)
Definition collect (kvs : list (string * string)) (h : Py.dict string)
  : Py.dict string :=
  fold_left (fun h kv => Py.set h (fst kv) (snd kv)) kvs h.

(** Neither part of the pair holds a comma or an equals sign. *)
Definition plain (kv : string * string) : Prop :=
  count Py.comma (fst kv) = 0 /\ count equals (fst kv) = 0
  /\ count Py.comma (snd kv) = 0 /\ count equals (snd kv) = 0.

End Headers.

(** ** Attaching and detaching a registry: [_ensure_aks_acr_role_assignment] *)

Module Acr.

Definition delete_failed_message : string :=
  "Could not delete role assignments for ACR. Are you an Owner on this subscription?".

Definition create_failed_message : string :=
  "Could not create a role assignment for ACR. Are you an Owner on this subscription?".

Inductive event : Type :=
| Waiting (e : RoleAssignmentWaiter.event)
| AddRoleAssignment (role assignee : string) (scope : option string).

Section Ensure.
(** The outcome of [delete_role_assignments] at each attempt of the waiter,
    and [add_role_assignment] of [_roleassignments], which tells whether
    the assignment was made. *)
Variable delete_role_assignments : nat -> outcome unit.
Variable add_role_assignment :
  string -> string -> option string -> outcome bool.

Definition _ensure_aks_acr_role_assignment (client_id registry_id : string)
    (detach : bool) : list event * outcome unit :=
  if detach then
    match RoleAssignmentWaiter._delete_role_assignments
            delete_role_assignments "acrpull" client_id
            RoleAssignmentWaiter.default_delay (Some registry_id) with
    | (tr, Returned true) => (map Waiting tr, Returned tt)
    | (tr, Returned false) =>
        (map Waiting tr, Raised (CLIError delete_failed_message))
    | (tr, Raised e) => (map Waiting tr, Raised e)
    end
  else
    let call := [AddRoleAssignment "acrpull" client_id (Some registry_id)] in
    match add_role_assignment "acrpull" client_id (Some registry_id) with
    | Returned true => (call, Returned tt)
    | Returned false => (call, Raised (CLIError create_failed_message))
    | Raised e => (call, Raised e)
    end.
End Ensure.

(** The events of the waiter within a trace. *)
Definition waiting (tr : list event) : list RoleAssignmentWaiter.event :=
  flat_map (fun e => match e with Waiting w => [w] | _ => [] end) tr.

End Acr.

(** ** Opening the browser: [wait_then_open] *)

Module Browser.

(** What [urlopen] does: it returns, raises [URLError], or raises something
    else. *)
Inductive probe : Type :=
| Reached
| UrlError
| Failure (e : exn).

Inductive event : Type :=
| UrlOpen (url : string)
| Sleep (seconds : Z)
| OpenNewTab (url : string).

(** How a turn of a loop ends. *)
Inductive control : Type :=
| Continue
| Break
| Throw (e : exn).

(** [for x in xs: body], [None] when the loop is left without an
    exception. *)
Fixpoint for_each (body : nat -> list event * control) (xs : list nat)
  : list event * option exn :=
  match xs with
  | [] => ([], None)
  | x :: rest =>
      match body x with
      | (tr, Continue) =>
          let '(later, how) := for_each body rest in (tr ++ later, how)
      | (tr, Break) => (tr, None)
      | (tr, Throw e) => (tr, Some e)
      end
  end.

Section Open.
(** The outcome of [urlopen] at the turn numbered [x]. *)
Variable urlopen : nat -> probe.
Variable url : string.

(** The body: [try: urlopen(...) except URLError: time.sleep(1)] and then
    [break], which is not under the [except]. *)
Definition turn (x : nat) : list event * control :=
  match urlopen x with
  | Reached => ([UrlOpen url], Break)
  | UrlError => ([UrlOpen url; Sleep 1], Break)
  | Failure e => ([UrlOpen url], Throw e)
  end.

Definition wait_then_open : list event * outcome unit :=
  match for_each turn (seq 1 9) with
  | (tr, None) => (tr ++ [OpenNewTab url], Returned tt)
  | (tr, Some e) => (tr, Raised e)
  end.
End Open.

Definition probes (tr : list event) : nat :=
  length (filter (fun e => match e with UrlOpen _ => true | _ => false end)
            tr).

Definition slept (tr : list event) : Z :=
  fold_right Z.add 0%Z
    (flat_map (fun e => match e with Sleep s => [s] | _ => [] end) tr).

End Browser.

(** ** Disabling from the command line: [aks_disable_addons] *)

Module Disabler.

Inductive event : Type :=
| RemoveMonitoring (addon : ManagedClusterAddonProfile)
| SdkNoWait (no_wait : bool) (instance : ManagedCluster).

Section Handler.
Context `{Casing} `{Consts} `{Collaborators}.

Variables (subscription_id resource_group_name name : string).
Variable no_wait : bool.

(** [ensure_container_insights_for_monitoring] as this handler calls it,
    with [remove_monitoring=True, aad_route=True, create_dcr=False,
    create_dcra=True], on [(addon, subscription_id, resource_group_name,
    name, location)]; [None] when the call returns. *)
Variable remove_container_insights :
  ManagedClusterAddonProfile -> string -> string -> string -> string ->
  option exn.

(** The [try: ... except TypeError: pass] that precedes reconciliation: a
    [TypeError], from a [None] dictionary or [config] or from the call, is
    passed over. *)
Definition remove_association (instance : ManagedCluster) (addons : string)
  : list event * outcome unit :=
  if String.eqb addons "monitoring" then
    match addon_profiles instance with
    | None => ([], Returned tt)
    | Some d =>
        match Py.get d CONST_MONITORING_ADDON_NAME with
        | None => ([], Returned tt)
        | Some p =>
            if enabled p then
              match config p with
              | None => ([], Returned tt)
              | Some c =>
                  match Py.get c CONST_MONITORING_USING_AAD_MSI_AUTH with
                  | None => ([], Returned tt)
                  | Some v =>
                      if String.eqb (Py.lower (Py.str v)) "true" then
                        match remove_container_insights p subscription_id
                                resource_group_name name
                                (location instance) with
                        | None => ([RemoveMonitoring p], Returned tt)
                        | Some TypeError =>
                            ([RemoveMonitoring p], Returned tt)
                        | Some e => ([RemoveMonitoring p], Raised e)
                        end
                      else ([], Returned tt)
                  end
              end
            else ([], Returned tt)
        end
    end
  else ([], Returned tt).

(** The condition under which the association is removed: the argument is
    the one word, and the profile under the monitoring key is enabled with
    an MSI-auth value that reads as true. *)
Definition removal_due (instance : ManagedCluster) (addons : string)
    (p : ManagedClusterAddonProfile) : Prop :=
  addons = "monitoring"
  /\ exists d c v,
       addon_profiles instance = Some d
       /\ Py.get d CONST_MONITORING_ADDON_NAME = Some p
       /\ enabled p = true
       /\ config p = Some c
       /\ Py.get c CONST_MONITORING_USING_AAD_MSI_AUTH = Some v
       /\ Py.lower (Py.str v) = "true".

(** [aks_disable_addons] on the cluster [instance] that [client.get]
    returned; [_update_addons] is called with [enable=False] and no other
    keyword. *)
Definition aks_disable_addons (instance : ManagedCluster) (addons : string)
  : list event * outcome Submitter.submitted :=
  match remove_association instance addons with
  | (tr, Raised e) => (tr, Raised e)
  | (tr, Returned _) =>
      match Reconciler._update_addons subscription_id resource_group_name
              name false Kwargs.default instance addons with
      | (Raised e, _) => (tr, Raised e)
      | (Returned i, _) =>
          (tr ++ [SdkNoWait no_wait i],
           Returned (Submitter.Handle no_wait i))
      end
  end.
End Handler.

Definition is_submission (e : event) : bool :=
  match e with
  | SdkNoWait _ _ => true
  | RemoveMonitoring _ => false
  end.

End Disabler.

(** ** Looking at add-ons: [aks_addon_list], [aks_addon_show],
    [aks_addon_update] *)

Module Listed.
Record t : Type := {
  name : string;
  api_key : string;
  enabled : bool
}.
End Listed.

Module AddonQueries.

(** [InvalidArgumentValueError] beside the exceptions of the
    reconciler. *)
Inductive error : Type :=
| Python (e : exn)
| InvalidArgumentValueError (msg : string).

Inductive result (A : Type) : Type :=
| Ok (a : A)
| Error (e : error).
Arguments Ok {A} a.
Arguments Error {A} e.

(** What [aks_addon_show] returns: the dictionary for an add-on, or the one
    for web application routing, whose [config] is the routing object. *)
Inductive shown : Type :=
| ShownAddon (name api_key : string) (config : option (Py.dict Py.value))
    (identity : option string)
| ShownRouting (name api_key : string) (config : option WebAppRouting.t).

Definition not_enabled_message (addon : string) : string :=
  Reconciler.cat ["Addon "; Py.dquote; addon; Py.dquote;
                  " is not enabled in this cluster."].

(** [mc.ingress_profile and mc.ingress_profile.web_app_routing and
    mc.ingress_profile.web_app_routing.enabled] *)
Definition routing_enabled (mc : ManagedCluster) : bool :=
  match ingress_profile mc with
  | Some g =>
      match web_app_routing g with
      | Some r =>
          match WebAppRouting.enabled r with
          | Some b => b
          | None => false
          end
      | None => false
      end
  | None => false
  end.

(** [d and key in d and d[key].enabled] *)
Definition profile_enabled
    (d : option (Py.dict ManagedClusterAddonProfile)) (key : string) : bool :=
  match d with
  | Some d =>
      match Py.get d key with
      | Some p => enabled p
      | None => false
      end
  | None => false
  end.

Section Queries.
Context `{Consts}.

Definition aks_addon_list (mc : ManagedCluster) : list Listed.t :=
  map (fun item =>
         let name := fst item in
         let addon_key := snd item in
         if String.eqb name "web_application_routing" then
           {| Listed.name := name; Listed.api_key := addon_key;
              Listed.enabled := routing_enabled mc |}
         else
           let addon_key :=
             if String.eqb name "virtual-node"
             then (addon_key ++ Reconciler.os_type)%string
             else addon_key in
           {| Listed.name := name; Listed.api_key := addon_key;
              Listed.enabled := profile_enabled (addon_profiles mc)
                                  addon_key |})
      ADDONS.

Definition aks_addon_show (mc : ManagedCluster) (addon : string)
  : result shown :=
  match Py.get ADDONS addon with
  | None => Error (Python (KeyError addon))
  | Some addon_key =>
      if String.eqb addon "web_application_routing" then
        (* [not mc.ingress_profile and not ... and not ...]: the first
           operand is false for a profile object, and the second reads an
           attribute of [None] otherwise *)
        match ingress_profile mc with
        | None => Error (Python AttributeError)
        | Some g => Ok (ShownRouting addon addon_key (web_app_routing g))
        end
      else
        match addon_profiles mc with
        | Some (kv :: d) =>
            match Py.get (kv :: d) addon_key with
            | Some p =>
                if enabled p
                then Ok (ShownAddon addon addon_key (config p) (identity p))
                else Error (InvalidArgumentValueError
                              (not_enabled_message addon))
            | None =>
                Error (InvalidArgumentValueError (not_enabled_message addon))
            end
        | _ => Error (InvalidArgumentValueError (not_enabled_message addon))
        end
  end.

(** [aks_addon_update]: the check that the add-on is enabled, and then the
    call of [enable_addons] of [addonconfiguration] with
    [check_enabled=False], whose result it returns. *)
Section Update.
Variable R : Type.
Variable enable_addons : string -> Kwargs.t -> bool -> result R.

Definition aks_addon_update (instance : ManagedCluster) (addon : string)
    (kw : Kwargs.t) (no_wait : bool) : result R :=
  if String.eqb addon "web_application_routing" then
    if routing_enabled instance then enable_addons addon kw no_wait
    else Error (InvalidArgumentValueError (not_enabled_message addon))
  else
    match Py.get ADDONS addon with
    | None => Error (Python (KeyError addon))
    | Some addon_key =>
        if profile_enabled (addon_profiles instance) addon_key
        then enable_addons addon kw no_wait
        else Error (InvalidArgumentValueError (not_enabled_message addon))
    end.
End Update.
End Queries.

End AddonQueries.

(** ** Further vocabulary *)

Module MoreProps.

(** The dictionary holds under [c] a profile whose [enabled] is [e]. *)
Definition marked (c : string) (e : bool)
    (d : Py.dict ManagedClusterAddonProfile) : Prop :=
  exists p, Py.get d c = Some p /\ enabled p = e.

(** The catalog gives the name "virtual-node" to the virtual node key and
    to no other: [aks_addon_list] adds the OS suffix by name,
    [_update_addons] by key. *)
Definition virtual_node_named `{Consts} : Prop :=
  forall t a,
    In (t, a) ADDONS ->
    (t = "virtual-node" <-> a = CONST_VIRTUAL_NODE_ADDON_NAME).

(** The routing object of a cluster, if any. *)
Definition routing_of (i : ManagedCluster) : option WebAppRouting.t :=
  match ingress_profile i with
  | Some g => web_app_routing g
  | None => None
  end.

(** The routing object that the [web_application_routing] token leaves in
    a cluster that was [i]: switched to [enable], with the DNS zone of the
    call when one is given and the former one otherwise. *)
Definition routed (enable : bool) (kw : Kwargs.t) (i : ManagedCluster)
  : WebAppRouting.t :=
  {| WebAppRouting.enabled := Some enable;
     WebAppRouting.dns_zone_resource_id :=
       match Kwargs.dns_zone_resource_id kw with
       | Some z => Some z
       | None =>
           match routing_of i with
           | Some r => WebAppRouting.dns_zone_resource_id r
           | None => None
           end
       end |}.

End MoreProps.

(** ** Deleting role assignments: [delete_role_assignments],
    [_search_role_assignments] *)

Module RoleAssignment.
(** The properties of a role assignment that [_get_role_property] reads,
    from a dictionary or from an SDK object alike. *)
Record t : Type := {
  id : string;
  scope : string;
  role_definition_id : string;
  principal_id : string
}.
End RoleAssignment.

Module RoleAssignments.

(** The calls that leave the process, in order. *)
Inductive event : Type :=
| Prompt (msg : string)
| ResolveObjectId (assignee : string)
| ListForScope (scope filter : string)
| ListAssignments (filter : option string)
| ResolveRoleId (role : string) (scope : option string)
| DeleteById (id : string).

(** The clients of [get_auth_management_client] and the helpers imported
    from other modules.  [delete_by_id] is given the ids already deleted by
    the running call; [re_match p s] is whether [re.match(p, s, re.I)]
    finds a match; [lower] is [str.lower], which follows Unicode and of
    which nothing is assumed. *)
Record world : Type := {
  subscription_id : string;
  prompt_y_n : string -> outcome bool;
  build_role_scope : option string -> option string -> string ->
                     outcome string;
  resolve_object_id : string -> outcome string;
  resolve_role_id : string -> option string -> outcome string;
  list_for_scope : string -> string -> outcome (list RoleAssignment.t);
  list_assignments : option string -> outcome (list RoleAssignment.t);
  delete_by_id : list string -> string -> option exn;
  re_match : string -> string -> outcome bool;
  lower : string -> string
}.

(** A computation that makes calls and may raise. *)
Definition M (A : Type) : Type := (list event * outcome A)%type.

Definition ret {A : Type} (a : A) : M A := ([], Returned a).

Definition raise {A : Type} (e : exn) : M A := ([], Raised e).

Definition call {A : Type} (e : event) (r : outcome A) : M A := ([e], r).

Definition lift {A : Type} (r : outcome A) : M A := ([], r).

Definition bind {A B : Type} (m : M A) (k : A -> M B) : M B :=
  match m with
  | (tr, Returned a) => let '(tr', r) := k a in (tr ++ tr', r)
  | (tr, Raised e) => (tr, Raised e)
  end.

Notation "x <- m ;; k" := (bind m (fun x => k))
  (at level 61, m at next level, right associativity).

(** The truth value of an optional string argument. *)
Definition truthy (o : option string) : bool :=
  match o with
  | Some (String _ _) => true
  | _ => false
  end.

Definition ids_message : string :=
  "When assignment ids are used, other parameter values are not required".

Definition all_message : string :=
  "This will delete all role assignments under the subscription. Are you sure?".

(** A list comprehension whose condition may raise. *)
Fixpoint comprehension {A : Type} (keep : A -> outcome bool) (l : list A)
  : outcome (list A) :=
  match l with
  | [] => Returned []
  | a :: r =>
      match keep a with
      | Raised e => Raised e
      | Returned b =>
          match comprehension keep r with
          | Raised e => Raised e
          | Returned r' => Returned (if b then a :: r' else r')
          end
      end
  end.

Section Calls.
Variable w : world.

(** [not scope or include_inherited and re.match(a.scope, scope, re.I) or
    a.scope.lower() == scope.lower()] *)
Definition in_scope (scope : option string) (include_inherited : bool)
    (a : RoleAssignment.t) : outcome bool :=
  match scope with
  | Some (String c r) =>
      let s := String c r in
      let same :=
        String.eqb (lower w (RoleAssignment.scope a)) (lower w s) in
      if include_inherited then
        match re_match w (RoleAssignment.scope a) s with
        | Raised e => Raised e
        | Returned true => Returned true
        | Returned false => Returned same
        end
      else Returned same
  | _ => Returned true
  end.

Definition with_role (role_id : string) (i : RoleAssignment.t) : bool :=
  String.eqb (RoleAssignment.role_definition_id i) role_id.

Definition with_principal (o : string) (i : RoleAssignment.t) : bool :=
  String.eqb (RoleAssignment.principal_id i) o.

(** The listing that [_search_role_assignments] asks for. *)
Definition listing (scope assignee_object_id : option string)
    (include_groups : bool) : M (list RoleAssignment.t) :=
  match scope with
  | Some (String c r) =>
      let s := String c r in
      call (ListForScope s "atScope()") (list_for_scope w s "atScope()")
  | _ =>
      match assignee_object_id with
      | Some (String c r) =>
          let o := String c r in
          let f := if include_groups
                   then Reconciler.cat ["assignedTo('"; o; "')"]
                   else Reconciler.cat ["principalId eq '"; o; "'"] in
          call (ListAssignments (Some f)) (list_assignments w (Some f))
      | _ => call (ListAssignments None) (list_assignments w None)
      end
  end.

Definition _search_role_assignments (scope assignee role : option string)
    (include_inherited include_groups : bool) : M (list RoleAssignment.t) :=
  assignee_object_id <-
    match assignee with
    | Some (String c r) =>
        o <- call (ResolveObjectId (String c r))
               (resolve_object_id w (String c r)) ;;
        ret (Some o)
    | _ => ret None
    end ;;
  assignments <- listing scope assignee_object_id include_groups ;;
  match assignments with
  | [] => ret []
  | _ :: _ =>
      assignments <-
        lift (comprehension (in_scope scope include_inherited)
                assignments) ;;
      assignments <-
        match role with
        | Some (String c r) =>
            role_id <- call (ResolveRoleId (String c r) scope)
                         (resolve_role_id w (String c r) scope) ;;
            ret (filter (with_role role_id) assignments)
        | _ => ret assignments
        end ;;
      ret (match assignee_object_id with
           | Some (String c r) =>
               filter (with_principal (String c r)) assignments
           | _ => assignments
           end)
  end.

(** [for i in ids: assignments_client.delete_by_id(i)], after the
    deletions [done]. *)
Fixpoint delete_each (done ids : list string) : M unit :=
  match ids with
  | [] => ret tt
  | i :: rest =>
      match delete_by_id w done i with
      | Some e => ([DeleteById i], Raised e)
      | None =>
          let '(tr, r) := delete_each (done ++ [i]) rest in
          (DeleteById i :: tr, r)
      end
  end.

(** [any([ids, assignee, role, resource_group_name, scope, assignee,
    yes])], where [ids] is empty. *)
Definition any_selector (assignee role resource_group_name scope
                           : option string) (yes : option bool) : bool :=
  truthy assignee || truthy role || truthy resource_group_name
  || truthy scope || truthy assignee
  || match yes with Some b => b | None => false end.

Definition delete_role_assignments (ids : option (list string))
    (assignee role resource_group_name scope : option string)
    (include_inherited : bool) (yes : option bool) : M unit :=
  match ids with
  | Some (i :: rest) =>
      if truthy assignee || truthy role || truthy resource_group_name
         || truthy scope || include_inherited
      then raise (CLIError ids_message)
      else delete_each [] (i :: rest)
  | _ =>
      go_on <-
        (if any_selector assignee role resource_group_name scope yes
         then ret true
         else call (Prompt all_message) (prompt_y_n w all_message)) ;;
      if go_on : bool then
        scope <- lift (build_role_scope w resource_group_name scope
                         (subscription_id w)) ;;
        assignments <-
          _search_role_assignments (Some scope) assignee role
            include_inherited false ;;
        delete_each [] (map RoleAssignment.id assignments)
      else ret tt
  end.
End Calls.

(** Observations on a trace. *)
Definition deleted (tr : list event) : list string :=
  flat_map (fun e => match e with DeleteById i => [i] | _ => [] end) tr.

Definition is_role_resolution (e : event) : bool :=
  match e with
  | ResolveRoleId _ _ => true
  | _ => false
  end.

(** The selectors as conditions on one assignment: the scope that was
    built, the role id and the object id that were resolved. *)
Definition selected (w : world) (scope : string) (assignee role : option string)
    (include_inherited : bool) (a : RoleAssignment.t) : Prop :=
  (scope <> "" ->
   lower w (RoleAssignment.scope a) = lower w scope
   \/ (include_inherited = true
       /\ re_match w (RoleAssignment.scope a) scope = Returned true))
  /\ (forall r, role = Some r -> r <> "" ->
      resolve_role_id w r (Some scope)
      = Returned (RoleAssignment.role_definition_id a))
  /\ (forall s o, assignee = Some s -> s <> "" ->
      resolve_object_id w s = Returned o -> o <> "" ->
      RoleAssignment.principal_id a = o).

End RoleAssignments.

(** A directory to compute with: two assignments, every deletion
    succeeds, names resolve to themselves, a declined prompt. *)
Module RoleSamples.

Definition reader : RoleAssignment.t :=
  {| RoleAssignment.id := "a1";
     RoleAssignment.scope := "/subscriptions/S";
     RoleAssignment.role_definition_id := "Reader";
     RoleAssignment.principal_id := "p1" |}.

Definition owner : RoleAssignment.t :=
  {| RoleAssignment.id := "a2";
     RoleAssignment.scope := "/subscriptions/s/resourceGroups/rg";
     RoleAssignment.role_definition_id := "Owner";
     RoleAssignment.principal_id := "p2" |}.

Definition directory : RoleAssignments.world :=
  {| RoleAssignments.subscription_id := "s";
     RoleAssignments.prompt_y_n := fun _ => Returned false;
     RoleAssignments.build_role_scope :=
       fun _ _ sub => Returned ("/subscriptions/" ++ sub)%string;
     RoleAssignments.resolve_object_id := fun a => Returned a;
     RoleAssignments.resolve_role_id := fun r _ => Returned r;
     RoleAssignments.list_for_scope := fun _ _ => Returned [reader; owner];
     RoleAssignments.list_assignments := fun _ => Returned [reader; owner];
     RoleAssignments.delete_by_id := fun _ _ => None;
     RoleAssignments.re_match := fun _ _ => Returned false;
     RoleAssignments.lower := Py.lower |}.

(** The same directory when the user agrees to the prompt. *)
Definition agreeing : RoleAssignments.world :=
  {| RoleAssignments.subscription_id := "s";
     RoleAssignments.prompt_y_n := fun _ => Returned true;
     RoleAssignments.build_role_scope :=
       RoleAssignments.build_role_scope directory;
     RoleAssignments.resolve_object_id :=
       RoleAssignments.resolve_object_id directory;
     RoleAssignments.resolve_role_id :=
       RoleAssignments.resolve_role_id directory;
     RoleAssignments.list_for_scope :=
       RoleAssignments.list_for_scope directory;
     RoleAssignments.list_assignments :=
       RoleAssignments.list_assignments directory;
     RoleAssignments.delete_by_id := RoleAssignments.delete_by_id directory;
     RoleAssignments.re_match := RoleAssignments.re_match directory;
     RoleAssignments.lower := RoleAssignments.lower directory |}.

(** A directory that lists nothing and knows no role. *)
Definition vacant : RoleAssignments.world :=
  {| RoleAssignments.subscription_id := "s";
     RoleAssignments.prompt_y_n := fun _ => Returned false;
     RoleAssignments.build_role_scope :=
       RoleAssignments.build_role_scope directory;
     RoleAssignments.resolve_object_id := fun a => Returned a;
     RoleAssignments.resolve_role_id :=
       fun r _ => Raised (CLIError "Role doesn't exist.");
     RoleAssignments.list_for_scope := fun _ _ => Returned [];
     RoleAssignments.list_assignments := fun _ => Returned [];
     RoleAssignments.delete_by_id := fun _ _ => None;
     RoleAssignments.re_match := fun _ _ => Returned false;
     RoleAssignments.lower := Py.lower |}.

End RoleSamples.

(** ** Node pools and pod identities

    The attributes of the cluster that the scaling and the pod identity
    commands read and write, which the add-on commands never name. *)

Module AgentPool.
Record t : Type := {
  name : string;
  count : option Z;
  enable_auto_scaling : option bool;
  other_properties : Py.dict string
}.

(** [agent_profile.count = n] *)
Definition with_count (p : t) (n : Z) : t :=
  {| name := name p; count := Some n;
     enable_auto_scaling := enable_auto_scaling p;
     other_properties := other_properties p |}.

(** The truth value of [enable_auto_scaling]. *)
Definition auto_scaling (p : t) : bool :=
  match enable_auto_scaling p with
  | Some b => b
  | None => false
  end.
End AgentPool.

Module PodIdentityException.
Record t : Type := {
  name : string;
  namespace : string;
  pod_labels : Py.dict string
}.
End PodIdentityException.

Module PodIdentityProfile.
Record t (Identity : Type) : Type := {
  user_assigned_identities : option (list Identity);
  user_assigned_identity_exceptions : option (list PodIdentityException.t)
}.
Arguments user_assigned_identities {Identity} _.
Arguments user_assigned_identity_exceptions {Identity} _.
End PodIdentityProfile.

Module PreviewCluster.
Section Cluster.
Variable Identity : Type.

Record t : Type := {
  pod_identity_profile : option (PodIdentityProfile.t Identity);
  agent_pool_profiles : option (list AgentPool.t);
  service_principal_profile : option ManagedClusterServicePrincipalProfile;
  other_properties : Py.dict string
}.

(** What [sdk_no_wait(no_wait, client.begin_create_or_update, ...)] is
    given. *)
Inductive handle : Type :=
| Handle (no_wait : bool) (instance : t).
End Cluster.
Arguments pod_identity_profile {Identity} _.
Arguments agent_pool_profiles {Identity} _.
Arguments service_principal_profile {Identity} _.
Arguments other_properties {Identity} _.
Arguments Handle {Identity} no_wait instance.
End PreviewCluster.

(** ** Scaling: [aks_scale], [aks_agentpool_scale] *)

Module Scale.

Definition several_pools_message : string :=
  Reconciler.cat
    ["There are more than one node pool in the cluster. ";
     "Please specify nodepool name or use az aks nodepool command to scale node pool"].

Definition autoscaler_message : string :=
  "Cannot scale cluster autoscaler enabled node pool.".

Definition not_found_message (nodepool_name : string) : string :=
  Reconciler.cat ["The nodepool "; Py.dquote; nodepool_name; Py.dquote;
                  " was not found."].

Definition same_count_message : string :=
  "The new node count is the same as the current node count.".

(** [for agent_profile in instance.agent_pool_profiles: ...] over the
    remaining pools: the pools as the loop leaves them when it reaches the
    submission, [single] being [len(instance.agent_pool_profiles) == 1]. *)
Fixpoint scale_first (single : bool) (nodepool_name : string)
    (node_count : Z) (pools : list AgentPool.t)
  : outcome (list AgentPool.t) :=
  match pools with
  | [] => Raised (CLIError (not_found_message nodepool_name))
  | agent_profile :: rest =>
      if String.eqb (AgentPool.name agent_profile) nodepool_name
         || (String.eqb nodepool_name "" && single)
      then
        if AgentPool.auto_scaling agent_profile
        then Raised (CLIError autoscaler_message)
        else Returned (AgentPool.with_count agent_profile node_count :: rest)
      else
        match scale_first single nodepool_name node_count rest with
        | Returned rest' => Returned (agent_profile :: rest')
        | Raised e => Raised e
        end
  end.

Section Handler.
Variable Identity : Type.

(** [_fill_defaults_for_pod_identity_profile] of [_podidentity], which
    works on the profile it is given. *)
Variable _fill_defaults_for_pod_identity_profile :
  option (PodIdentityProfile.t Identity) ->
  outcome (option (PodIdentityProfile.t Identity)).

(** [aks_scale] on the cluster [instance] that [client.get] returned. *)
Definition aks_scale (instance : PreviewCluster.t Identity)
    (node_count : Z) (nodepool_name : string) (no_wait : bool)
  : outcome (PreviewCluster.handle Identity) :=
  match _fill_defaults_for_pod_identity_profile
          (PreviewCluster.pod_identity_profile instance) with
  | Raised e => Raised e
  | Returned profile =>
      match PreviewCluster.agent_pool_profiles instance with
      | None => Raised TypeError
      | Some pools =>
          if (1 <? length pools)%nat && String.eqb nodepool_name ""
          then Raised (CLIError several_pools_message)
          else
            match scale_first (length pools =? 1)%nat nodepool_name
                    node_count pools with
            | Raised e => Raised e
            | Returned pools' =>
                Returned
                  (PreviewCluster.Handle no_wait
                     {| PreviewCluster.pod_identity_profile := profile;
                        PreviewCluster.agent_pool_profiles := Some pools';
                        PreviewCluster.service_principal_profile := None;
                        PreviewCluster.other_properties :=
                          PreviewCluster.other_properties instance |})
            end
      end
  end.
End Handler.

(** What [sdk_no_wait] is given by [aks_agentpool_scale]. *)
Inductive pool_handle : Type :=
| PoolHandle (no_wait : bool) (nodepool_name : string)
    (instance : AgentPool.t).

(** [aks_agentpool_scale] on the pool [instance] that [client.get]
    returned. *)
Definition aks_agentpool_scale (instance : AgentPool.t)
    (nodepool_name : string) (node_count : Z) (no_wait : bool)
  : outcome pool_handle :=
  let new_node_count := node_count in
  if AgentPool.auto_scaling instance
  then Raised (CLIError autoscaler_message)
  else
    if match AgentPool.count instance with
       | Some c => Z.eqb new_node_count c
       | None => false
       end
    then Raised (CLIError same_count_message)
    else Returned (PoolHandle no_wait nodepool_name
                     (AgentPool.with_count instance new_node_count)).

(** The pool that a call of [aks_scale] addresses: the pool of that name,
    or the only pool when no name is given. *)
Definition addressed (pools : list AgentPool.t) (nodepool_name : string)
    (p : AgentPool.t) : Prop :=
  AgentPool.name p = nodepool_name
  \/ (nodepool_name = "" /\ length pools = 1%nat).

End Scale.

(** ** Pod identity exceptions: [aks_pod_identity_exception_add],
    [aks_pod_identity_exception_delete],
    [aks_pod_identity_exception_update] *)

Module PodIdentity.

(** The arguments of [_update_addon_pod_identity]. *)
Record update (Identity : Type) : Type := {
  instance : PreviewCluster.t Identity;
  enable : bool;
  pod_identities : option (list Identity);
  pod_identity_exceptions : option (list PodIdentityException.t)
}.
Arguments instance {Identity} _.
Arguments enable {Identity} _.
Arguments pod_identities {Identity} _.
Arguments pod_identity_exceptions {Identity} _.

(** [exc.name == exc_name and exc.namespace == exc_namespace] *)
Definition named (exc_name exc_namespace : string)
    (exc : PodIdentityException.t) : bool :=
  String.eqb (PodIdentityException.name exc) exc_name
  && String.eqb (PodIdentityException.namespace exc) exc_namespace.

Definition not_found_message (exc_name exc_namespace : string) : string :=
  Reconciler.cat ["pod identity exception "; exc_namespace; "/"; exc_name;
                  " not found"].

(** The loop of [aks_pod_identity_exception_update]: the new list and
    [found_target]. *)
Fixpoint replace_named (exc_name exc_namespace : string)
    (updated_exc : PodIdentityException.t)
    (l : list PodIdentityException.t)
  : list PodIdentityException.t * bool :=
  match l with
  | [] => ([], false)
  | exc :: rest =>
      let '(rest', found_target) :=
        replace_named exc_name exc_namespace updated_exc rest in
      if named exc_name exc_namespace exc
      then (updated_exc :: rest', true)
      else (exc :: rest', found_target)
  end.

Section Handlers.
Variable Identity : Type.

(** [_ensure_pod_identity_addon_is_enabled] and
    [_update_addon_pod_identity] of [_podidentity]: the first raises or
    not, the second changes the cluster it is given. *)
Variable _ensure_pod_identity_addon_is_enabled :
  PreviewCluster.t Identity -> option exn.
Variable _update_addon_pod_identity :
  update Identity -> outcome (PreviewCluster.t Identity).

(** The end of the three commands. *)
Definition submit (u : update Identity) (no_wait : bool)
  : outcome (PreviewCluster.handle Identity) :=
  match _update_addon_pod_identity u with
  | Raised e => Raised e
  | Returned i => Returned (PreviewCluster.Handle no_wait i)
  end.

(** [instance.pod_identity_profile.user_assigned_identity_exceptions = l],
    for the list that [append] changes in place. *)
Definition with_exceptions (i : PreviewCluster.t Identity)
    (p : PodIdentityProfile.t Identity)
    (l : list PodIdentityException.t) : PreviewCluster.t Identity :=
  {| PreviewCluster.pod_identity_profile :=
       Some {| PodIdentityProfile.user_assigned_identities :=
                 PodIdentityProfile.user_assigned_identities p;
               PodIdentityProfile.user_assigned_identity_exceptions :=
                 Some l |};
     PreviewCluster.agent_pool_profiles :=
       PreviewCluster.agent_pool_profiles i;
     PreviewCluster.service_principal_profile :=
       PreviewCluster.service_principal_profile i;
     PreviewCluster.other_properties := PreviewCluster.other_properties i |}.

(** What [aks_pod_identity_exception_add] hands to
    [_update_addon_pod_identity]. *)
Definition added (instance : PreviewCluster.t Identity)
    (exc_name exc_namespace : string) (pod_labels : Py.dict string)
  : outcome (update Identity) :=
  match _ensure_pod_identity_addon_is_enabled instance with
  | Some e => Raised e
  | None =>
      match PreviewCluster.pod_identity_profile instance with
      | None => Raised AttributeError
      | Some p =>
          let exc :=
            {| PodIdentityException.name := exc_name;
               PodIdentityException.namespace := exc_namespace;
               PodIdentityException.pod_labels := pod_labels |} in
          match PodIdentityProfile.user_assigned_identity_exceptions p with
          | Some (e0 :: l0) =>
              (* the list of the instance itself is appended to *)
              let l := (e0 :: l0) ++ [exc] in
              Returned
                {| instance := with_exceptions instance p l;
                   enable := true;
                   pod_identities :=
                     PodIdentityProfile.user_assigned_identities p;
                   pod_identity_exceptions := Some l |}
          | _ =>
              Returned
                {| instance := instance;
                   enable := true;
                   pod_identities :=
                     PodIdentityProfile.user_assigned_identities p;
                   pod_identity_exceptions := Some [exc] |}
          end
      end
  end.

Definition aks_pod_identity_exception_add
    (instance : PreviewCluster.t Identity)
    (exc_name exc_namespace : string) (pod_labels : Py.dict string)
    (no_wait : bool) : outcome (PreviewCluster.handle Identity) :=
  match added instance exc_name exc_namespace pod_labels with
  | Raised e => Raised e
  | Returned u => submit u no_wait
  end.

(** What [aks_pod_identity_exception_delete] hands over. *)
Definition deleted (instance : PreviewCluster.t Identity)
    (exc_name exc_namespace : string) : outcome (update Identity) :=
  match _ensure_pod_identity_addon_is_enabled instance with
  | Some e => Raised e
  | None =>
      match PreviewCluster.pod_identity_profile instance with
      | None => Raised AttributeError
      | Some p =>
          let pod_identity_exceptions :=
            match PodIdentityProfile.user_assigned_identity_exceptions p with
            | Some l =>
                filter (fun exc => negb (named exc_name exc_namespace exc)) l
            | None => []
            end in
          Returned
            {| instance := instance;
               enable := true;
               pod_identities :=
                 PodIdentityProfile.user_assigned_identities p;
               pod_identity_exceptions := Some pod_identity_exceptions |}
      end
  end.

Definition aks_pod_identity_exception_delete
    (instance : PreviewCluster.t Identity)
    (exc_name exc_namespace : string) (no_wait : bool)
  : outcome (PreviewCluster.handle Identity) :=
  match deleted instance exc_name exc_namespace with
  | Raised e => Raised e
  | Returned u => submit u no_wait
  end.

(** What [aks_pod_identity_exception_update] hands over. *)
Definition updated (instance : PreviewCluster.t Identity)
    (exc_name exc_namespace : string) (pod_labels : Py.dict string)
  : outcome (update Identity) :=
  match _ensure_pod_identity_addon_is_enabled instance with
  | Some e => Raised e
  | None =>
      match PreviewCluster.pod_identity_profile instance with
      | None => Raised AttributeError
      | Some p =>
          let updated_exc :=
            {| PodIdentityException.name := exc_name;
               PodIdentityException.namespace := exc_namespace;
               PodIdentityException.pod_labels := pod_labels |} in
          let '(pod_identity_exceptions, found_target) :=
            match PodIdentityProfile.user_assigned_identity_exceptions p with
            | Some l => replace_named exc_name exc_namespace updated_exc l
            | None => ([], false)
            end in
          if found_target then
            Returned
              {| instance := instance;
                 enable := true;
                 pod_identities :=
                   PodIdentityProfile.user_assigned_identities p;
                 pod_identity_exceptions := Some pod_identity_exceptions |}
          else Raised (CLIError (not_found_message exc_name exc_namespace))
      end
  end.

Definition aks_pod_identity_exception_update
    (instance : PreviewCluster.t Identity)
    (exc_name exc_namespace : string) (pod_labels : Py.dict string)
    (no_wait : bool) : outcome (PreviewCluster.handle Identity) :=
  match updated instance exc_name exc_namespace pod_labels with
  | Raised e => Raised e
  | Returned u => submit u no_wait
  end.

(** The exceptions of a cluster, none for [None]. *)
Definition exceptions_of (i : PreviewCluster.t Identity)
  : list PodIdentityException.t :=
  match PreviewCluster.pod_identity_profile i with
  | Some p =>
      match PodIdentityProfile.user_assigned_identity_exceptions p with
      | Some l => l
      | None => []
      end
  | None => []
  end.
End Handlers.

(** The name and the namespace of an exception. *)
Definition key (exc : PodIdentityException.t) : string * string :=
  (PodIdentityException.name exc, PodIdentityException.namespace exc).

End PodIdentity.

(** ** The service principal file: [store_acs_service_principal],
    [load_acs_service_principal], [load_service_principals] *)

Module ServicePrincipals.

(** What the JSON text of the file parses to: an object whose values are
    the stored entries, or another value, of which only the truth value
    matters. *)
Inductive json : Type :=
| Object (d : Py.dict (Py.dict string))
| Other (truth : bool).

(** The file at [config_path]: absent, present with a text that cannot be
    read or parsed, or present with a JSON text. *)
Inductive file : Type :=
| Missing
| Unreadable
| Text (j : json).

Definition load_service_principals (f : file) : option json :=
  match f with
  | Missing => None
  | Unreadable => None
  | Text j => Some j
  end.

(** The truth value of a string argument. *)
Definition given (o : option string) : bool :=
  match o with
  | Some (String _ _) => true
  | _ => false
  end.

(** The entry that is written for a subscription. *)
Definition entry (client_secret service_principal : option string)
  : Py.dict string :=
  (match client_secret with
   | Some (String c r) => [("client_secret", String c r)]
   | _ => []
   end)
  ++ (match service_principal with
      | Some (String c r) => [("service_principal", String c r)]
      | _ => []
      end).

(** [store_acs_service_principal]: the file that it leaves, [json.dump]
    writing what [shell_safe_json_parse] reads back. *)
Definition store_acs_service_principal (f : file) (subscription_id : string)
    (client_secret service_principal : option string) : outcome file :=
  let obj := entry client_secret service_principal in
  match load_service_principals f with
  | Some (Object (kv :: d)) =>
      Returned (Text (Object (Py.set (kv :: d) subscription_id obj)))
  | Some (Other true) => Raised TypeError
  | _ => Returned (Text (Object (Py.set [] subscription_id obj)))
  end.

Definition load_acs_service_principal (f : file) (subscription_id : string)
  : outcome (option (Py.dict string)) :=
  match load_service_principals f with
  | Some (Object (kv :: d)) => Returned (Py.get (kv :: d) subscription_id)
  | Some (Other true) => Raised AttributeError
  | _ => Returned None
  end.

(** The entries of the file that both functions go by. *)
Definition entries (f : file) : Py.dict (Py.dict string) :=
  match f with
  | Text (Object d) => d
  | _ => []
  end.

End ServicePrincipals.

(** Pools and a cluster to compute with. *)
Module PoolSamples.

Definition nodepool1 : AgentPool.t :=
  {| AgentPool.name := "nodepool1"; AgentPool.count := Some 3%Z;
     AgentPool.enable_auto_scaling := None;
     AgentPool.other_properties := [("vm_size", "Standard_DS2_v2")] |}.

Definition nodepool2 : AgentPool.t :=
  {| AgentPool.name := "nodepool2"; AgentPool.count := Some 1%Z;
     AgentPool.enable_auto_scaling := Some true;
     AgentPool.other_properties := [] |}.

Definition userpool : AgentPool.t :=
  {| AgentPool.name := "userpool"; AgentPool.count := Some 2%Z;
     AgentPool.enable_auto_scaling := Some false;
     AgentPool.other_properties := [] |}.

Definition kube_system : PodIdentityException.t :=
  {| PodIdentityException.name := "system";
     PodIdentityException.namespace := "kube-system";
     PodIdentityException.pod_labels := [("app", "mic")] |}.

Definition three_pools : PreviewCluster.t unit :=
  {| PreviewCluster.pod_identity_profile :=
       Some {| PodIdentityProfile.user_assigned_identities := None;
               PodIdentityProfile.user_assigned_identity_exceptions :=
                 Some [kube_system] |};
     PreviewCluster.agent_pool_profiles :=
       Some [nodepool1; nodepool2; userpool];
     PreviewCluster.service_principal_profile :=
       Some {| client_id := "msi"; secret := None |};
     PreviewCluster.other_properties := [("location", "westus2")] |}.

(** Collaborators that leave what they are given as it is. *)
Definition filled (p : option (PodIdentityProfile.t unit))
  : outcome (option (PodIdentityProfile.t unit)) := Returned p.

Definition enabled_addon (i : PreviewCluster.t unit) : option exn := None.

(** [_update_addon_pod_identity] as a setter of the two lists. *)
Definition set_lists (u : PodIdentity.update unit)
  : outcome (PreviewCluster.t unit) :=
  Returned
    {| PreviewCluster.pod_identity_profile :=
         Some {| PodIdentityProfile.user_assigned_identities :=
                   PodIdentity.pod_identities u;
                 PodIdentityProfile.user_assigned_identity_exceptions :=
                   PodIdentity.pod_identity_exceptions u |};
       PreviewCluster.agent_pool_profiles :=
         PreviewCluster.agent_pool_profiles (PodIdentity.instance u);
       PreviewCluster.service_principal_profile :=
         PreviewCluster.service_principal_profile (PodIdentity.instance u);
       PreviewCluster.other_properties :=
         PreviewCluster.other_properties (PodIdentity.instance u) |}.

End PoolSamples.

(** ** Vocabulary of the statements *)

Module Props.

(** The dictionary of a cluster, with [None] read as empty. *)
Definition profiles_of (i : ManagedCluster)
  : Py.dict ManagedClusterAddonProfile :=
  match addon_profiles i with
  | Some d => d
  | None => []
  end.

(** No key of [d] differs from [k] in letter case only. *)
Definition no_case_variant `{Casing} {V} (k : string) (d : Py.dict V)
  : Prop :=
  forall k', In k' (Py.keys d) -> str_lower k' = str_lower k -> k' = k.

(** No key of [d] is [k] in any letter case. *)
Definition absent_in_any_case `{Casing} {V} (k : string) (d : Py.dict V)
  : Prop :=
  forall k', In k' (Py.keys d) -> str_lower k' <> str_lower k.

(** The keys of [d] are pairwise distinct even when case is ignored. *)
Definition case_distinct `{Casing} (ks : list string) : Prop :=
  forall a b, In a ks -> In b ks -> str_lower a = str_lower b -> a = b.

(** An add-on token that the reconciler rejects. *)
Definition unknown_token `{Consts} (t : string) : Prop :=
  t <> "web_application_routing" /\ Py.get ADDONS t = None.

(** The six canonical keys with a configuration branch of their own. *)
Definition configured_key `{Consts} (c : string) : Prop :=
  c = CONST_MONITORING_ADDON_NAME
  \/ c = (CONST_VIRTUAL_NODE_ADDON_NAME ++ Reconciler.os_type)%string
  \/ c = CONST_INGRESS_APPGW_ADDON_NAME
  \/ c = CONST_OPEN_SERVICE_MESH_ADDON_NAME
  \/ c = CONST_CONFCOM_ADDON_NAME
  \/ c = CONST_AZURE_KEYVAULT_SECRETS_PROVIDER_ADDON_NAME.

(** The [CLIError] that tells the user to disable the add-on first, for
    the add-on of canonical key [c]: each of the six keys has its own
    message. *)
Definition AddonAlreadyEnabledError `{Consts}
    (c name resource_group_name : string) (e : exn) : Prop :=
  (c = CONST_MONITORING_ADDON_NAME
   /\ e = CLIError Reconciler.monitoring_enabled_message)
  \/ (c = (CONST_VIRTUAL_NODE_ADDON_NAME ++ Reconciler.os_type)%string
      /\ e = CLIError Reconciler.virtual_node_enabled_message)
  \/ (c = CONST_INGRESS_APPGW_ADDON_NAME
      /\ e = CLIError (Reconciler.already_enabled_message
                         "ingress-appgw" name resource_group_name))
  \/ (c = CONST_OPEN_SERVICE_MESH_ADDON_NAME
      /\ e = CLIError (Reconciler.already_enabled_message
                         "open-service-mesh" name resource_group_name))
  \/ (c = CONST_CONFCOM_ADDON_NAME
      /\ e = CLIError (Reconciler.already_enabled_message
                         "confcom" name resource_group_name))
  \/ (c = CONST_AZURE_KEYVAULT_SECRETS_PROVIDER_ADDON_NAME
      /\ e = CLIError (Reconciler.already_enabled_message
                         "azure-keyvault-secrets-provider"
                         name resource_group_name)).

(** No two canonical keys of the catalog differ in letter case only. *)
Definition catalog_case_distinct `{Casing} `{Consts} : Prop :=
  forall t1 t2 a1 a2,
    Py.get ADDONS t1 = Some a1 -> Py.get ADDONS t2 = Some a2 ->
    str_lower (Reconciler.canonical a1)
    = str_lower (Reconciler.canonical a2) ->
    Reconciler.canonical a1 = Reconciler.canonical a2.

(** [d] holds the key [c] and no other casing of it. *)
Definition sole_entry `{Casing} {V} (c : string) (d : Py.dict V) : Prop :=
  In c (Py.keys d) /\ no_case_variant c d.

Definition UnknownAddonError (addon_arg : string) : exn :=
  CLIError (Reconciler.invalid_addon_message addon_arg).

Definition AddonNotInstalledError (addon : string) : exn :=
  CLIError (Reconciler.not_installed_message addon).



(** The attributes of the cluster that [_update_addons] never assigns. *)
Definition same_rest (i j : ManagedCluster) : Prop :=
  location j = location i
  /\ agent_pool_profiles j = agent_pool_profiles i
  /\ other_properties j = other_properties i.

(** The attributes other than the add-on dictionary. *)
Definition same_but_profiles (i j : ManagedCluster) : Prop :=
  same_rest i j
  /\ ingress_profile j = ingress_profile i
  /\ service_principal_profile j = service_principal_profile i.

(** [key] is [addon] in another casing. *)
Definition variant `{Casing} (addon key : string) : Prop :=
  str_lower key = str_lower addon /\ key <> addon.

(** The profile a disabling turn leaves under the canonical key. *)
Definition switched_off (p : ManagedClusterAddonProfile)
  : ManagedClusterAddonProfile :=
  with_enabled (with_config p None) false.

(** A profile that is switched off and carries no configuration. *)
Definition disabled_profile (p : ManagedClusterAddonProfile) : Prop :=
  enabled p = false /\ config p = None.

End Props.

(** * Properties *)

(** ** Python strings and dictionaries *)

Module PyFacts.
Import Py.

Lemma split_not_nil (sep : ascii) (s : string) : split sep s <> [].
Proof.
  destruct s as [|c r]; simpl; [discriminate|].
  destruct (Ascii.eqb c sep); [discriminate|].
  destruct (split sep r); discriminate.
Qed.

(** A separator as the last character leaves an empty last token, two in
    a row an empty token between them. *)
Lemma split_app_sep (sep : ascii) (s r : string) :
  split sep (s ++ String sep r)%string
  = removelast (split sep s) ++ [last (split sep s) ""]
    ++ split sep r.
Proof.
  induction s as [|c s IH]; simpl.
  - rewrite Ascii.eqb_refl. reflexivity.
  - destruct (Ascii.eqb c sep) eqn:E.
    + rewrite IH. pose proof (split_not_nil sep s) as N.
      destruct (split sep s) as [|w ws]; [contradiction|]. reflexivity.
    + rewrite IH. pose proof (split_not_nil sep s) as N.
      destruct (split sep s) as [|w ws]; [contradiction|].
      simpl. destruct ws; reflexivity.
Qed.

Section DictFacts.
Context {V : Type}.
Implicit Types (d : dict V) (k : string) (v : V).

Lemma get_set_same d k v : get (set d k v) k = Some v.
Proof.
  induction d as [|[k' v'] d IH]; simpl.
  - now rewrite String.eqb_refl.
  - destruct (String.eqb k' k) eqn:E; simpl; rewrite E; auto.
Qed.

Lemma get_set_other d k k' v : k <> k' -> get (set d k v) k' = get d k'.
Proof.
  intros N. induction d as [|[k0 v0] d IH]; simpl.
  - apply String.eqb_neq in N. now rewrite N.
  - destruct (String.eqb k0 k) eqn:E; simpl.
    + apply String.eqb_eq in E; subst k0.
      apply String.eqb_neq in N. now rewrite N.
    + now rewrite IH.
Qed.

Lemma set_set d k v v' : set (set d k v) k v' = set d k v'.
Proof.
  induction d as [|[k0 v0] d IH]; simpl.
  - now rewrite String.eqb_refl.
  - destruct (String.eqb k0 k) eqn:E; simpl; rewrite E; congruence.
Qed.

Lemma set_get_id d k v : get d k = Some v -> set d k v = d.
Proof.
  induction d as [|[k0 v0] d IH]; simpl; [discriminate|].
  destruct (String.eqb k0 k) eqn:E; intros G.
  - congruence.
  - now rewrite IH.
Qed.

Lemma keys_set d k v x :
  In x (keys (set d k v)) <-> In x (keys d) \/ x = k.
Proof.
  unfold keys. induction d as [|[k0 v0] d IH]; simpl.
  - intuition.
  - destruct (String.eqb k0 k) eqn:E; simpl.
    + apply String.eqb_eq in E; subst. intuition.
    + rewrite IH. intuition.
Qed.

Lemma keys_remove d k x :
  In x (keys (remove d k)) <-> In x (keys d) /\ x <> k.
Proof.
  unfold keys, remove. induction d as [|[k0 v0] d IH]; simpl.
  - intuition.
  - destruct (String.eqb k0 k) eqn:E; simpl.
    + apply String.eqb_eq in E; subst. rewrite IH. intuition congruence.
    + apply String.eqb_neq in E. rewrite IH. intuition congruence.
Qed.

Lemma get_some_in d k v : get d k = Some v -> In k (keys d).
Proof.
  unfold keys. induction d as [|[k0 v0] d IH]; simpl; [discriminate|].
  destruct (String.eqb k0 k) eqn:E; intros G.
  - apply String.eqb_eq in E. now left.
  - right. now apply IH.
Qed.

Lemma get_none_not_in d k : get d k = None <-> ~ In k (keys d).
Proof.
  unfold keys. induction d as [|[k0 v0] d IH]; simpl.
  - intuition.
  - destruct (String.eqb k0 k) eqn:E.
    + apply String.eqb_eq in E. split; [discriminate|]. intuition.
    + apply String.eqb_neq in E. rewrite IH. intuition.
Qed.

Lemma contains_false d k : contains d k = false <-> ~ In k (keys d).
Proof.
  unfold contains. rewrite <- get_none_not_in.
  destruct (get d k); split; congruence.
Qed.

Lemma contains_true d k : contains d k = true <-> In k (keys d).
Proof.
  unfold contains. destruct (get d k) eqn:G.
  - split; auto. intros _. eapply get_some_in; eauto.
  - apply get_none_not_in in G. split; [discriminate|contradiction].
Qed.

Lemma get_some_value d k v : get d k = Some v -> In v (map snd d).
Proof.
  induction d as [|[k0 v0] d IH]; simpl; [discriminate|].
  destruct (String.eqb k0 k); intros G.
  - injection G as ->. now left.
  - right. now apply IH.
Qed.

Lemma set_absent d k v : ~ In k (keys d) -> set d k v = d ++ [(k, v)].
Proof.
  unfold keys. induction d as [|[k0 v0] d IH]; simpl; intros N;
    [reflexivity|].
  destruct (String.eqb_spec k0 k) as [E|E]; [tauto|].
  rewrite IH; tauto.
Qed.

Lemma set_not_nil d k v : set d k v <> [].
Proof.
  destruct d as [|[k0 v0] d]; simpl; [discriminate|].
  destruct (String.eqb k0 k); discriminate.
Qed.
End DictFacts.

End PyFacts.

(** ** The waiter *)

Module WaiterFacts.
Import RoleAssignmentWaiter.

Section Loop.
Variable remote : nat -> outcome unit.
Variables (role sp : string) (delay : Z) (scope : option string).

Let loop := retry_loop remote role sp delay scope.
Let pause (x : nat) : Z := (delay + delay * Z.of_nat x)%Z.

Lemma sleeps_app (a b : list event) : sleeps (a ++ b) = sleeps a ++ sleeps b.
Proof. unfold sleeps. apply flat_map_app. Qed.

Lemma attempts_app (a b : list event) :
  attempts (a ++ b) = (attempts a + attempts b)%nat.
Proof. unfold attempts. now rewrite filter_app, length_app. Qed.

(** Propagation failures on every value of [x] exhaust the loop. *)
Lemma loop_exhausted (xs : list nat) :
  (forall x, In x xs -> exists m, remote x = Raised (CloudError m)) ->
  snd (loop xs) = Exhausted
  /\ sleeps (fst (loop xs)) = map pause xs
  /\ attempts (fst (loop xs)) = length xs.
Proof.
  subst loop. induction xs as [|x xs IH]; intros A; simpl.
  - auto.
  - destruct (A x (or_introl eq_refl)) as [m ->].
    destruct IH as (E & S & N); [intros; apply A; now right|].
    destruct (retry_loop remote role sp delay scope xs) as [later how].
    unfold sleeps, attempts in *. simpl in *. subst how.
    rewrite S, N. auto.
Qed.

(** A [CLIError] after propagation failures leaves the loop at once. *)
Lemma loop_cli_error (pre post : list nat) (k : nat) (m : string) :
  (forall x, In x pre -> exists m', remote x = Raised (CloudError m')) ->
  remote k = Raised (CLIError m) ->
  snd (loop (pre ++ k :: post)) = Propagate (CLIError m)
  /\ sleeps (fst (loop (pre ++ k :: post))) = map pause pre
  /\ attempts (fst (loop (pre ++ k :: post))) = S (length pre).
Proof.
  subst loop. induction pre as [|x pre IH]; intros A K; simpl.
  - rewrite K. simpl. auto.
  - destruct (A x (or_introl eq_refl)) as [m' ->].
    destruct IH as (E & S & N); [intros; apply A; now right|assumption|].
    destruct (retry_loop remote role sp delay scope (pre ++ k :: post))
      as [later how].
    unfold sleeps, attempts in *. simpl in *. subst how.
    rewrite S, N. auto.
Qed.
End Loop.

Lemma seq_split (k n : nat) :
  (k < n)%nat -> seq 0 n = seq 0 k ++ k :: seq (S k) (n - S k).
Proof.
  intros L. replace n with (k + S (n - S k))%nat at 1 by lia.
  now rewrite seq_app.
Qed.

Lemma total_linear (delay : Z) :
  total (map (fun x => (delay + delay * Z.of_nat x)%Z) (seq 0 10))
  = (55 * delay)%Z.
Proof.
  cbv [total map seq fold_right Z.of_nat Pos.of_succ_nat Pos.succ]. lia.
Qed.

End WaiterFacts.

(** C4. When every one of the ten deletion attempts fails with a
    [CloudError], [_delete_role_assignments] makes exactly ten attempts,
    sleeps [delay + delay * x] seconds after the attempt numbered [x]
    (110 seconds in all for the default delay of 2) and returns [False];
    when an attempt raises a [CLIError] instead, that error is raised at
    once, with no sleep after it and no further attempt. *)
Theorem delete_role_assignments_backoff
    (remote : nat -> outcome unit) (role sp : string) (delay : Z)
    (scope : option string) :
  let run := RoleAssignmentWaiter._delete_role_assignments
               remote role sp delay scope in
  let pause := fun x : nat => (delay + delay * Z.of_nat x)%Z in
  ((forall x, (x < 10)%nat -> exists m, remote x = Raised (CloudError m)) ->
   snd run = Returned false
   /\ RoleAssignmentWaiter.attempts (fst run) = 10%nat
   /\ RoleAssignmentWaiter.sleeps (fst run) = map pause (seq 0 10)
   /\ (delay = RoleAssignmentWaiter.default_delay ->
       RoleAssignmentWaiter.total (RoleAssignmentWaiter.sleeps (fst run))
       = 110%Z))
  /\ (forall (k : nat) (m : string),
        (k < 10)%nat ->
        (forall x, (x < k)%nat -> exists m', remote x = Raised (CloudError m')) ->
        remote k = Raised (CLIError m) ->
        snd run = Raised (CLIError m)
        /\ RoleAssignmentWaiter.attempts (fst run) = S k
        /\ RoleAssignmentWaiter.sleeps (fst run) = map pause (seq 0 k)).
Proof.
  intros run pause. split.
  - intros A.
    destruct (WaiterFacts.loop_exhausted remote role sp delay scope (seq 0 10))
      as (E & S & N).
    { intros x I. apply in_seq in I. apply A. lia. }
    subst run. unfold RoleAssignmentWaiter._delete_role_assignments.
    destruct (RoleAssignmentWaiter.retry_loop remote role sp delay scope
                (seq 0 10)) as [tr how].
    cbn [fst snd] in *. subst how. cbn [fst snd].
    rewrite WaiterFacts.sleeps_app, WaiterFacts.attempts_app, S, N.
    repeat split.
    intros ->. apply (WaiterFacts.total_linear 2).
  - intros k m L A K.
    destruct (WaiterFacts.loop_cli_error remote role sp delay scope
                (seq 0 k) (seq (S k) (10 - S k)) k m) as (E & S & N).
    { intros x I. apply in_seq in I. apply A. lia. }
    { exact K. }
    rewrite <- (WaiterFacts.seq_split k 10 L) in E, S, N.
    subst run. unfold RoleAssignmentWaiter._delete_role_assignments.
    destruct (RoleAssignmentWaiter.retry_loop remote role sp delay scope
                (seq 0 10)) as [tr how].
    cbn [fst snd] in *. subst how. cbn [fst snd].
    rewrite WaiterFacts.sleeps_app, WaiterFacts.attempts_app, S, N.
    rewrite length_seq. auto.
Qed.

(** The schedule of C4 on a directory that never confirms, and on one that
    rejects the third attempt. *)
Lemma delete_role_assignments_backoff_witness :
  (let run := RoleAssignmentWaiter._delete_role_assignments
                (fun _ => Raised (CloudError "not found")) "acrpull" "sp"
                2 None in
   snd run = Returned false
   /\ RoleAssignmentWaiter.attempts (fst run) = 10%nat
   /\ RoleAssignmentWaiter.total (RoleAssignmentWaiter.sleeps (fst run))
      = 110%Z)
  /\ (let run := RoleAssignmentWaiter._delete_role_assignments
                   (fun x => if (x <? 2)%nat then Raised (CloudError "lag")
                             else Raised (CLIError "denied"))
                   "acrpull" "sp" 2 None in
      snd run = Raised (CLIError "denied")
      /\ RoleAssignmentWaiter.attempts (fst run) = 3%nat
      /\ RoleAssignmentWaiter.sleeps (fst run) = [2; 4]%Z).
Proof.
  split.
  - destruct (delete_role_assignments_backoff
                (fun _ => Raised (CloudError "not found")) "acrpull" "sp"
                2 None) as [H _].
    destruct H as (R & N & S & T).
    { intros x _. now exists "not found". }
    repeat split; auto.
  - destruct (delete_role_assignments_backoff
                (fun x => if (x <? 2)%nat then Raised (CloudError "lag")
                          else Raised (CLIError "denied"))
                "acrpull" "sp" 2 None) as [_ H].
    destruct (H 2%nat "denied") as (R & N & S).
    { lia. }
    { intros x L. exists "lag".
      destruct x as [|[|x]]; [reflexivity|reflexivity|lia]. }
    { reflexivity. }
    repeat split; auto.
Defined.

(** ** The reconciler: what every step leaves alone *)

Module ReconcilerFacts.
Import Reconciler Props.

(** Destructs the scrutinee of the first [match] or [if] of the goal. *)
Ltac case_scrutinee :=
  match goal with
  | |- context [match ?x with _ => _ end] =>
      match type of x with
      | sumbool _ _ => destruct x
      | _ => destruct x eqn:?
      end
  end.

Lemma same_rest_refl i : same_rest i i.
Proof. repeat split. Qed.

Lemma same_rest_trans i j k : same_rest i j -> same_rest j k -> same_rest i k.
Proof. unfold same_rest. intuition congruence. Qed.

Lemma same_but_profiles_refl i : same_but_profiles i i.
Proof. repeat split. Qed.

Lemma same_but_profiles_trans i j k :
  same_but_profiles i j -> same_but_profiles j k -> same_but_profiles i k.
Proof. unfold same_but_profiles, same_rest. intuition congruence. Qed.

Lemma same_but_profiles_rest i j : same_but_profiles i j -> same_rest i j.
Proof. now intros [R _]. Qed.

Lemma store_same st d : same_but_profiles (instance st) (instance (store st d)).
Proof. unfold store. destruct (shared st); repeat split. Qed.

Lemma with_workspace_instance st w : instance (with_workspace st w) = instance st.
Proof. reflexivity. Qed.

Create HintDb frame.
#[local] Hint Resolve same_rest_refl same_but_profiles_refl store_same
  same_but_profiles_rest : frame.

Section Steps.
Context `{Casing} `{Consts} `{Collaborators}.
Variables (subscription_id resource_group_name name : string).
Variable enable : bool.
Variable kw : Kwargs.t.

Let step := reconcile_addon subscription_id resource_group_name name
              enable kw.
Let run := reconcile_all subscription_id resource_group_name name
             enable kw.
Let update := _update_addons subscription_id resource_group_name name
                enable kw.

Lemma enable_addon_same addon st :
  same_but_profiles (instance st)
    (instance (snd (enable_addon subscription_id resource_group_name
                      name kw addon st))).
Proof.
  unfold enable_addon.
  repeat case_scrutinee; cbn [snd with_workspace instance];
    auto with frame.
Qed.

Lemma disable_addon_same addon st :
  same_but_profiles (instance st) (instance (snd (disable_addon addon st))).
Proof.
  unfold disable_addon.
  destruct (Py.contains (profiles st) addon);
    [|destruct (String.eqb addon CONST_KUBE_DASHBOARD_ADDON_NAME)];
    cbv zeta; cbn match; try case_scrutinee; cbn [snd];
    auto with frame.
  eapply same_but_profiles_trans; apply store_same.
Qed.

Lemma mark_enabled_same addon st :
  same_but_profiles (instance st)
    (instance (snd (mark_enabled enable addon st))).
Proof.
  unfold mark_enabled. case_scrutinee; cbn [snd]; auto with frame.
Qed.

Lemma web_application_routing_rest i :
  same_rest i (web_application_routing enable kw i).
Proof. repeat split. Qed.

Lemma step_rest addon_arg st :
  same_rest (instance st) (instance (snd (step addon_arg st))).
Proof.
  subst step. unfold reconcile_addon.
  destruct (String.eqb addon_arg "web_application_routing").
  { apply web_application_routing_rest. }
  destruct (Py.get ADDONS addon_arg) as [addon|]; [|apply same_rest_refl].
  set (st1 := store st _).
  assert (S1 : same_rest (instance st) (instance st1))
    by (subst st1; auto with frame).
  assert (E : same_rest (instance st1)
                (instance (snd (if enable
                                then enable_addon subscription_id
                                       resource_group_name name kw
                                       (canonical addon) st1
                                else disable_addon (canonical addon) st1)))).
  { apply same_but_profiles_rest.
    case enable; [apply enable_addon_same|apply disable_addon_same]. }
  destruct (if enable then _ else _) as [[u|e] st2]; cbn [snd] in *.
  - pose proof (mark_enabled_same (canonical addon) st2) as M.
    apply same_but_profiles_rest in M.
    eapply same_rest_trans; [exact S1|].
    eapply same_rest_trans; [exact E|exact M].
  - eapply same_rest_trans; [exact S1|exact E].
Qed.

Lemma run_rest addon_args st :
  same_rest (instance st) (instance (snd (run addon_args st))).
Proof.
  subst run. revert st.
  induction addon_args as [|a rest IH]; intros st; simpl.
  - apply same_rest_refl.
  - pose proof (step_rest a st) as S. subst step.
    destruct (reconcile_addon _ _ _ _ _ a st) as [[u|e] st1];
      cbn [snd] in *; [|exact S].
    eapply same_rest_trans; [exact S|apply IH].
Qed.

Lemma enter_instance i : instance (enter kw i) = i.
Proof. unfold enter. destruct (addon_profiles i) as [[|kv d]|]; reflexivity. Qed.

(** An unknown token stops the loop where it stands. *)
Lemma step_unknown t st :
  unknown_token t ->
  step t st = (Raised (UnknownAddonError t), st).
Proof.
  intros [N G]. subst step. unfold reconcile_addon.
  apply String.eqb_neq in N. now rewrite N, G.
Qed.

Lemma run_unknown addon_args t st :
  In t addon_args -> unknown_token t ->
  exists e, fst (run addon_args st) = Raised e.
Proof.
  subst run. revert st.
  induction addon_args as [|a rest IH]; intros st I U; [contradiction|].
  simpl. destruct I as [->|I].
  - pose proof (step_unknown t st U) as S. subst step. rewrite S.
    eexists; reflexivity.
  - destruct (reconcile_addon _ _ _ _ _ a st) as [[u|e] st1].
    + now apply IH.
    + eexists; reflexivity.
Qed.
Lemma update_unknown_raises i addons t :
  In t (Py.split Py.comma addons) -> unknown_token t ->
  exists e, fst (update i addons) = Raised e.
Proof.
  intros I U. subst update. unfold _update_addons.
  destruct (run_unknown _ t (enter kw i) I U) as [e E]. subst run.
  destruct (reconcile_all _ _ _ _ _ _ _) as [[u|e'] st];
    cbn [fst] in *; [discriminate|].
  now exists e'.
Qed.

Lemma update_unknown_first i addons t rest :
  Py.split Py.comma addons = t :: rest -> unknown_token t ->
  update i addons = (Raised (UnknownAddonError t), i).
Proof.
  intros S U. subst update. unfold _update_addons. rewrite S.
  cbn [reconcile_all].
  pose proof (step_unknown t (enter kw i) U) as E. subst step.
  rewrite E. now rewrite enter_instance.
Qed.

(** The loop over a list in two parts. *)
Lemma run_app pre post st :
  run (pre ++ post) st
  = match run pre st with
    | (Returned _, st') => run post st'
    | (Raised e, st') => (Raised e, st')
    end.
Proof.
  subst run. revert st. induction pre as [|a pre IH]; intros st; simpl.
  - reflexivity.
  - destruct (reconcile_addon _ _ _ _ _ a st) as [[u|e] st1];
      [apply IH|reflexivity].
Qed.

(** An unknown token, wherever it stands: the tokens before it decide. *)
Lemma update_unknown_at i addons pre t post :
  Py.split Py.comma addons = pre ++ t :: post -> unknown_token t ->
  update i addons
  = match run pre (enter kw i) with
    | (Returned _, st) => (Raised (UnknownAddonError t), instance st)
    | (Raised e, st) => (Raised e, instance st)
    end.
Proof.
  intros S U. subst update. unfold _update_addons. rewrite S.
  fold run. rewrite run_app.
  destruct (run pre (enter kw i)) as [[u|e] st]; [|reflexivity].
  subst run. cbn [reconcile_all].
  pose proof (step_unknown t st U) as E. subst step. now rewrite E.
Qed.

(** No turn assigns the service principal profile, and only the
    [web_application_routing] turn assigns the ingress profile. *)
Lemma step_principal addon_arg st :
  service_principal_profile (instance (snd (step addon_arg st)))
  = service_principal_profile (instance st)
  /\ (addon_arg <> "web_application_routing" ->
      ingress_profile (instance (snd (step addon_arg st)))
      = ingress_profile (instance st)).
Proof.
  subst step. unfold reconcile_addon.
  destruct (String.eqb_spec addon_arg "web_application_routing") as [->|N].
  { split; [reflexivity|]. now intros K. }
  destruct (Py.get ADDONS addon_arg) as [addon|]; [|now split].
  set (st1 := store st _).
  assert (S1 : same_but_profiles (instance st) (instance st1))
    by (subst st1; auto with frame).
  assert (E : same_but_profiles (instance st1)
                (instance (snd (if enable
                                then enable_addon subscription_id
                                       resource_group_name name kw
                                       (canonical addon) st1
                                else disable_addon (canonical addon) st1)))).
  { case enable; [apply enable_addon_same|apply disable_addon_same]. }
  assert (T : same_but_profiles (instance st)
                (instance (snd (match (if enable
                                       then enable_addon subscription_id
                                              resource_group_name name kw
                                              (canonical addon) st1
                                       else disable_addon (canonical addon)
                                              st1) with
                                | (Raised e, st') => (Raised e, st')
                                | (Returned _, st') =>
                                    mark_enabled enable (canonical addon) st'
                                end)))).
  { destruct (if enable then _ else _) as [[u|e] st2]; cbn [snd] in *.
    - pose proof (mark_enabled_same (canonical addon) st2) as M.
      eapply same_but_profiles_trans; [exact S1|].
      eapply same_but_profiles_trans; [exact E|exact M].
    - eapply same_but_profiles_trans; [exact S1|exact E]. }
  destruct T as (_ & G & P). split; [exact P|]. now intros _.
Qed.

Lemma run_principal addon_args st :
  service_principal_profile (instance (snd (run addon_args st)))
  = service_principal_profile (instance st)
  /\ (~ In "web_application_routing" addon_args ->
      ingress_profile (instance (snd (run addon_args st)))
      = ingress_profile (instance st)).
Proof.
  subst run. revert st.
  induction addon_args as [|a rest IH]; intros st; simpl.
  - now split.
  - pose proof (step_principal a st) as [P G]. subst step.
    destruct (reconcile_addon _ _ _ _ _ a st) as [[u|e] st1];
      cbn [snd] in *.
    + destruct (IH st1) as [P1 G1]. split; [congruence|].
      intros N. rewrite G1, G; auto.
    + split; [exact P|]. intros N. apply G. auto.
Qed.

(** What a call that raises has left of the cluster. *)
Lemma update_raised_frame i addons e final :
  update i addons = (Raised e, final) ->
  same_rest i final
  /\ service_principal_profile final = service_principal_profile i
  /\ (~ In "web_application_routing" (Py.split Py.comma addons) ->
      ingress_profile final = ingress_profile i).
Proof.
  subst update. unfold _update_addons. intros U.
  pose proof (run_rest (Py.split Py.comma addons) (enter kw i)) as R.
  pose proof (run_principal (Py.split Py.comma addons) (enter kw i))
    as [P G].
  subst run. rewrite enter_instance in R, P, G.
  destruct (reconcile_all _ _ _ _ _ _ _) as [[u|e'] st]; [discriminate|].
  injection U as <- <-. cbn [snd] in *. exact (conj R (conj P G)).
Qed.
End Steps.

End ReconcilerFacts.

(** C9. A call of [_update_addons] that returns hands back the object it
    was given, with [service_principal_profile] set to [None] and with
    every attribute other than [addon_profiles], [ingress_profile] and
    [service_principal_profile] as it was. *)
Theorem update_addons_frame `{Casing} `{Consts} `{Collaborators}
    (subscription_id resource_group_name name : string) (enable : bool)
    (kw : Kwargs.t) (i : ManagedCluster) (addons : string)
    (i' final : ManagedCluster) :
  Reconciler._update_addons subscription_id resource_group_name name
    enable kw i addons = (Returned i', final) ->
  final = i'
  /\ service_principal_profile i' = None
  /\ location i' = location i
  /\ agent_pool_profiles i' = agent_pool_profiles i
  /\ other_properties i' = other_properties i.
Proof.
  unfold Reconciler._update_addons. intros U.
  pose proof (ReconcilerFacts.run_rest subscription_id resource_group_name
                name enable kw (Py.split Py.comma addons)
                (Reconciler.enter kw i)) as R.
  rewrite ReconcilerFacts.enter_instance in R.
  destruct (Reconciler.reconcile_all _ _ _ _ _ _ _) as [[u|e] st];
    [|discriminate].
  injection U as <- <-. destruct R as (L & A & O). cbn [snd] in *.
  repeat split; assumption.
Qed.

Lemma update_addons_frame_witness :
  let i' :=
    fst (@Reconciler._update_addons ascii_casing aks_consts quiet_collaborators
           "s" "rg" "c1" false Kwargs.default Samples.two_addons
           "kube-dashboard,web_application_routing") in
  exists r,
    i' = Returned r
    /\ service_principal_profile r = None
    /\ location r = "westeurope"
    /\ other_properties r = other_properties Samples.two_addons.
Proof.
  eexists. split; [reflexivity|].
  destruct (@update_addons_frame ascii_casing aks_consts quiet_collaborators
              "s" "rg" "c1" false Kwargs.default Samples.two_addons
              "kube-dashboard,web_application_routing" _ _ eq_refl)
    as (_ & S & L & _ & O).
  repeat split; assumption.
Defined.

(** C1, as the code has it.  A token that is neither
    [web_application_routing] nor a key of the catalog makes the call fail
    wherever it stands in the list.  When it is the first token the error
    is the [CLIError] naming it and the cluster object is as it was.
    Wherever it stands, the tokens before it decide: when the loop over
    them returns, the error is the [CLIError] naming the token and the
    cluster object is as those tokens left it; when one of them raises,
    the call raises that error.  In either case the call has assigned
    nothing but [addon_profiles] and, when [web_application_routing] is
    among the tokens, [ingress_profile]. *)
Theorem unknown_addon_rejected `{Casing} `{Consts} `{Collaborators}
    (subscription_id resource_group_name name : string) (enable : bool)
    (kw : Kwargs.t) (i : ManagedCluster) (addons : string) (t : string) :
  Props.unknown_token t ->
  In t (Py.split Py.comma addons) ->
  let call :=
    Reconciler._update_addons subscription_id resource_group_name name
      enable kw i addons in
  (exists e, fst call = Raised e)
  /\ (forall rest,
        Py.split Py.comma addons = t :: rest ->
        call = (Raised (Props.UnknownAddonError t), i))
  /\ (forall pre post,
        Py.split Py.comma addons = pre ++ t :: post ->
        match Reconciler.reconcile_all subscription_id resource_group_name
                name enable kw pre (Reconciler.enter kw i) with
        | (Returned _, st) =>
            call = (Raised (Props.UnknownAddonError t),
                    Reconciler.instance st)
        | (Raised e, st) => call = (Raised e, Reconciler.instance st)
        end)
  /\ location (snd call) = location i
  /\ agent_pool_profiles (snd call) = agent_pool_profiles i
  /\ other_properties (snd call) = other_properties i
  /\ service_principal_profile (snd call) = service_principal_profile i
  /\ (~ In "web_application_routing" (Py.split Py.comma addons) ->
      ingress_profile (snd call) = ingress_profile i).
Proof.
  intros U I call.
  assert (R : exists e, fst call = Raised e)
    by now apply ReconcilerFacts.update_unknown_raises with (t := t).
  split; [exact R|]. split; [|split].
  - intros rest S. now apply ReconcilerFacts.update_unknown_first with rest.
  - intros pre post S.
    pose proof (ReconcilerFacts.update_unknown_at subscription_id
                  resource_group_name name enable kw i addons pre t post
                  S U) as E.
    fold call in E.
    destruct (Reconciler.reconcile_all _ _ _ _ _ pre _) as [[u|e] st];
      exact E.
  - destruct R as [e R].
    destruct (ReconcilerFacts.update_raised_frame subscription_id
                resource_group_name name enable kw i addons e (snd call))
      as ((L & A & O) & P & G).
    { fold call. rewrite <- R. apply surjective_pairing. }
    repeat split; assumption.
Qed.

Lemma unknown_addon_rejected_witness :
  Props.unknown_token (H := aks_consts) "bogus"
  /\ @Reconciler._update_addons ascii_casing aks_consts quiet_collaborators
       "s" "rg" "c1" true Kwargs.default Samples.monitored
       "bogus,kube-dashboard"
     = (Raised (CLIError "Invalid addon name: bogus."), Samples.monitored)
  /\ (let call :=
        @Reconciler._update_addons ascii_casing aks_consts
          quiet_collaborators "s" "rg" "c1" true Kwargs.default
          Samples.monitored "kube-dashboard,bogus,monitoring" in
      fst call = Raised (CLIError "Invalid addon name: bogus.")
      /\ Py.keys (Props.profiles_of (snd call)) = ["omsagent"; "kubeDashboard"]
      /\ location (snd call) = location Samples.monitored
      /\ service_principal_profile (snd call)
         = service_principal_profile Samples.monitored
      /\ ingress_profile (snd call) = ingress_profile Samples.monitored).
Proof.
  assert (U : Props.unknown_token (H := aks_consts) "bogus")
    by (split; [discriminate|reflexivity]).
  split; [exact U|]. split.
  - destruct (@unknown_addon_rejected ascii_casing aks_consts
                quiet_collaborators "s" "rg" "c1" true Kwargs.default
                Samples.monitored "bogus,kube-dashboard" "bogus" U)
      as (_ & F & _).
    { simpl. now left. }
    exact (F _ eq_refl).
  - intros call.
    destruct (@unknown_addon_rejected ascii_casing aks_consts
                quiet_collaborators "s" "rg" "c1" true Kwargs.default
                Samples.monitored "kube-dashboard,bogus,monitoring" "bogus" U)
      as (_ & _ & At & L & _ & _ & P & G).
    { simpl. auto. }
    specialize (At ["kube-dashboard"] ["monitoring"] eq_refl).
    fold call in At, L, P, G.
    split; [now rewrite At|]. split; [now rewrite At|].
    split; [exact L|]. split; [exact P|].
    apply G. simpl. intros [K|[K|[K|[]]]]; discriminate.
Defined.

(** C1 does not hold as stated: with [web_application_routing] before an
    unknown token the call fails with the error naming that token, and the
    ingress profile of the cluster has been assigned by then. *)
Lemma unknown_addon_after_valid_token_mutates :
  let call :=
    @Reconciler._update_addons ascii_casing aks_consts quiet_collaborators
      "s" "rg" "c1" true Kwargs.default Samples.bare
      "web_application_routing,bogus" in
  Props.unknown_token (H := aks_consts) "bogus"
  /\ In "bogus" (Py.split Py.comma "web_application_routing,bogus")
  /\ fst call = Raised (Props.UnknownAddonError "bogus")
  /\ snd call <> Samples.bare
  /\ ingress_profile Samples.bare = None
  /\ ingress_profile (snd call)
     = Some {| web_app_routing :=
                 Some {| WebAppRouting.enabled := Some true;
                         WebAppRouting.dns_zone_resource_id := None |} |}.
Proof.
  cbv zeta. repeat split; try reflexivity; try discriminate.
  simpl. auto.
Qed.

(** C10, as the code has it.  Splitting never gives an empty token list,
    and the empty string splits into the single token [""].  That token is
    not in the catalog, so the call on [""] raises the [CLIError] "Invalid
    addon name: ." and leaves the cluster as it was; the loop rejects the
    empty token in the same way in any state.  A string with a trailing or
    a doubled comma has such a token, and a call on a string with such a
    token never returns: when the loop over the tokens before the empty
    one returns, the error is "Invalid addon name: ." and the cluster is
    as those tokens left it, and when one of them raises, the call raises
    that error instead. *)
Theorem empty_addons_rejected `{Casing} `{Consts} `{Collaborators}
    (subscription_id resource_group_name name : string) (enable : bool)
    (kw : Kwargs.t) (i : ManagedCluster) :
  Py.get ADDONS "" = None ->
  let update :=
    Reconciler._update_addons subscription_id resource_group_name name
      enable kw i in
  (forall addons, Py.split Py.comma addons <> [])
  /\ Py.split Py.comma "" = [""]
  /\ update "" = (Raised (CLIError "Invalid addon name: ."), i)
  /\ (forall st,
        Reconciler.reconcile_addon subscription_id resource_group_name name
          enable kw "" st
        = (Raised (CLIError "Invalid addon name: ."), st))
  /\ (forall s, In "" (Py.split Py.comma (s ++ ",")%string))
  /\ (forall s r, In "" (Py.split Py.comma (s ++ ",," ++ r)%string))
  /\ (forall addons,
        In "" (Py.split Py.comma addons) ->
        exists e, fst (update addons) = Raised e)
  /\ (forall addons pre post,
        Py.split Py.comma addons = pre ++ "" :: post ->
        match Reconciler.reconcile_all subscription_id resource_group_name
                name enable kw pre (Reconciler.enter kw i) with
        | (Returned _, st) =>
            update addons = (Raised (CLIError "Invalid addon name: ."),
                             Reconciler.instance st)
        | (Raised e, st) => update addons = (Raised e, Reconciler.instance st)
        end).
Proof.
  intros G update.
  assert (U : Props.unknown_token "") by (split; [discriminate|exact G]).
  split; [|split; [|split; [|split; [|split; [|split; [|split]]]]]].
  - intros addons. apply PyFacts.split_not_nil.
  - reflexivity.
  - change (CLIError "Invalid addon name: .")
      with (Props.UnknownAddonError "").
    now apply ReconcilerFacts.update_unknown_first with (rest := []).
  - intros st.
    change (CLIError "Invalid addon name: .")
      with (Props.UnknownAddonError "").
    now apply ReconcilerFacts.step_unknown.
  - intros s. change (s ++ ",")%string with (s ++ String Py.comma "")%string.
    rewrite PyFacts.split_app_sep. rewrite !in_app_iff. right. right.
    simpl. now left.
  - intros s r.
    change (s ++ ",," ++ r)%string
      with (s ++ String Py.comma (String Py.comma r))%string.
    rewrite PyFacts.split_app_sep. rewrite !in_app_iff. right. right.
    simpl. now left.
  - intros addons I.
    now apply ReconcilerFacts.update_unknown_raises with (t := "").
  - intros addons pre post S.
    pose proof (ReconcilerFacts.update_unknown_at subscription_id
                  resource_group_name name enable kw i addons pre "" post
                  S U) as E.
    fold update in E.
    destruct (Reconciler.reconcile_all _ _ _ _ _ pre _) as [[u|e] st];
      exact E.
Qed.

Lemma empty_addons_rejected_witness :
  @Reconciler._update_addons ascii_casing aks_consts quiet_collaborators
    "s" "rg" "c1" false Kwargs.default Samples.monitored ""
  = (Raised (CLIError "Invalid addon name: ."), Samples.monitored)
  /\ In "" (Py.split Py.comma "monitoring,")
  /\ In "" (Py.split Py.comma "monitoring,,confcom")
  /\ fst (@Reconciler._update_addons ascii_casing aks_consts
            quiet_collaborators "s" "rg" "c1" false Kwargs.default
            Samples.monitored "monitoring,")
     = Raised (CLIError "Invalid addon name: .").
Proof.
  destruct (@empty_addons_rejected ascii_casing aks_consts quiet_collaborators
              "s" "rg" "c1" false Kwargs.default Samples.monitored eq_refl)
    as (_ & _ & E & _ & T & D & _ & At).
  split; [exact E|]. split; [exact (T "monitoring")|].
  split; [exact (D "monitoring" "confcom")|].
  specialize (At "monitoring," ["monitoring"] [] eq_refl).
  now rewrite At.
Defined.

(** C10 does not hold as stated: a trailing comma gives an empty token,
    but the token before it is processed first, and when that one raises
    the error is its own.  Disabling "monitoring," on a cluster without
    monitoring raises "The addon omsagent is not installed.", not "Invalid
    addon name: .". *)
Lemma trailing_comma_raises_the_earlier_error :
  let call :=
    @Reconciler._update_addons ascii_casing aks_consts quiet_collaborators
      "s" "rg" "c1" false Kwargs.default Samples.bare "monitoring," in
  Py.split Py.comma "monitoring," = ["monitoring"; ""]
  /\ Py.get (ADDONS (Consts := aks_consts)) "" = None
  /\ fst call = Raised (CLIError "The addon omsagent is not installed.")
  /\ fst call <> Raised (CLIError "Invalid addon name: .").
Proof.
  cbv zeta. repeat split; try reflexivity. discriminate.
Qed.

(** ** The coalescing of keys that differ in case *)

Module CoalesceFacts.
Import Reconciler Props.

Section Coalesce.
Context `{Casing}.
Variable addon : string.
Implicit Types (d : Py.dict ManagedClusterAddonProfile) (ks : list string).

Lemma variant_test key :
  String.eqb (str_lower key) (str_lower addon)
  && negb (String.eqb key addon) = true
  <-> variant addon key.
Proof.
  unfold Props.variant. rewrite andb_true_iff, negb_true_iff.
  now rewrite String.eqb_eq, String.eqb_neq.
Qed.

Lemma variant_test_false key :
  String.eqb (str_lower key) (str_lower addon)
  && negb (String.eqb key addon) = false
  <-> ~ variant addon key.
Proof.
  rewrite <- variant_test.
  destruct (_ && _); split; congruence.
Qed.

(** Keys that are absent, or no variants, are passed over. *)
Lemma honor_names_id ks d :
  (forall key, In key ks -> variant addon key -> ~ In key (Py.keys d)) ->
  honor_names ks addon d = d.
Proof.
  induction ks as [|key rest IH]; intros A; simpl; [reflexivity|].
  destruct (_ && _) eqn:T.
  - apply variant_test in T.
    assert (G : Py.get d key = None).
    { apply PyFacts.get_none_not_in. apply A; [now left|exact T]. }
    unfold Py.pop. rewrite G. apply IH. intros; apply A; auto.
    now right.
  - apply IH. intros; apply A; auto. now right.
Qed.

Lemma honor_names_settled ks d :
  no_case_variant addon d -> honor_names ks addon d = d.
Proof.
  intros N. apply honor_names_id. intros key _ [L D] I.
  apply D. now apply N.
Qed.

(** The loop adds no key but [addon]. *)
Lemma honor_names_keys ks d x :
  In x (Py.keys (honor_names ks addon d)) ->
  In x (Py.keys d) \/ x = addon.
Proof.
  revert d. induction ks as [|key rest IH]; intros d; simpl; [auto|].
  destruct (_ && _); [|apply IH].
  unfold Py.pop. destruct (Py.get d key) as [p|]; [|apply IH].
  intros I. apply IH in I. destruct I as [I|I]; [|now right].
  apply PyFacts.keys_set in I. destruct I as [I|I]; [|now right].
  apply PyFacts.keys_remove in I. now left.
Qed.

(** The loop removes variants only. *)
Lemma honor_names_keeps ks d x :
  In x (Py.keys d) -> ~ variant addon x ->
  In x (Py.keys (honor_names ks addon d)).
Proof.
  revert d. induction ks as [|key rest IH]; intros d I N; simpl; [auto|].
  destruct (_ && _) eqn:T; [|now apply IH].
  unfold Py.pop. destruct (Py.get d key) as [p|]; [|now apply IH].
  apply IH; [|exact N].
  apply PyFacts.keys_set. left. apply PyFacts.keys_remove.
  split; [exact I|]. intros ->. apply N. now apply variant_test.
Qed.

(** Once every variant among the keys is on the list, none survives. *)
Lemma honor_names_clears ks d :
  (forall key, In key (Py.keys d) -> variant addon key -> In key ks) ->
  no_case_variant addon (honor_names ks addon d).
Proof.
  revert d. induction ks as [|key rest IH]; intros d A; simpl.
  - intros k' I L. destruct (String.eqb_spec k' addon) as [E|E]; auto.
    destruct (A k' I (conj L E)).
  - destruct (_ && _) eqn:T.
    + unfold Py.pop. destruct (Py.get d key) as [p|] eqn:G.
      * apply IH. intros k I V.
        apply PyFacts.keys_set in I. destruct I as [I| ->].
        -- apply PyFacts.keys_remove in I. destruct I as [I D].
           destruct (A k I V) as [->|R]; [contradiction|exact R].
        -- now destruct V.
      * apply IH. intros k I V.
        destruct (A k I V) as [<-|R]; [|exact R].
        apply PyFacts.get_none_not_in in G. contradiction.
    + apply variant_test_false in T. apply IH. intros k I V.
      destruct (A k I V) as [<-|R]; [contradiction|exact R].
Qed.

Lemma honor_names_no_variant d :
  no_case_variant addon (honor_names (Py.keys d) addon d).
Proof. apply honor_names_clears. auto. Qed.

(** The entry under the one other casing is moved to [addon]. *)
Lemma honor_names_moves ks d key p :
  In key ks -> variant addon key -> Py.get d key = Some p ->
  (forall k, In k ks -> variant addon k -> k = key) ->
  Py.get (honor_names ks addon d) addon = Some p
  /\ ~ In key (Py.keys (honor_names ks addon d)).
Proof.
  revert d. induction ks as [|k0 rest IH]; intros d I V G O;
    [contradiction|].
  simpl. destruct (_ && _) eqn:T.
  - apply variant_test in T.
    assert (k0 = key) as -> by (apply O; [now left|exact T]).
    unfold Py.pop. rewrite G.
    rewrite honor_names_id.
    + split; [apply PyFacts.get_set_same|].
      intros J. apply PyFacts.keys_set in J. destruct J as [J|J].
      * apply PyFacts.keys_remove in J. now destruct J.
      * now destruct V.
    + intros k J W J'. assert (k = key) as -> by (apply O; [now right|exact W]).
      apply PyFacts.keys_set in J'. destruct J' as [J'|J'].
      * apply PyFacts.keys_remove in J'. now destruct J'.
      * now destruct V.
  - apply variant_test_false in T.
    destruct I as [->|I]; [contradiction|].
    apply IH; auto. intros k J W. apply O; [now right|exact W].
Qed.
End Coalesce.

(** Writing under a key without variants keeps the keys distinct up to
    case. *)
Lemma case_distinct_set `{Casing} {V} (d : Py.dict V) (k : string) (v : V) :
  case_distinct (Py.keys d) -> no_case_variant k d ->
  case_distinct (Py.keys (Py.set d k v)).
Proof.
  intros C N a b Ia Ib L.
  apply PyFacts.keys_set in Ia, Ib.
  destruct Ia as [Ia| ->], Ib as [Ib| ->]; auto.
  symmetry. apply N; auto.
Qed.

Lemma case_distinct_honor_names `{Casing} (addon : string)
    (d : Py.dict ManagedClusterAddonProfile) :
  case_distinct (Py.keys d) ->
  case_distinct (Py.keys (honor_names (Py.keys d) addon d)).
Proof.
  intros C a b Ia Ib L.
  pose proof (honor_names_no_variant addon d) as N.
  destruct (honor_names_keys addon _ _ _ Ia) as [Ja| ->];
    destruct (honor_names_keys addon _ _ _ Ib) as [Jb| ->]; auto.
  symmetry. apply N; auto.
Qed.

Lemma no_case_variant_set `{Casing} {V} (d : Py.dict V) (c k : string) (v : V) :
  no_case_variant c d -> (str_lower k = str_lower c -> k = c) ->
  no_case_variant c (Py.set d k v).
Proof.
  intros N K x I L. apply PyFacts.keys_set in I.
  destruct I as [I| ->]; auto.
Qed.

End CoalesceFacts.

(** ** The shape of one turn of the loop *)

Module StepFacts.
Import Reconciler Props.

Lemma store_store st d1 d2 : store (store st d1) d2 = store st d2.
Proof. unfold store. cbn. destruct (shared st); reflexivity. Qed.

Lemma store_workspace st d w :
  store (with_workspace st w) d = with_workspace (store st d) w.
Proof. reflexivity. Qed.

Lemma workspace_store st d : with_workspace (store st d) (workspace st) = store st d.
Proof. reflexivity. Qed.

Lemma profiles_store st d : profiles (store st d) = d.
Proof. reflexivity. Qed.

Section Steps.
Context `{Casing} `{Consts} `{Collaborators}.
Variables (subscription_id resource_group_name name : string).
Variable enable : bool.
Variable kw : Kwargs.t.

Let step := reconcile_addon subscription_id resource_group_name name
              enable kw.
Let enabling := enable_addon subscription_id resource_group_name name kw.

(** Enabling either raises in the state it found, or writes one profile
    under [addon]. *)
Lemma enable_addon_shape addon st :
  (exists e, enabling addon st = (Raised e, st))
  \/ (exists p w,
        enabling addon st
        = (Returned tt,
           with_workspace (store st (Py.set (profiles st) addon p)) w)).
Proof.
  subst enabling. unfold enable_addon.
  repeat ReconcilerFacts.case_scrutinee;
    try (left; eexists; reflexivity);
    try (right; eexists; eexists; reflexivity).
  all: right;
    match goal with
    | E : String.eqb _
            CONST_AZURE_KEYVAULT_SECRETS_PROVIDER_ADDON_NAME = true |- _ =>
        apply String.eqb_eq in E; rewrite <- E
    end;
    rewrite PyFacts.set_set; eexists; eexists; reflexivity.
Qed.

(** So does disabling. *)
Lemma disable_addon_shape addon st :
  (exists e, disable_addon addon st = (Raised e, st))
  \/ (exists p,
        disable_addon addon st
        = (Returned tt, store st (Py.set (profiles st) addon p))).
Proof.
  unfold disable_addon. unfold Py.contains.
  destruct (Py.get (profiles st) addon) as [p|] eqn:G.
  - rewrite G. right. eexists; reflexivity.
  - destruct (String.eqb addon CONST_KUBE_DASHBOARD_ADDON_NAME).
    + rewrite profiles_store, PyFacts.get_set_same.
      rewrite store_store, PyFacts.set_set. right. eexists; reflexivity.
    + left. eexists; reflexivity.
Qed.

(** A turn for a catalog add-on: the keys that differ from the
    canonical key in case are coalesced, and then either an error is
    raised or one profile, marked with [enable], is written under the
    canonical key. *)
Lemma step_shape t a st :
  t <> "web_application_routing" ->
  Py.get ADDONS t = Some a ->
  let c := canonical a in
  let dn := honor_names (Py.keys (profiles st)) c (profiles st) in
  (exists e, step t st = (Raised e, store st dn))
  \/ (exists p w,
        step t st
        = (Returned tt,
           with_workspace
             (store st (Py.set dn c (with_enabled p enable))) w)).
Proof.
  intros N G c dn. subst step. unfold reconcile_addon.
  apply String.eqb_neq in N. rewrite N, G. fold c. fold dn.
  assert (B : (exists e,
                 (if enable then enabling c (store st dn)
                  else disable_addon c (store st dn))
                 = (Raised e, store st dn))
              \/ (exists p w,
                    (if enable then enabling c (store st dn)
                     else disable_addon c (store st dn))
                    = (Returned tt,
                       with_workspace (store st (Py.set dn c p)) w))).
  { case enable.
    - destruct (enable_addon_shape c (store st dn)) as [[e E]|[p [w E]]].
      + left. now exists e.
      + right. exists p, w. rewrite E.
        now rewrite profiles_store, store_store.
    - destruct (disable_addon_shape c (store st dn)) as [[e E]|[p E]].
      + left. now exists e.
      + right. exists p, (workspace st). rewrite E.
        now rewrite profiles_store, store_store. }
  subst enabling.
  destruct B as [[e ->]|[p [w ->]]].
  - left. now exists e.
  - right. exists p, w. unfold mark_enabled.
    cbn [profiles with_workspace store].
    rewrite PyFacts.get_set_same, PyFacts.set_set.
    unfold store, with_workspace. cbn.
    destruct (shared st); reflexivity.
Qed.

(** The [web_application_routing] turn leaves the dictionary alone. *)
Lemma step_routing st :
  step "web_application_routing" st
  = (Returned tt,
     with_instance st (web_application_routing enable kw (instance st))).
Proof. reflexivity. Qed.
End Steps.

End StepFacts.

(** ** One entry for each add-on that was asked for *)

Module InvariantFacts.
Import Reconciler Props.

Section Runs.
Context `{Casing} `{Consts} `{Collaborators}.
Variables (subscription_id resource_group_name name : string).
Variable enable : bool.
Variable kw : Kwargs.t.

Let step := reconcile_addon subscription_id resource_group_name name
              enable kw.
Let run := reconcile_all subscription_id resource_group_name name
             enable kw.

(** A turn that returns has written the canonical key of its add-on. *)
Lemma step_establishes t a st st' :
  t <> "web_application_routing" ->
  Py.get ADDONS t = Some a ->
  step t st = (Returned tt, st') ->
  sole_entry (canonical a) (profiles st').
Proof.
  intros N G S.
  destruct (StepFacts.step_shape subscription_id resource_group_name
              name enable kw t a st N G) as [[e E]|[p [w E]]];
    fold step in E; rewrite E in S; [discriminate|].
  injection S as <-. cbn [profiles with_workspace store]. split.
  - apply PyFacts.keys_set. now right.
  - apply CoalesceFacts.no_case_variant_set; auto.
    apply CoalesceFacts.honor_names_no_variant.
Qed.

(** The dictionary after a turn, in terms of the one before. *)
Lemma step_profiles t st st' :
  step t st = (Returned tt, st') ->
  profiles st' = profiles st
  \/ exists a p,
       Py.get ADDONS t = Some a
       /\ profiles st'
          = Py.set (honor_names (Py.keys (profiles st)) (canonical a)
                      (profiles st))
              (canonical a) p.
Proof.
  intros S. destruct (String.eqb_spec t "web_application_routing") as [->|N].
  - unfold step in S. rewrite StepFacts.step_routing in S.
    injection S as <-. now left.
  - destruct (Py.get ADDONS t) as [a|] eqn:G.
    + destruct (StepFacts.step_shape subscription_id resource_group_name
                  name enable kw t a st N G) as [[e E]|[p [w E]]];
        fold step in E; rewrite E in S; [discriminate|].
      injection S as <-. right. exists a. eexists. split; reflexivity.
    + unfold step in S.
      rewrite (ReconcilerFacts.step_unknown subscription_id
                 resource_group_name name enable kw t st (conj N G)) in S.
      discriminate.
Qed.

(** A later turn keeps the entry of an earlier add-on. *)
Lemma step_preserves t0 a0 t st st' :
  catalog_case_distinct ->
  Py.get ADDONS t0 = Some a0 ->
  sole_entry (canonical a0) (profiles st) ->
  step t st = (Returned tt, st') ->
  sole_entry (canonical a0) (profiles st').
Proof.
  intros C G0 [I V] S.
  destruct (step_profiles t st st' S) as [->|(a & p & G & ->)];
    [now split|].
  assert (K : str_lower (canonical a) = str_lower (canonical a0) ->
              canonical a = canonical a0) by (apply (C t t0); auto).
  split.
  - apply PyFacts.keys_set. left.
    apply CoalesceFacts.honor_names_keeps; [exact I|].
    intros [L D]. apply D. symmetry. apply K. now symmetry.
  - apply CoalesceFacts.no_case_variant_set; [|exact K].
    intros x J L.
    destruct (CoalesceFacts.honor_names_keys _ _ _ _ J) as [J'| ->];
      auto.
Qed.

(** A turn keeps the keys distinct up to case. *)
Lemma step_case_distinct t st st' :
  case_distinct (Py.keys (profiles st)) ->
  step t st = (Returned tt, st') ->
  case_distinct (Py.keys (profiles st')).
Proof.
  intros C S.
  destruct (step_profiles t st st' S) as [->|(a & p & G & ->)];
    [exact C|].
  apply CoalesceFacts.case_distinct_set.
  - now apply CoalesceFacts.case_distinct_honor_names.
  - apply CoalesceFacts.honor_names_no_variant.
Qed.

Lemma run_cons t ts st st' :
  run (t :: ts) st = (Returned tt, st') ->
  exists st1, step t st = (Returned tt, st1) /\ run ts st1 = (Returned tt, st').
Proof.
  subst run step. cbn [reconcile_all].
  destruct (reconcile_addon _ _ _ _ _ t st) as [[[]|e] st1];
    [|discriminate].
  intros R. now exists st1.
Qed.

Lemma run_preserves t0 a0 ts st st' :
  catalog_case_distinct ->
  Py.get ADDONS t0 = Some a0 ->
  sole_entry (canonical a0) (profiles st) ->
  run ts st = (Returned tt, st') ->
  sole_entry (canonical a0) (profiles st').
Proof.
  intros C G0. revert st.
  induction ts as [|t ts IH]; intros st P R.
  - injection R as <-. exact P.
  - apply run_cons in R. destruct R as (st1 & S & R).
    apply (IH st1); [|exact R].
    now apply (step_preserves t0 a0 t st st1).
Qed.

Lemma run_establishes ts st st' t a :
  catalog_case_distinct ->
  run ts st = (Returned tt, st') ->
  In t ts -> t <> "web_application_routing" ->
  Py.get ADDONS t = Some a ->
  sole_entry (canonical a) (profiles st').
Proof.
  intros C. revert st.
  induction ts as [|t1 ts IH]; intros st R I N G; [contradiction|].
  apply run_cons in R. destruct R as (st1 & S & R).
  destruct I as [->|I].
  - apply (run_preserves t a ts st1 st' C G); [|exact R].
    now apply (step_establishes t a st st1).
  - now apply (IH st1).
Qed.

Lemma run_case_distinct ts st st' :
  case_distinct (Py.keys (profiles st)) ->
  run ts st = (Returned tt, st') ->
  case_distinct (Py.keys (profiles st')).
Proof.
  revert st. induction ts as [|t ts IH]; intros st C R.
  - injection R as <-. exact C.
  - apply run_cons in R. destruct R as (st1 & S & R).
    apply (IH st1); [|exact R]. now apply (step_case_distinct t st st1).
Qed.

Lemma profiles_enter i : profiles (enter kw i) = profiles_of i.
Proof.
  unfold enter, profiles_of.
  destruct (addon_profiles i) as [[|kv d]|]; reflexivity.
Qed.

(** A call that returns, in terms of the loop. *)
Lemma update_returned i addons i' final :
  _update_addons subscription_id resource_group_name name enable kw
    i addons = (Returned i', final) ->
  exists st',
    run (Py.split Py.comma addons) (enter kw i) = (Returned tt, st')
    /\ profiles_of i' = profiles st'
    /\ addon_profiles i' = Some (profiles st')
    /\ ingress_profile i' = ingress_profile (instance st')
    /\ final = i'.
Proof.
  unfold _update_addons. fold run.
  destruct (run _ _) as [[[]|e] st'] eqn:R; [|discriminate].
  intros U. injection U as <- <-. exists st'. repeat split.
Qed.
End Runs.

End InvariantFacts.

(** ** Single add-ons *)

Module CallFacts.
Import Reconciler Props.

Section Calls.
Context `{Casing} `{Consts} `{Collaborators}.
Variables (subscription_id resource_group_name name : string).
Variable enable : bool.
Variable kw : Kwargs.t.

Let step := reconcile_addon subscription_id resource_group_name name
              enable kw.
Let update := _update_addons subscription_id resource_group_name name
                enable kw.

(** A token without a comma is the only token. *)
Lemma split_single (t : string) :
  (forall c, In c (list_ascii_of_string t) -> c <> Py.comma) ->
  Py.split Py.comma t = [t].
Proof.
  induction t as [|c t IH]; intros N; simpl; [reflexivity|].
  destruct (Ascii.eqb_spec c Py.comma) as [E|_].
  - exfalso. apply (N c); [now left|exact E].
  - rewrite IH; [reflexivity|]. intros c' I. apply N. now right.
Qed.

(** The call for one token, in terms of its turn of the loop. *)
Lemma update_single i t :
  Py.split Py.comma t = [t] ->
  update i t
  = match step t (enter kw i) with
    | (Raised e, st) => (Raised e, instance st)
    | (Returned _, st) =>
        let i' := with_service_principal_profile
                    (with_addon_profiles (instance st)
                       (Some (profiles st))) None in
        (Returned i', i')
    end.
Proof.
  intros S. subst update step. unfold _update_addons. rewrite S.
  cbn [reconcile_all].
  destruct (reconcile_addon _ _ _ _ _ t (enter kw i)) as [[[]|e] st];
    reflexivity.
Qed.

Lemma enter_empty i :
  profiles_of i = [] ->
  enter kw i
  = {| instance := i; profiles := []; shared := false;
       workspace := Kwargs.workspace_resource_id kw |}.
Proof.
  unfold profiles_of, enter.
  destruct (addon_profiles i) as [[|kv d]|]; [reflexivity| |reflexivity].
  discriminate.
Qed.

Lemma enter_shared i :
  profiles_of i <> [] ->
  enter kw i
  = {| instance := i; profiles := profiles_of i; shared := true;
       workspace := Kwargs.workspace_resource_id kw |}.
Proof.
  unfold profiles_of, enter.
  destruct (addon_profiles i) as [[|kv d]|]; [congruence|reflexivity|congruence].
Qed.

(** With nothing to coalesce, the frame after the coalescing loop is the
    frame before it. *)
Lemma store_enter_settled i c :
  no_case_variant c (profiles_of i) ->
  store (enter kw i)
    (honor_names (Py.keys (profiles (enter kw i))) c (profiles (enter kw i)))
  = enter kw i.
Proof.
  intros N. rewrite InvariantFacts.profiles_enter.
  rewrite CoalesceFacts.honor_names_settled by exact N.
  unfold enter, profiles_of, store.
  destruct (addon_profiles i) as [[|kv d]|] eqn:A; cbn; try reflexivity.
  destruct i; cbn in *. now subst.
Qed.
End Calls.

End CallFacts.

(** C2, as the code has it.  On a cluster without add-on profiles,
    enabling [monitoring] with a workspace id supplied by the caller gives
    a dictionary with the single entry of the monitoring key; the entry is
    enabled, its [config] maps the workspace key to the sanitised id and
    the MSI-auth key to the value of the flag as it was passed: the Python
    boolean [False] by default, which [str(...).lower()] turns into
    "false". *)
Theorem monitoring_enabled_from_empty `{Casing} `{Consts} `{Collaborators}
    (subscription_id resource_group_name name : string)
    (kw : Kwargs.t) (i : ManagedCluster) (ws : string) :
  Props.profiles_of i = [] ->
  Py.get ADDONS "monitoring" = Some CONST_MONITORING_ADDON_NAME ->
  CONST_MONITORING_ADDON_NAME <> CONST_VIRTUAL_NODE_ADDON_NAME ->
  CONST_MONITORING_LOG_ANALYTICS_WORKSPACE_RESOURCE_ID
  <> CONST_MONITORING_USING_AAD_MSI_AUTH ->
  Kwargs.workspace_resource_id kw = Some ws -> ws <> "" ->
  Kwargs.enable_msi_auth_for_monitoring kw = false ->
  exists i' p c,
    Reconciler._update_addons subscription_id resource_group_name name
      true kw i "monitoring" = (Returned i', i')
    /\ Props.profiles_of i' = [(CONST_MONITORING_ADDON_NAME, p)]
    /\ enabled p = true
    /\ config p = Some c
    /\ Py.keys c = [CONST_MONITORING_LOG_ANALYTICS_WORKSPACE_RESOURCE_ID;
                    CONST_MONITORING_USING_AAD_MSI_AUTH]
    /\ Py.get c CONST_MONITORING_LOG_ANALYTICS_WORKSPACE_RESOURCE_ID
       = Some (Py.Str (sanitize_loganalytics_ws_resource_id ws))
    /\ Py.get c CONST_MONITORING_USING_AAD_MSI_AUTH = Some (Py.Bool false)
    /\ option_map (fun v => Py.lower (Py.str v))
         (Py.get c CONST_MONITORING_USING_AAD_MSI_AUTH) = Some "false".
Proof.
  intros E G NV NK W NW M.
  rewrite CallFacts.update_single by reflexivity.
  rewrite (CallFacts.enter_empty kw i E).
  unfold Reconciler.reconcile_addon.
  change (String.eqb "monitoring" "web_application_routing") with false.
  cbv iota. rewrite G.
  assert (C : Reconciler.canonical CONST_MONITORING_ADDON_NAME
              = CONST_MONITORING_ADDON_NAME).
  { unfold Reconciler.canonical. apply String.eqb_neq in NV. now rewrite NV. }
  rewrite C. cbn [Reconciler.profiles Py.keys map Reconciler.honor_names].
  unfold Reconciler.enable_addon.
  rewrite String.eqb_refl.
  cbn [Reconciler.profiles Reconciler.store Reconciler.workspace
       Reconciler.shared Reconciler.instance Py.get new_addon_profile enabled].
  rewrite W. apply String.eqb_neq in NW. rewrite NW.
  rewrite M.
  apply String.eqb_neq in NK.
  cbn [Py.set]. rewrite NK.
  unfold Reconciler.mark_enabled.
  cbn [Reconciler.profiles Reconciler.store Reconciler.with_workspace
       Reconciler.shared Reconciler.instance Py.get Py.set].
  rewrite ?String.eqb_refl.
  cbn [Reconciler.profiles Reconciler.store Reconciler.with_workspace
       Reconciler.shared Reconciler.instance Py.get Py.set].
  eexists. eexists. eexists.
  split; [reflexivity|].
  split; [reflexivity|].
  split; [reflexivity|].
  split; [reflexivity|].
  split; [reflexivity|].
  cbn [Py.get]. rewrite String.eqb_refl, NK, String.eqb_refl.
  repeat split.
Qed.

Lemma monitoring_enabled_from_empty_witness :
  exists i' p c,
    @Reconciler._update_addons ascii_casing aks_consts quiet_collaborators
      "s" "rg" "c1" true Samples.with_workspace_id Samples.bare "monitoring"
    = (Returned i', i')
    /\ Props.profiles_of i' = [("omsagent", p)]
    /\ enabled p = true
    /\ config p = Some c
    /\ Py.get c "logAnalyticsWorkspaceResourceID"
       = Some (Py.Str Samples.workspace_id)
    /\ Py.get c "useAADAuth" = Some (Py.Bool false).
Proof.
  assert (NV : "omsagent" <> "aciConnector") by discriminate.
  assert (NK : "logAnalyticsWorkspaceResourceID" <> "useAADAuth")
    by discriminate.
  assert (NW : Samples.workspace_id <> "") by discriminate.
  destruct (@monitoring_enabled_from_empty ascii_casing aks_consts quiet_collaborators
              "s" "rg" "c1" Samples.with_workspace_id Samples.bare
              Samples.workspace_id eq_refl eq_refl NV NK eq_refl NW eq_refl)
    as (i' & p & c & U & P & E & C & _ & W & M & _).
  exists i', p, c. repeat split; assumption.
Defined.

(** C2 does not hold as stated: the value under the MSI-auth key is the
    boolean the flag carries, not the string "false". *)
Lemma monitoring_msi_flag_is_not_a_string :
  exists i' p c,
    @Reconciler._update_addons ascii_casing aks_consts quiet_collaborators
      "s" "rg" "c1" true Samples.with_workspace_id Samples.bare "monitoring"
    = (Returned i', i')
    /\ Kwargs.enable_msi_auth_for_monitoring Samples.with_workspace_id
       = Kwargs.enable_msi_auth_for_monitoring Kwargs.default
    /\ Props.profiles_of i' = [("omsagent", p)]
    /\ config p = Some c
    /\ Py.get c "useAADAuth" = Some (Py.Bool false)
    /\ Py.get c "useAADAuth" <> Some (Py.Str "false").
Proof.
  eexists. eexists. eexists.
  split; [reflexivity|].
  split; [reflexivity|].
  split; [reflexivity|].
  split; [reflexivity|].
  split; [reflexivity|discriminate].
Qed.

(** ** Disabling *)

Module DisableFacts.
Import Reconciler Props.

Section Disable.
Context `{Casing} `{Consts} `{Collaborators}.
Variables (subscription_id resource_group_name name : string).
Variable kw : Kwargs.t.

Let step := reconcile_addon subscription_id resource_group_name name
              false kw.
Let update := _update_addons subscription_id resource_group_name name
                false kw.

Lemma switched_off_disabled p : disabled_profile (switched_off p).
Proof. split; reflexivity. Qed.

Lemma switched_off_twice p : switched_off (switched_off p) = switched_off p.
Proof. reflexivity. Qed.

(** The turn for an add-on that is installed once the keys are
    coalesced. *)
Lemma step_present t a st p :
  t <> "web_application_routing" ->
  Py.get ADDONS t = Some a ->
  let c := canonical a in
  let dn := honor_names (Py.keys (profiles st)) c (profiles st) in
  Py.get dn c = Some p ->
  step t st = (Returned tt, store st (Py.set dn c (switched_off p))).
Proof.
  intros N G c dn P. subst step. unfold reconcile_addon.
  apply String.eqb_neq in N. rewrite N, G. fold c. fold dn.
  unfold disable_addon, Py.contains.
  rewrite StepFacts.profiles_store, P. cbv beta iota zeta.
  rewrite StepFacts.profiles_store, P.
  unfold mark_enabled.
  rewrite StepFacts.profiles_store, PyFacts.get_set_same.
  now rewrite PyFacts.set_set, !StepFacts.store_store.
Qed.

(** The turn for an add-on that is not installed. *)
Lemma step_absent t a st :
  t <> "web_application_routing" ->
  Py.get ADDONS t = Some a ->
  let c := canonical a in
  let dn := honor_names (Py.keys (profiles st)) c (profiles st) in
  Py.get dn c = None ->
  step t st
  = if String.eqb c CONST_KUBE_DASHBOARD_ADDON_NAME
    then (Returned tt,
          store st (Py.set dn c
                      (switched_off (new_addon_profile false None))))
    else (Raised (AddonNotInstalledError c), store st dn).
Proof.
  intros N G c dn P. subst step. unfold reconcile_addon.
  apply String.eqb_neq in N. rewrite N, G. fold c. fold dn.
  unfold disable_addon, Py.contains.
  rewrite StepFacts.profiles_store, P.
  destruct (String.eqb c CONST_KUBE_DASHBOARD_ADDON_NAME); [|reflexivity].
  cbv beta iota zeta.
  rewrite StepFacts.profiles_store, PyFacts.get_set_same.
  unfold mark_enabled.
  rewrite !StepFacts.profiles_store, PyFacts.get_set_same.
  now rewrite !PyFacts.set_set, !StepFacts.store_store.
Qed.

(** The cluster a returning call builds from a frame of a dictionary
    that is not empty. *)
Lemma returned_shared i d :
  profiles_of i <> [] ->
  with_service_principal_profile
    (with_addon_profiles (instance (store (enter kw i) d)) (Some d)) None
  = with_service_principal_profile (with_addon_profiles i (Some d)) None.
Proof.
  intros NE. rewrite (CallFacts.enter_shared kw i NE). reflexivity.
Qed.

Lemma returned_any i d :
  with_service_principal_profile
    (with_addon_profiles (instance (store (enter kw i) d)) (Some d)) None
  = with_service_principal_profile (with_addon_profiles i (Some d)) None.
Proof.
  unfold enter. destruct (addon_profiles i) as [[|kv r]|]; reflexivity.
Qed.
End Disable.

End DisableFacts.

(** C6, as the code has it.  Disabling an add-on other than the dashboard
    fails with "The addon ... is not installed." and changes nothing when
    the dictionary holds its canonical key in no letter case at all, letter
    case being what [str.lower] makes of it.  Disabling the dashboard when
    its canonical key is absent returns, and the key then holds a disabled
    profile without [config]: a new one when no casing of the key was
    present.  For every add-on, the dashboard or another, an entry under
    another casing of the key is first moved to the canonical key and then
    disabled: the call returns, the canonical key holds the profile that
    was under the other casing, switched off and without [config], and the
    other key is gone. *)
Theorem disabling_not_installed `{Casing} `{Consts} `{Collaborators}
    (subscription_id resource_group_name name : string)
    (kw : Kwargs.t) (i : ManagedCluster) (t a : string) :
  t <> "web_application_routing" ->
  Py.split Py.comma t = [t] ->
  Py.get ADDONS t = Some a ->
  let c := Reconciler.canonical a in
  let call := Reconciler._update_addons subscription_id resource_group_name
                name false kw i t in
  (c <> CONST_KUBE_DASHBOARD_ADDON_NAME ->
   Props.absent_in_any_case c (Props.profiles_of i) ->
   call = (Raised (Props.AddonNotInstalledError c), i))
  /\ (c = CONST_KUBE_DASHBOARD_ADDON_NAME ->
      ~ In c (Py.keys (Props.profiles_of i)) ->
      exists i' p,
        call = (Returned i', i')
        /\ Py.get (Props.profiles_of i') c = Some p
        /\ Props.disabled_profile p
        /\ (Props.absent_in_any_case c (Props.profiles_of i) ->
            Props.profiles_of i'
            = Props.profiles_of i ++ [(c, new_addon_profile false None)]))
  /\ (forall key p,
        Py.get (Props.profiles_of i) key = Some p ->
        Props.variant c key ->
        (forall k, In k (Py.keys (Props.profiles_of i)) ->
                   Props.variant c k -> k = key) ->
        exists i',
          call = (Returned i', i')
          /\ Py.get (Props.profiles_of i') c = Some (Props.switched_off p)
          /\ ~ In key (Py.keys (Props.profiles_of i'))).
Proof.
  intros N S G c call. subst call.
  rewrite CallFacts.update_single by exact S.
  assert (Settled : Props.absent_in_any_case c (Props.profiles_of i) ->
            Reconciler.honor_names
              (Py.keys (Reconciler.profiles (Reconciler.enter kw i))) c
              (Reconciler.profiles (Reconciler.enter kw i))
            = Props.profiles_of i
            /\ ~ In c (Py.keys (Props.profiles_of i))).
  { intros A. rewrite InvariantFacts.profiles_enter. split.
    - apply CoalesceFacts.honor_names_settled. intros k I L.
      now destruct (A k I).
    - intros I. now apply (A c I). }
  split; [|split].
  - intros D A. destruct (Settled A) as [E NI].
    rewrite (DisableFacts.step_absent subscription_id resource_group_name
               name kw t a _ N G).
    + apply String.eqb_neq in D. change (Reconciler.canonical a) with c.
      rewrite D.
      rewrite CallFacts.store_enter_settled.
      * now rewrite ReconcilerFacts.enter_instance.
      * intros k I L. now destruct (A k I).
    + change (Reconciler.canonical a) with c. rewrite E.
      now apply PyFacts.get_none_not_in.
  - intros D NI.
    set (dn := Reconciler.honor_names
                 (Py.keys (Reconciler.profiles (Reconciler.enter kw i))) c
                 (Reconciler.profiles (Reconciler.enter kw i))) in *.
    destruct (Py.get dn c) as [p|] eqn:P.
    + rewrite (DisableFacts.step_present subscription_id resource_group_name
                 name kw t a _ p N G P).
      change (Reconciler.canonical a) with c. fold dn.
      cbv zeta. rewrite DisableFacts.returned_any.
      eexists. exists (Props.switched_off p).
      split; [reflexivity|]. split; [apply PyFacts.get_set_same|].
      split; [apply DisableFacts.switched_off_disabled|].
      intros A. destruct (Settled A) as [E _].
      rewrite E in P. apply PyFacts.get_some_in in P. contradiction.
    + rewrite (DisableFacts.step_absent subscription_id resource_group_name
                 name kw t a _ N G P).
      replace (String.eqb (Reconciler.canonical a)
                 CONST_KUBE_DASHBOARD_ADDON_NAME) with true
        by (symmetry; apply String.eqb_eq; exact D).
      change (Reconciler.canonical a) with c. fold dn.
      cbv zeta. rewrite DisableFacts.returned_any.
      eexists. eexists.
      split; [reflexivity|]. split; [apply PyFacts.get_set_same|].
      split; [apply DisableFacts.switched_off_disabled|].
      intros A. destruct (Settled A) as [E _].
      cbn [Props.profiles_of addon_profiles with_service_principal_profile
           with_addon_profiles].
      rewrite E. now apply PyFacts.set_absent.
  - intros key p P V O.
    destruct (CoalesceFacts.honor_names_moves c
                (Py.keys (Props.profiles_of i)) (Props.profiles_of i) key p)
      as [M Gone]; auto.
    { eapply PyFacts.get_some_in; eauto. }
    rewrite <- (InvariantFacts.profiles_enter kw i) in M, Gone.
    rewrite (DisableFacts.step_present subscription_id resource_group_name
               name kw t a _ p N G M).
    cbv zeta. rewrite DisableFacts.returned_any.
    eexists. split; [reflexivity|].
    split; [apply PyFacts.get_set_same|].
    cbn [Props.profiles_of addon_profiles with_service_principal_profile
         with_addon_profiles].
    intros I. apply PyFacts.keys_set in I. destruct I as [I|I].
    + now apply Gone.
    + destruct V as [_ V]. now apply V.
Qed.

Lemma disabling_not_installed_witness :
  @Reconciler._update_addons ascii_casing aks_consts quiet_collaborators
    "s" "rg" "c1" false Kwargs.default Samples.with_dashboard "monitoring"
  = (Raised (CLIError "The addon omsagent is not installed."),
     Samples.with_dashboard)
  /\ (exists i',
        @Reconciler._update_addons ascii_casing aks_consts
          quiet_collaborators "s" "rg" "c1" false Kwargs.default
          Samples.monitored "kube-dashboard"
        = (Returned i', i')
        /\ Props.profiles_of i'
           = [("omsagent", Samples.monitoring_profile);
              ("kubeDashboard",
               {| enabled := false; config := None; identity := None |})])
  /\ (exists i',
        @Reconciler._update_addons ascii_casing aks_consts
          quiet_collaborators "s" "rg" "c1" false Kwargs.default
          Samples.monitored_other_case "monitoring"
        = (Returned i', i')
        /\ Py.get (Props.profiles_of i') "omsagent"
           = Some (Props.switched_off Samples.monitoring_profile)
        /\ ~ In "omsAgent" (Py.keys (Props.profiles_of i'))).
Proof.
  assert (NM : "monitoring" <> "web_application_routing") by discriminate.
  assert (ND : "kube-dashboard" <> "web_application_routing") by discriminate.
  split; [|split].
  - destruct (@disabling_not_installed ascii_casing aks_consts
                quiet_collaborators "s" "rg" "c1" Kwargs.default
                Samples.with_dashboard "monitoring" "omsagent" NM eq_refl
                eq_refl) as (F & _ & _).
    apply F; [discriminate|].
    intros k I. cbn in I. destruct I as [<-|[]]. discriminate.
  - destruct (@disabling_not_installed ascii_casing aks_consts
                quiet_collaborators "s" "rg" "c1" Kwargs.default
                Samples.monitored "kube-dashboard" "kubeDashboard" ND eq_refl
                eq_refl) as (_ & D & _).
    destruct D as (i' & p & U & _ & _ & A).
    { reflexivity. }
    { cbn. intros [E|[]]. discriminate E. }
    exists i'. split; [exact U|]. apply A.
    intros k I. cbn in I. destruct I as [<-|[]]. discriminate.
  - destruct (@disabling_not_installed ascii_casing aks_consts
                quiet_collaborators "s" "rg" "c1" Kwargs.default
                Samples.monitored_other_case "monitoring" "omsagent" NM
                eq_refl eq_refl) as (_ & _ & M).
    apply (M "omsAgent" Samples.monitoring_profile).
    + reflexivity.
    + split; [reflexivity|discriminate].
    + intros k I _. cbn in I. destruct I as [<-|[]]. reflexivity.
Defined.

(** C6 does not hold as stated: the canonical key of [monitoring] is absent
    from the dictionary below, which holds the add-on under another casing,
    and disabling returns instead of raising. *)
Lemma disabling_other_case_succeeds :
  Py.get (ADDONS (Consts := aks_consts)) "monitoring" = Some "omsagent"
  /\ Py.contains (Props.profiles_of Samples.monitored_other_case) "omsagent"
     = false
  /\ exists i',
       @Reconciler._update_addons ascii_casing aks_consts quiet_collaborators
         "s" "rg" "c1" false Kwargs.default Samples.monitored_other_case
         "monitoring"
       = (Returned i', i')
       /\ Props.profiles_of i'
          = [("omsagent",
              {| enabled := false; config := None;
                 identity := Some "omsagent-c1" |})].
Proof.
  split; [reflexivity|]. split; [reflexivity|].
  eexists. split; reflexivity.
Qed.

(** C7. For an add-on whose canonical key is in the dictionary, disabling
    returns a cluster in which the profile under that key is disabled and
    has no [config]; disabling again on that cluster returns it unchanged,
    and so does not raise.  The same holds after any first call that
    returns, the one that installs the dashboard entry included. *)
Theorem disabling_twice `{Casing} `{Consts} `{Collaborators}
    (subscription_id resource_group_name name : string)
    (kw : Kwargs.t) (i : ManagedCluster) (t a : string) :
  t <> "web_application_routing" ->
  Py.split Py.comma t = [t] ->
  Py.get ADDONS t = Some a ->
  let disable := fun j =>
    Reconciler._update_addons subscription_id resource_group_name name
      false kw j t in
  (In (Reconciler.canonical a) (Py.keys (Props.profiles_of i)) ->
   exists i1 p,
     disable i = (Returned i1, i1)
     /\ disable i1 = (Returned i1, i1)
     /\ Py.get (Props.profiles_of i1) (Reconciler.canonical a) = Some p
     /\ Props.disabled_profile p)
  /\ (forall i1 final,
        disable i = (Returned i1, final) ->
        disable i1 = (Returned i1, i1)
        /\ exists p,
             Py.get (Props.profiles_of i1) (Reconciler.canonical a) = Some p
             /\ Props.disabled_profile p).
Proof.
  intros N S G disable. subst disable. cbv beta.
  set (c := Reconciler.canonical a) in *.
  set (dn := Reconciler.honor_names (Py.keys (Props.profiles_of i)) c
               (Props.profiles_of i)).
  (* the second call, on the cluster a first call has built *)
  assert (Again : forall q,
            let d1 := Py.set dn c (Props.switched_off q) in
            let i1 := with_service_principal_profile
                        (with_addon_profiles i (Some d1)) None in
            Reconciler._update_addons subscription_id resource_group_name
              name false kw i1 t = (Returned i1, i1)).
  { intros q d1 i1.
    assert (V1 : Props.no_case_variant c d1).
    { apply CoalesceFacts.no_case_variant_set; auto.
      apply CoalesceFacts.honor_names_no_variant. }
    rewrite CallFacts.update_single by exact S.
    assert (E1 : Props.profiles_of i1 = d1) by reflexivity.
    assert (Hs1 : Reconciler.honor_names (Py.keys d1) c d1 = d1)
      by now apply CoalesceFacts.honor_names_settled.
    rewrite (DisableFacts.step_present subscription_id resource_group_name
               name kw t a _ (Props.switched_off q) N G);
      rewrite InvariantFacts.profiles_enter, E1;
      change (Reconciler.canonical a) with c; rewrite Hs1;
      [|apply PyFacts.get_set_same].
    cbv zeta. rewrite DisableFacts.returned_any.
    rewrite DisableFacts.switched_off_twice.
    unfold d1 at 1 2. rewrite PyFacts.set_set. reflexivity. }
  (* the first call, when it returns *)
  assert (First : forall i1 final,
            Reconciler._update_addons subscription_id resource_group_name
              name false kw i t = (Returned i1, final) ->
            exists q,
              i1 = with_service_principal_profile
                     (with_addon_profiles i
                        (Some (Py.set dn c (Props.switched_off q)))) None).
  { intros i1 final. rewrite CallFacts.update_single by exact S.
    destruct (Py.get dn c) as [p|] eqn:P.
    - rewrite (DisableFacts.step_present subscription_id resource_group_name
                 name kw t a _ p N G);
        rewrite InvariantFacts.profiles_enter; [|exact P].
      cbv zeta. rewrite DisableFacts.returned_any.
      intros U. injection U as <- _. now exists p.
    - rewrite (DisableFacts.step_absent subscription_id resource_group_name
                 name kw t a _ N G);
        rewrite InvariantFacts.profiles_enter; [|exact P].
      change (Reconciler.canonical a) with c.
      destruct (String.eqb c CONST_KUBE_DASHBOARD_ADDON_NAME);
        [|discriminate].
      cbv zeta. rewrite DisableFacts.returned_any.
      intros U. injection U as <- _. eexists; reflexivity. }
  split.
  - intros I.
    assert (Idn : In c (Py.keys dn)).
    { apply CoalesceFacts.honor_names_keeps; [exact I|]. now intros [_ D]. }
    destruct (Py.get dn c) as [p|] eqn:P;
      [|apply PyFacts.get_none_not_in in P; contradiction].
    eexists. exists (Props.switched_off p).
    split; [|split; [apply (Again p)|split]].
    + rewrite CallFacts.update_single by exact S.
      rewrite (DisableFacts.step_present subscription_id resource_group_name
                 name kw t a _ p N G);
        rewrite InvariantFacts.profiles_enter; [|exact P].
      cbv zeta. now rewrite DisableFacts.returned_any.
    + apply PyFacts.get_set_same.
    + apply DisableFacts.switched_off_disabled.
  - intros i1 final U. destruct (First i1 final U) as [q ->].
    split; [apply (Again q)|].
    exists (Props.switched_off q).
    split; [apply PyFacts.get_set_same|].
    apply DisableFacts.switched_off_disabled.
Qed.

Lemma disabling_twice_witness :
  exists i1,
    @Reconciler._update_addons ascii_casing aks_consts quiet_collaborators
      "s" "rg" "c1" false Kwargs.default Samples.monitored "monitoring"
    = (Returned i1, i1)
    /\ @Reconciler._update_addons ascii_casing aks_consts quiet_collaborators
         "s" "rg" "c1" false Kwargs.default i1 "monitoring"
       = (Returned i1, i1)
    /\ Props.profiles_of i1
       = [("omsagent",
           {| enabled := false; config := None;
              identity := Some "omsagent-c1" |})].
Proof.
  assert (NM : "monitoring" <> "web_application_routing") by discriminate.
  destruct (@disabling_twice ascii_casing aks_consts quiet_collaborators
              "s" "rg" "c1" Kwargs.default Samples.monitored
              "monitoring" "omsagent" NM eq_refl eq_refl)
    as [Present _].
  destruct Present as (i1 & p & U1 & U2 & _).
  { cbn. now left. }
  exists i1. split; [exact U1|]. split; [exact U2|].
  assert (E : @Reconciler._update_addons ascii_casing aks_consts quiet_collaborators
                "s" "rg" "c1" false Kwargs.default Samples.monitored
                "monitoring"
              = (Returned i1, i1)) by exact U1.
  vm_compute in E. injection E as <-. reflexivity.
Defined.

(** ** Enabling what is enabled *)

Module EnableFacts.
Import Reconciler Props.

Section Enable.
Context `{Casing} `{Consts} `{Collaborators}.
Variables (subscription_id resource_group_name name : string).
Variable kw : Kwargs.t.

(** The branch of an add-on with a configuration of its own refuses a
    profile that is enabled, with the message of that add-on. *)
Lemma enable_addon_refuses c st p :
  configured_key c ->
  Py.get (profiles st) c = Some p -> enabled p = true ->
  exists e,
    enable_addon subscription_id resource_group_name name kw c st
    = (Raised e, st)
    /\ AddonAlreadyEnabledError c name resource_group_name e.
Proof.
  intros K G E. unfold enable_addon. rewrite G, E.
  unfold AddonAlreadyEnabledError.
  destruct (String.eqb_spec c CONST_MONITORING_ADDON_NAME) as [E1|N1];
    [eexists; split; [reflexivity|tauto]|].
  destruct (String.eqb_spec c (CONST_VIRTUAL_NODE_ADDON_NAME ++ os_type))
    as [E2|N2]; [eexists; split; [reflexivity|tauto]|].
  destruct (String.eqb_spec c CONST_INGRESS_APPGW_ADDON_NAME) as [E3|N3];
    [eexists; split; [reflexivity|tauto]|].
  destruct (String.eqb_spec c CONST_OPEN_SERVICE_MESH_ADDON_NAME)
    as [E4|N4]; [eexists; split; [reflexivity|tauto]|].
  destruct (String.eqb_spec c CONST_CONFCOM_ADDON_NAME) as [E5|N5];
    [eexists; split; [reflexivity|tauto]|].
  destruct (String.eqb_spec c
              CONST_AZURE_KEYVAULT_SECRETS_PROVIDER_ADDON_NAME) as [E6|N6];
    [eexists; split; [reflexivity|tauto]|].
  unfold configured_key in K. exfalso. intuition.
Qed.

(** An add-on without a configuration branch is written back as it is
    found. *)
Lemma enable_addon_plain c st p :
  ~ configured_key c ->
  Py.get (profiles st) c = Some p ->
  enable_addon subscription_id resource_group_name name kw c st
  = (Returned tt, store st (Py.set (profiles st) c p)).
Proof.
  intros K G. unfold enable_addon, configured_key in *. rewrite G.
  repeat match goal with
         | |- context [String.eqb c ?k] =>
             destruct (String.eqb_spec c k); [exfalso; tauto|]
         end.
  reflexivity.
Qed.
End Enable.

End EnableFacts.

(** C3, as the code has it.  Take an add-on whose entry under the
    canonical key is enabled, no other casing of the key being present.
    When the canonical key is one of the six with a configuration branch
    (monitoring, virtual-node, ingress-appgw, open-service-mesh, confcom,
    azure-keyvault-secrets-provider), enabling the add-on raises the
    [CLIError] of that add-on, which names the disable command, and leaves
    the cluster as it was.  For every other catalog add-on enabling
    returns: the dictionary is as it was, the entry still enabled, and the
    service principal profile is [None]. *)
Theorem enabling_enabled_addon `{Casing} `{Consts} `{Collaborators}
    (subscription_id resource_group_name name : string)
    (kw : Kwargs.t) (i : ManagedCluster) (t a : string)
    (p : ManagedClusterAddonProfile) :
  t <> "web_application_routing" ->
  Py.split Py.comma t = [t] ->
  Py.get ADDONS t = Some a ->
  Py.get (Props.profiles_of i) (Reconciler.canonical a) = Some p ->
  enabled p = true ->
  Props.no_case_variant (Reconciler.canonical a) (Props.profiles_of i) ->
  let call :=
    Reconciler._update_addons subscription_id resource_group_name name
      true kw i t in
  (Props.configured_key (Reconciler.canonical a) ->
   exists e,
     call = (Raised e, i)
     /\ Props.AddonAlreadyEnabledError (Reconciler.canonical a) name
          resource_group_name e)
  /\ (~ Props.configured_key (Reconciler.canonical a) ->
      exists i',
        call = (Returned i', i')
        /\ i' = with_service_principal_profile i None
        /\ Props.profiles_of i' = Props.profiles_of i
        /\ Py.get (Props.profiles_of i') (Reconciler.canonical a) = Some p).
Proof.
  intros N S G P E V call. subst call.
  rewrite CallFacts.update_single by exact S.
  unfold Reconciler.reconcile_addon.
  apply String.eqb_neq in N. rewrite N, G.
  rewrite CallFacts.store_enter_settled by exact V.
  assert (P' : Py.get (Reconciler.profiles (Reconciler.enter kw i))
                 (Reconciler.canonical a) = Some p)
    by now rewrite InvariantFacts.profiles_enter.
  split.
  - intros K.
    destruct (EnableFacts.enable_addon_refuses subscription_id
                resource_group_name name kw (Reconciler.canonical a)
                (Reconciler.enter kw i) p K P' E) as (e & R & A).
    rewrite R. exists e. split; [|exact A].
    now rewrite ReconcilerFacts.enter_instance.
  - intros K.
    rewrite (EnableFacts.enable_addon_plain subscription_id
               resource_group_name name kw (Reconciler.canonical a)
               (Reconciler.enter kw i) p K P').
    rewrite (PyFacts.set_get_id _ _ _ P').
    unfold Reconciler.mark_enabled.
    rewrite StepFacts.profiles_store, P'.
    assert (Same : with_enabled p true = p)
      by (destruct p; cbn in E |- *; now rewrite E).
    rewrite Same, (PyFacts.set_get_id _ _ _ P'), StepFacts.store_store.
    cbv zeta. rewrite DisableFacts.returned_any.
    rewrite InvariantFacts.profiles_enter.
    assert (NE : Props.profiles_of i <> []).
    { intros Z. rewrite Z in P. discriminate. }
    assert (A : addon_profiles i = Some (Props.profiles_of i)).
    { unfold Props.profiles_of in *.
      destruct (addon_profiles i); [reflexivity|now elim NE]. }
    eexists. split; [reflexivity|]. split.
    + unfold with_service_principal_profile, with_addon_profiles. cbn.
      now rewrite <- A.
    + split; [reflexivity|exact P].
Qed.

Lemma enabling_enabled_addon_witness :
  @Reconciler._update_addons ascii_casing aks_consts quiet_collaborators
    "s" "rg" "c1" true Kwargs.default Samples.monitored "monitoring"
  = (Raised (CLIError Reconciler.monitoring_enabled_message),
     Samples.monitored).
Proof.
  assert (NM : "monitoring" <> "web_application_routing") by discriminate.
  assert (K : Props.configured_key (H := aks_consts)
                (Reconciler.canonical (H0 := aks_consts) "omsagent"))
    by now left.
  assert (V : Props.no_case_variant (H := ascii_casing)
                (Reconciler.canonical (H0 := aks_consts) "omsagent")
                (Props.profiles_of Samples.monitored)).
  { intros k I _. cbn in I. destruct I as [<-|[]]. reflexivity. }
  destruct (@enabling_enabled_addon ascii_casing aks_consts
              quiet_collaborators "s" "rg" "c1" Kwargs.default
              Samples.monitored "monitoring" "omsagent"
              Samples.monitoring_profile NM eq_refl eq_refl eq_refl eq_refl V)
    as [Refused _].
  destruct (Refused K) as (e & U & A).
  rewrite U. f_equal. f_equal.
  destruct A as [[_ ->]|[[D _]|[[D _]|[[D _]|[[D _]|[D _]]]]]];
    [reflexivity|discriminate D..].
Defined.

(** C3 does not hold as stated: the dashboard is a catalog add-on, its
    entry is enabled, and enabling it again returns. *)
Lemma enabling_enabled_dashboard_returns :
  Py.get (ADDONS (Consts := aks_consts)) "kube-dashboard"
  = Some "kubeDashboard"
  /\ Py.get (Props.profiles_of Samples.with_dashboard) "kubeDashboard"
     = Some Samples.dashboard_profile
  /\ enabled Samples.dashboard_profile = true
  /\ exists i',
       @Reconciler._update_addons ascii_casing aks_consts quiet_collaborators
         "s" "rg" "c1" true Kwargs.default Samples.with_dashboard
         "kube-dashboard"
       = (Returned i', i')
       /\ Props.profiles_of i' = Props.profiles_of Samples.with_dashboard.
Proof.
  split; [reflexivity|]. split; [reflexivity|]. split; [reflexivity|].
  eexists. split; reflexivity.
Qed.

(** ** The canonical key *)

Module VirtualNodeFacts.
Import Reconciler Props.

Section VirtualNode.
Context `{Casing} `{Consts} `{Collaborators}.
Variables (subscription_id resource_group_name name : string).
Variable kw : Kwargs.t.

Let step := reconcile_addon subscription_id resource_group_name name
              true kw.
Let update := _update_addons subscription_id resource_group_name name
                true kw.
Let c := (CONST_VIRTUAL_NODE_ADDON_NAME ++ "Linux")%string.

(** The virtual-node branch, for a profile that is not enabled. *)
Lemma enable_virtual_node st s :
  c <> CONST_MONITORING_ADDON_NAME ->
  Kwargs.subnet_name kw = Some s -> s <> "" ->
  let q := match Py.get (profiles st) c with
           | Some p => p
           | None => new_addon_profile false None
           end in
  enabled q = false ->
  enable_addon subscription_id resource_group_name name kw c st
  = (Returned tt,
     store st
       (Py.set (profiles st) c
          (with_config q (Some [(CONST_VIRTUAL_NODE_SUBNET_NAME,
                                 Py.Str s)])))).
Proof.
  intros NM Sn Ns q E. unfold enable_addon. fold q.
  apply String.eqb_neq in NM. rewrite NM.
  change (CONST_VIRTUAL_NODE_ADDON_NAME ++ os_type)%string with c.
  rewrite String.eqb_refl, E, Sn.
  apply String.eqb_neq in Ns. now rewrite Ns.
Qed.

(** The turn of the virtual-node add-on. *)
Lemma step_virtual_node t st s :
  t <> "web_application_routing" ->
  Py.get ADDONS t = Some CONST_VIRTUAL_NODE_ADDON_NAME ->
  c <> CONST_MONITORING_ADDON_NAME ->
  Kwargs.subnet_name kw = Some s -> s <> "" ->
  let dn := honor_names (Py.keys (profiles st)) c (profiles st) in
  let q := match Py.get dn c with
           | Some p => p
           | None => new_addon_profile false None
           end in
  enabled q = false ->
  step t st
  = (Returned tt,
     store st
       (Py.set dn c
          {| enabled := true;
             config := Some [(CONST_VIRTUAL_NODE_SUBNET_NAME, Py.Str s)];
             identity := identity q |})).
Proof.
  intros N G NM Sn Ns dn q E. subst step. unfold reconcile_addon.
  apply String.eqb_neq in N. rewrite N, G.
  assert (C : canonical CONST_VIRTUAL_NODE_ADDON_NAME = c).
  { unfold canonical. now rewrite String.eqb_refl. }
  rewrite C. fold dn.
  rewrite (enable_virtual_node (store st dn) s NM Sn Ns);
    rewrite StepFacts.profiles_store; fold q; [|exact E].
  unfold mark_enabled.
  rewrite StepFacts.profiles_store, PyFacts.get_set_same.
  now rewrite PyFacts.set_set, !StepFacts.store_store.
Qed.

(** The call for the virtual-node add-on alone. *)
Lemma update_virtual_node i t s :
  t <> "web_application_routing" ->
  Py.split Py.comma t = [t] ->
  Py.get ADDONS t = Some CONST_VIRTUAL_NODE_ADDON_NAME ->
  c <> CONST_MONITORING_ADDON_NAME ->
  Kwargs.subnet_name kw = Some s -> s <> "" ->
  let dn := honor_names (Py.keys (profiles_of i)) c (profiles_of i) in
  let q := match Py.get dn c with
           | Some p => p
           | None => new_addon_profile false None
           end in
  enabled q = false ->
  let i' :=
    with_service_principal_profile
      (with_addon_profiles i
         (Some (Py.set dn c
                  {| enabled := true;
                     config := Some [(CONST_VIRTUAL_NODE_SUBNET_NAME,
                                      Py.Str s)];
                     identity := identity q |}))) None in
  update i t = (Returned i', i').
Proof.
  intros N S G NM Sn Ns dn q E i'. subst update.
  rewrite CallFacts.update_single by exact S.
  pose proof (step_virtual_node t (enter kw i) s N G NM Sn Ns) as Sv.
  cbv zeta in Sv. rewrite InvariantFacts.profiles_enter in Sv.
  fold dn in Sv. fold q in Sv. specialize (Sv E). unfold step in Sv.
  rewrite Sv. cbv zeta. now rewrite DisableFacts.returned_any.
Qed.
End VirtualNode.

End VirtualNodeFacts.

(** C5, as the code has it.  The canonical key of [virtual-node] is the
    base key followed by "Linux".  After a call that returns, every add-on
    the call named has its entry under the canonical key and under no
    other casing of it, and keys that were pairwise distinct up to case
    stay so; the canonical keys of the catalog are taken to be pairwise
    distinct up to case.  Enabling [virtual-node] with a subnet name
    returns and stores the profile under the canonical key: a new entry,
    enabled and with the subnet as its [config], added after the others
    when no casing of the key was present; and when one other casing holds
    a profile that is not enabled, that profile, enabled and with the
    subnet as its [config], under the canonical key, the other key being
    gone.  The coalescing loop moves the profile found under another
    casing to the canonical key, removing the other key, before the branch
    for the add-on writes anything.  Keys of add-ons that the call does
    not name are left as they are. *)
Theorem canonical_key_unique `{Casing} `{Consts} `{Collaborators}
    (subscription_id resource_group_name name : string) (enable : bool)
    (kw : Kwargs.t) (i : ManagedCluster) (addons : string) :
  Props.catalog_case_distinct ->
  let c := (CONST_VIRTUAL_NODE_ADDON_NAME ++ "Linux")%string in
  Reconciler.canonical CONST_VIRTUAL_NODE_ADDON_NAME = c
  /\ (forall i' final,
        Reconciler._update_addons subscription_id resource_group_name name
          enable kw i addons = (Returned i', final) ->
        (forall t a,
           In t (Py.split Py.comma addons) ->
           t <> "web_application_routing" ->
           Py.get ADDONS t = Some a ->
           In (Reconciler.canonical a) (Py.keys (Props.profiles_of i'))
           /\ Props.no_case_variant (Reconciler.canonical a)
                (Props.profiles_of i'))
        /\ (Props.case_distinct (Py.keys (Props.profiles_of i)) ->
            Props.case_distinct (Py.keys (Props.profiles_of i'))))
  /\ (forall t s,
        t <> "web_application_routing" ->
        Py.split Py.comma t = [t] ->
        Py.get ADDONS t = Some CONST_VIRTUAL_NODE_ADDON_NAME ->
        c <> CONST_MONITORING_ADDON_NAME ->
        Kwargs.subnet_name kw = Some s -> s <> "" ->
        let call :=
          Reconciler._update_addons subscription_id resource_group_name
            name true kw i t in
        let subnet := Some [(CONST_VIRTUAL_NODE_SUBNET_NAME, Py.Str s)] in
        (Props.absent_in_any_case c (Props.profiles_of i) ->
         exists i',
           call = (Returned i', i')
           /\ Props.profiles_of i'
              = Props.profiles_of i
                  ++ [(c, {| enabled := true; config := subnet;
                             identity := None |})])
        /\ (forall key p,
              Py.get (Props.profiles_of i) key = Some p ->
              Props.variant c key ->
              (forall k, In k (Py.keys (Props.profiles_of i)) ->
                         Props.variant c k -> k = key) ->
              enabled p = false ->
              exists i',
                call = (Returned i', i')
                /\ Py.get (Props.profiles_of i') c
                   = Some {| enabled := true; config := subnet;
                             identity := identity p |}
                /\ ~ In key (Py.keys (Props.profiles_of i'))
                /\ Props.no_case_variant c (Props.profiles_of i')))
  /\ (forall (d : Py.dict ManagedClusterAddonProfile) c0 key p,
        Py.get d key = Some p ->
        str_lower key = str_lower c0 -> key <> c0 ->
        (forall k, In k (Py.keys d) ->
                   str_lower k = str_lower c0 -> k <> c0 -> k = key) ->
        let d' := Reconciler.honor_names (Py.keys d) c0 d in
        Py.get d' c0 = Some p /\ ~ In key (Py.keys d')).
Proof.
  intros C c.
  split; [|split; [|split]].
  - unfold Reconciler.canonical. now rewrite String.eqb_refl.
  - intros i' final U.
    apply InvariantFacts.update_returned in U.
    destruct U as (st' & R & P & _). split.
    + intros t a I N G. rewrite P.
      eapply InvariantFacts.run_establishes; eauto.
    + intros D. rewrite P.
      eapply InvariantFacts.run_case_distinct; [|exact R].
      now rewrite InvariantFacts.profiles_enter.
  - intros t s N S G NM Sn Ns call subnet. subst call. split.
    + intros A.
      assert (E : Reconciler.honor_names (Py.keys (Props.profiles_of i)) c
                    (Props.profiles_of i) = Props.profiles_of i).
      { apply CoalesceFacts.honor_names_settled. intros k I L.
        now destruct (A k I). }
      assert (NI : Py.get (Props.profiles_of i) c = None).
      { apply PyFacts.get_none_not_in. intros I. now apply (A c I). }
      pose proof (VirtualNodeFacts.update_virtual_node subscription_id
                    resource_group_name name kw i t s N S G NM Sn Ns) as U.
      cbv zeta in U. fold c in U. rewrite E, NI in U.
      specialize (U eq_refl). eexists. split; [exact U|].
      cbn [Props.profiles_of addon_profiles with_service_principal_profile
           with_addon_profiles].
      apply PyFacts.set_absent. now apply PyFacts.get_none_not_in.
    + intros key p P V O E.
      destruct (CoalesceFacts.honor_names_moves c
                  (Py.keys (Props.profiles_of i)) (Props.profiles_of i)
                  key p) as [M Gone]; auto.
      { eapply PyFacts.get_some_in; eauto. }
      pose proof (VirtualNodeFacts.update_virtual_node subscription_id
                    resource_group_name name kw i t s N S G NM Sn Ns) as U.
      cbv zeta in U. fold c in U. rewrite M in U.
      specialize (U E). eexists. split; [exact U|].
      cbn [Props.profiles_of addon_profiles with_service_principal_profile
           with_addon_profiles].
      split; [apply PyFacts.get_set_same|]. split.
      * intros I. apply PyFacts.keys_set in I. destruct I as [I|I].
        -- now apply Gone.
        -- destruct V as [_ V]. now apply V.
      * apply CoalesceFacts.no_case_variant_set; auto.
        apply CoalesceFacts.honor_names_no_variant.
  - intros d c0 key p G L N O d'. subst d'.
    apply CoalesceFacts.honor_names_moves with (key := key).
    + eapply PyFacts.get_some_in; eauto.
    + now split.
    + exact G.
    + intros k I [L' N']. now apply O.
Qed.

(** The sample catalog has canonical keys that are distinct up to case. *)
Lemma aks_catalog_case_distinct :
  @Props.catalog_case_distinct ascii_casing aks_consts.
Proof.
  intros t1 t2 a1 a2 G1 G2.
  apply PyFacts.get_some_value in G1, G2.
  cbn [ADDONS aks_consts map snd In] in G1, G2.
  repeat (destruct G1 as [<-|G1]); try contradiction;
    repeat (destruct G2 as [<-|G2]); try contradiction;
    intros L; vm_compute in L; (reflexivity || discriminate L).
Qed.

Lemma canonical_key_unique_witness :
  (exists i',
     @Reconciler._update_addons ascii_casing aks_consts quiet_collaborators
       "s" "rg" "c1" true Samples.with_subnet Samples.monitored
       "virtual-node" = (Returned i', i')
     /\ Props.profiles_of i'
        = [("omsagent", Samples.monitoring_profile);
           ("aciConnectorLinux",
            {| enabled := true;
               config := Some [("SubnetName", Py.Str "vn-subnet")];
               identity := None |})])
  /\ (exists i',
        @Reconciler._update_addons ascii_casing aks_consts
          quiet_collaborators "s" "rg" "c1" true Samples.with_subnet
          Samples.virtual_node_other_case "virtual-node" = (Returned i', i')
        /\ Py.get (Props.profiles_of i') "aciConnectorLinux"
           = Some {| enabled := true;
                     config := Some [("SubnetName", Py.Str "vn-subnet")];
                     identity := Some "aci-c1" |}
        /\ ~ In "ACIConnectorLinux" (Py.keys (Props.profiles_of i'))
        /\ Props.no_case_variant (H := ascii_casing) "aciConnectorLinux"
             (Props.profiles_of i')).
Proof.
  assert (N : "virtual-node" <> "web_application_routing") by discriminate.
  assert (NM : ("aciConnector" ++ "Linux")%string <> "omsagent")
    by discriminate.
  assert (Ns : "vn-subnet" <> "") by discriminate.
  split.
  - destruct (@canonical_key_unique ascii_casing aks_consts
                quiet_collaborators "s" "rg" "c1" true Samples.with_subnet
                Samples.monitored "virtual-node" aks_catalog_case_distinct)
      as (_ & _ & VN & _).
    destruct (VN "virtual-node" "vn-subnet" N eq_refl eq_refl NM eq_refl Ns)
      as [Fresh _].
    apply Fresh. intros k I. cbn in I. destruct I as [<-|[]]. discriminate.
  - destruct (@canonical_key_unique ascii_casing aks_consts
                quiet_collaborators "s" "rg" "c1" true Samples.with_subnet
                Samples.virtual_node_other_case "virtual-node"
                aks_catalog_case_distinct) as (_ & _ & VN & _).
    destruct (VN "virtual-node" "vn-subnet" N eq_refl eq_refl NM eq_refl Ns)
      as [_ Moved].
    apply (Moved "ACIConnectorLinux"
             {| enabled := false; config := None;
                identity := Some "aci-c1" |}).
    + reflexivity.
    + split; [reflexivity|discriminate].
    + intros k I _. cbn in I. destruct I as [<-|[]]. reflexivity.
    + reflexivity.
Defined.

(** C5 does not hold as stated for every call: the loop coalesces the
    casings of the add-ons that the call names, and of no other.
    Disabling the dashboard on a cluster that holds monitoring under two
    casings returns, and both casings are still there. *)
Lemma unnamed_addon_keeps_two_casings :
  exists i',
    @Reconciler._update_addons ascii_casing aks_consts quiet_collaborators
      "s" "rg" "c1" false Kwargs.default Samples.two_casings
      "kube-dashboard" = (Returned i', i')
    /\ Py.keys (Props.profiles_of i')
       = ["omsagent"; "OMSAgent"; "kubeDashboard"]
    /\ Py.lower "OMSAgent" = Py.lower "omsagent"
    /\ "OMSAgent" <> "omsagent"
    /\ ~ Props.no_case_variant (H := ascii_casing) "omsagent"
           (Props.profiles_of i').
Proof.
  eexists. split; [reflexivity|]. split; [reflexivity|].
  split; [reflexivity|]. split; [discriminate|].
  intros V. assert (E : "OMSAgent" = "omsagent").
  { apply V; [|reflexivity]. vm_compute. auto. }
  discriminate E.
Qed.

(** ** The submission *)

Module SubmitterFacts.
Import Submitter Props.

Section Handler.
Context `{Casing} `{Consts} `{Collaborators}.
Variables (subscription_id resource_group_name name : string).
Variable kw : Kwargs.t.
Variable cloud_name : string.








End Handler.

End SubmitterFacts.



(** * Further properties of [custom.py] *)

(** ** Custom headers *)

Module HeadersFacts.
Import Headers.

Lemma count_app (c : ascii) (a b : string) :
  count c (a ++ b)%string = (count c a + count c b)%nat.
Proof. induction a as [|x a IH]; simpl; [reflexivity|]. rewrite IH. lia. Qed.

(** Splitting gives one piece more than there are separators. *)
Lemma length_split (c : ascii) (s : string) :
  length (Py.split c s) = S (count c s).
Proof.
  induction s as [|x s IH]; simpl; [reflexivity|].
  destruct (Ascii.eqb x c); simpl; [now rewrite IH|].
  pose proof (PyFacts.split_not_nil c s) as N.
  destruct (Py.split c s) as [|w ws]; [contradiction|]. simpl in *. lia.
Qed.

Lemma split_free (c : ascii) (s : string) :
  count c s = 0%nat -> Py.split c s = [s].
Proof.
  induction s as [|x s IH]; simpl; [reflexivity|].
  destruct (Ascii.eqb x c); [discriminate|]. simpl. intros Z.
  now rewrite IH.
Qed.

Lemma split_cons_free (c : ascii) (s r : string) :
  count c s = 0%nat ->
  Py.split c (s ++ String c r)%string = s :: Py.split c r.
Proof.
  intros Z. rewrite PyFacts.split_app_sep, (split_free c s Z). reflexivity.
Qed.

Lemma split_pair_text (kv : string * string) :
  count equals (fst kv) = 0%nat -> count equals (snd kv) = 0%nat ->
  Py.split equals (pair_text kv) = [fst kv; snd kv].
Proof.
  intros K V. unfold pair_text. rewrite split_cons_free by exact K.
  now rewrite (split_free equals (snd kv) V).
Qed.

Lemma pair_text_no_comma (kv : string * string) :
  plain kv -> count Py.comma (pair_text kv) = 0%nat.
Proof.
  intros (K & _ & V & _). unfold pair_text. rewrite count_app. simpl.
  rewrite K, V. reflexivity.
Qed.

Lemma pair_text_not_empty (kv : string * string) (r : string) :
  (pair_text kv ++ r)%string <> "".
Proof. unfold pair_text. destruct (fst kv); discriminate. Qed.

Lemma render_cons (kv kv' : string * string) (kvs : list (string * string)) :
  render (kv :: kv' :: kvs)
  = (pair_text kv ++ String Py.comma (render (kv' :: kvs)))%string.
Proof. reflexivity. Qed.

Lemma render_not_empty (kv : string * string) kvs : render (kv :: kvs) <> "".
Proof.
  destruct kvs as [|kv' kvs].
  - unfold render, pair_text. simpl. destruct (fst kv); discriminate.
  - rewrite render_cons. apply pair_text_not_empty.
Qed.

(** The rendered text splits back into the texts of the pairs. *)
Lemma split_render (kv : string * string) kvs :
  Forall plain (kv :: kvs) ->
  Py.split Py.comma (render (kv :: kvs)) = map pair_text (kv :: kvs).
Proof.
  revert kv. induction kvs as [|kv' kvs IH]; intros kv F.
  - apply split_free. apply pair_text_no_comma. now inversion F.
  - rewrite render_cons. inversion F as [|? ? P F']; subst.
    rewrite split_cons_free by now apply pair_text_no_comma.
    now rewrite IH.
Qed.

Lemma add_pairs_texts kvs h :
  Forall plain kvs ->
  add_pairs (map pair_text kvs) h = Returned (collect kvs h).
Proof.
  revert h. induction kvs as [|kv kvs IH]; intros h F; [reflexivity|].
  inversion F as [|? ? (_ & K & _ & V) F']; subst. simpl.
  rewrite (split_pair_text kv K V). now apply IH.
Qed.

Lemma collect_fresh kvs h :
  NoDup (map fst kvs) ->
  (forall k, In k (map fst kvs) -> ~ In k (Py.keys h)) ->
  collect kvs h = h ++ kvs.
Proof.
  revert h. induction kvs as [|[k v] kvs IH]; intros h N D; simpl.
  - now rewrite app_nil_r.
  - inversion N as [|? ? NI N']; subst.
    rewrite PyFacts.set_absent by (apply D; now left).
    unfold collect in IH. rewrite IH; [now rewrite <- app_assoc|exact N'|].
    intros k' I J. unfold Py.keys in J. rewrite map_app, in_app_iff in J.
    destruct J as [J|[<-|[]]].
    + apply (D k'); [now right|exact J].
    + contradiction.
Qed.

Lemma get_app {V} (d e : Py.dict V) (k : string) :
  Py.get (d ++ e) k
  = match Py.get d k with Some v => Some v | None => Py.get e k end.
Proof.
  induction d as [|[k0 v0] d IH]; simpl; [reflexivity|].
  now destruct (String.eqb k0 k).
Qed.

(** A key takes the value of the last pair that names it. *)
Lemma get_collect kvs h k :
  Py.get (collect kvs h) k
  = match Py.get (rev kvs) k with
    | Some v => Some v
    | None => Py.get h k
    end.
Proof.
  revert h. induction kvs as [|[k0 v0] kvs IH]; intros h; [reflexivity|].
  simpl. unfold collect in IH. rewrite IH, get_app. simpl.
  destruct (Py.get (rev kvs) k); [reflexivity|].
  destruct (String.eqb_spec k0 k) as [->|N].
  - apply PyFacts.get_set_same.
  - now apply PyFacts.get_set_other.
Qed.

(** The loop returns exactly when every piece has one equals sign. *)
Lemma add_pairs_returns pairs h :
  Forall (fun item => count equals item = 1%nat) pairs ->
  exists h', add_pairs pairs h = Returned h'.
Proof.
  revert h. induction pairs as [|item rest IH]; intros h F; simpl.
  - now exists h.
  - inversion F as [|? ? C F']; subst.
    pose proof (length_split equals item) as L. rewrite C in L.
    destruct (Py.split equals item) as [|a [|b [|c l]]]; try discriminate.
    now apply IH.
Qed.

Lemma add_pairs_raises pairs h :
  ~ Forall (fun item => count equals item = 1%nat) pairs ->
  add_pairs pairs h = Raised (CLIError format_message).
Proof.
  revert h. induction pairs as [|item rest IH]; intros h F; simpl.
  - destruct F. constructor.
  - pose proof (length_split equals item) as L.
    destruct (Py.split equals item) as [|a [|b [|c l]]]; try reflexivity.
    apply IH. intros F'. apply F. constructor; [|exact F'].
    simpl in L. lia.
Qed.

End HeadersFacts.

(** X1. [get_aks_custom_headers] returns the empty dictionary for [None]
    and for the empty string.  For any other string it returns a
    dictionary when every comma-separated piece holds exactly one equals
    sign, and raises the [CLIError] "custom headers format is incorrect"
    as soon as one piece does not, wherever that piece stands. *)
Theorem custom_headers_accepted (s : string) :
  Headers.get_aks_custom_headers None = Returned []
  /\ Headers.get_aks_custom_headers (Some "") = Returned []
  /\ (s <> "" ->
      (Forall (fun item => Headers.count Headers.equals item = 1%nat)
         (Py.split Py.comma s) ->
       exists h, Headers.get_aks_custom_headers (Some s) = Returned h)
      /\ (~ Forall (fun item => Headers.count Headers.equals item = 1%nat)
            (Py.split Py.comma s) ->
          Headers.get_aks_custom_headers (Some s)
          = Raised (CLIError Headers.format_message))).
Proof.
  split; [reflexivity|]. split; [reflexivity|].
  intros N. unfold Headers.get_aks_custom_headers.
  apply String.eqb_neq in N. rewrite N. split.
  - apply HeadersFacts.add_pairs_returns.
  - apply HeadersFacts.add_pairs_raises.
Qed.

(** X2. Pairs with distinct keys, written as [k=v] and joined by commas,
    are read back as they were given, in the same order, provided no key
    and no value holds a comma or an equals sign. *)
Theorem custom_headers_round_trip (kvs : list (string * string)) :
  NoDup (map fst kvs) ->
  Forall Headers.plain kvs ->
  Headers.get_aks_custom_headers (Some (Headers.render kvs)) = Returned kvs.
Proof.
  intros N F. destruct kvs as [|kv kvs]; [reflexivity|].
  unfold Headers.get_aks_custom_headers.
  pose proof (HeadersFacts.render_not_empty kv kvs) as NE.
  apply String.eqb_neq in NE. rewrite NE.
  rewrite HeadersFacts.split_render by exact F.
  rewrite HeadersFacts.add_pairs_texts by exact F.
  now rewrite HeadersFacts.collect_fresh.
Qed.

Lemma custom_headers_round_trip_witness :
  Headers.render [("AKSHTTPCustomFeatures", "Microsoft.ContainerService/X");
                  ("EnableAzureDiskFileCSIDriver", "true")]
  = "AKSHTTPCustomFeatures=Microsoft.ContainerService/X,EnableAzureDiskFileCSIDriver=true"
  /\ Headers.get_aks_custom_headers
       (Some "AKSHTTPCustomFeatures=Microsoft.ContainerService/X,EnableAzureDiskFileCSIDriver=true")
     = Returned [("AKSHTTPCustomFeatures", "Microsoft.ContainerService/X");
                 ("EnableAzureDiskFileCSIDriver", "true")].
Proof.
  split; [reflexivity|].
  apply (custom_headers_round_trip
           [("AKSHTTPCustomFeatures", "Microsoft.ContainerService/X");
            ("EnableAzureDiskFileCSIDriver", "true")]).
  - repeat constructor; simpl; intuition discriminate.
  - repeat constructor.
Defined.

(** X3. When a key is given more than once, the dictionary that
    [get_aks_custom_headers] returns holds the value of the last pair with
    that key, and it holds no key that was not given. *)
Theorem custom_headers_last_wins (kvs : list (string * string)) :
  Forall Headers.plain kvs ->
  exists h,
    Headers.get_aks_custom_headers (Some (Headers.render kvs)) = Returned h
    /\ forall k, Py.get h k = Py.get (rev kvs) k.
Proof.
  intros F. destruct kvs as [|kv kvs]; [now exists []|].
  unfold Headers.get_aks_custom_headers.
  pose proof (HeadersFacts.render_not_empty kv kvs) as NE.
  apply String.eqb_neq in NE. rewrite NE.
  rewrite HeadersFacts.split_render by exact F.
  rewrite HeadersFacts.add_pairs_texts by exact F.
  eexists. split; [reflexivity|]. intros k.
  rewrite HeadersFacts.get_collect.
  now destruct (Py.get (rev (kv :: kvs)) k).
Qed.

Lemma custom_headers_last_wins_witness :
  exists h,
    Headers.get_aks_custom_headers (Some "a=1,b=2,a=3") = Returned h
    /\ Py.get h "a" = Some "3"
    /\ Py.get h "b" = Some "2"
    /\ Py.get h "c" = None.
Proof.
  destruct (custom_headers_last_wins [("a", "1"); ("b", "2"); ("a", "3")])
    as (h & E & G).
  { repeat constructor. }
  exists h. split; [exact E|]. rewrite !G. repeat split.
Defined.

(** ** The waiter: success, bounds, and the registry detach that uses it *)

Module WaiterMoreFacts.
Import RoleAssignmentWaiter.

Section Loop.
Variable remote : nat -> outcome unit.
Variables (role sp : string) (delay : Z) (scope : option string).

Let loop := retry_loop remote role sp delay scope.
Let pause (x : nat) : Z := (delay + delay * Z.of_nat x)%Z.

(** An attempt that returns, after propagation failures, ends the loop. *)
Lemma loop_break (pre post : list nat) (k : nat) (u : unit) :
  (forall x, In x pre -> exists m, remote x = Raised (CloudError m)) ->
  remote k = Returned u ->
  snd (loop (pre ++ k :: post)) = Break
  /\ sleeps (fst (loop (pre ++ k :: post))) = map pause pre
  /\ attempts (fst (loop (pre ++ k :: post))) = S (length pre).
Proof.
  subst loop. induction pre as [|x pre IH]; intros A K; simpl.
  - rewrite K. simpl. auto.
  - destruct (A x (or_introl eq_refl)) as [m' ->].
    destruct IH as (E & S & N); [intros; apply A; now right|assumption|].
    destruct (retry_loop remote role sp delay scope (pre ++ k :: post))
      as [later how].
    unfold sleeps, attempts in *. simpl in *. subst how.
    rewrite S, N. auto.
Qed.

(** The loop is exhausted only by propagation failures. *)
Lemma loop_exhausted_only (xs : list nat) :
  snd (loop xs) = Exhausted ->
  forall x, In x xs -> exists m, remote x = Raised (CloudError m).
Proof.
  subst loop. induction xs as [|x xs IH]; intros E y I; [contradiction|].
  simpl in E.
  destruct (remote x) as [u|[m|m|m| | | |k|m]] eqn:R; try discriminate.
  destruct (retry_loop remote role sp delay scope xs) as [later how].
  simpl in *. destruct I as [<-|I]; [now exists m|]. now apply IH.
Qed.

(** At most one attempt for each value of [x], and sleeps after a first
    part of them. *)
Lemma loop_bounds (xs : list nat) :
  (attempts (fst (loop xs)) <= length xs)%nat
  /\ exists n, sleeps (fst (loop xs)) = map pause (firstn n xs).
Proof.
  subst loop. induction xs as [|x xs IH]; simpl.
  - split; [unfold attempts; simpl; lia|]. now exists 0%nat.
  - destruct IH as [A [n Sl]].
    destruct (remote x) as [u|[m|m|m| | | |k|m]];
      try (split; [unfold attempts; simpl; lia|now exists 0%nat]).
    destruct (retry_loop remote role sp delay scope xs) as [later how].
    unfold sleeps, attempts in *. simpl in *. split; [lia|].
    exists (S n). simpl. now rewrite Sl.
Qed.
End Loop.

Lemma total_app (a b : list Z) : total (a ++ b) = (total a + total b)%Z.
Proof. unfold total. induction a as [|x a IH]; simpl; lia. Qed.

Lemma total_nonneg (l : list Z) :
  (forall z, In z l -> (0 <= z)%Z) -> (0 <= total l)%Z.
Proof.
  unfold total. induction l as [|x l IH]; intros P; simpl; [lia|].
  assert (0 <= x)%Z by (apply P; now left).
  assert (0 <= fold_right Z.add 0 l)%Z by (apply IH; intros; apply P; now right).
  lia.
Qed.

(** A first part of a list of pauses sums to no more than the list. *)
Lemma total_firstn (f : nat -> Z) (n : nat) (xs : list nat) :
  (forall x, (0 <= f x)%Z) ->
  (0 <= total (map f (firstn n xs)) <= total (map f xs))%Z.
Proof.
  intros P. rewrite <- (firstn_skipn n xs) at 3.
  rewrite map_app, total_app.
  assert (0 <= total (map f (firstn n xs)))%Z.
  { apply total_nonneg. intros z I. apply in_map_iff in I.
    destruct I as (x & <- & _). apply P. }
  assert (0 <= total (map f (skipn n xs)))%Z.
  { apply total_nonneg. intros z I. apply in_map_iff in I.
    destruct I as (x & <- & _). apply P. }
  lia.
Qed.

Section Call.
Variable remote : nat -> outcome unit.
Variables (role sp : string) (delay : Z) (scope : option string).

Let run := _delete_role_assignments remote role sp delay scope.
Let pause (x : nat) : Z := (delay + delay * Z.of_nat x)%Z.

(** The call in terms of its loop. *)
Lemma call_exhausted :
  (forall x, (x < 10)%nat -> exists m, remote x = Raised (CloudError m)) ->
  snd run = Returned false
  /\ sleeps (fst run) = map pause (seq 0 10)
  /\ attempts (fst run) = 10%nat.
Proof.
  intros A. subst run. unfold _delete_role_assignments.
  destruct (WaiterFacts.loop_exhausted remote role sp delay scope (seq 0 10))
    as (E & S & N).
  { intros x I. apply in_seq in I. apply A. lia. }
  destruct (retry_loop remote role sp delay scope (seq 0 10)) as [tr how].
  cbn [fst snd] in *. subst how. cbn [fst snd].
  rewrite WaiterFacts.sleeps_app, WaiterFacts.attempts_app, S, N. auto.
Qed.

Lemma call_success (k : nat) (u : unit) :
  (k < 10)%nat ->
  (forall x, (x < k)%nat -> exists m, remote x = Raised (CloudError m)) ->
  remote k = Returned u ->
  snd run = Returned true
  /\ sleeps (fst run) = map pause (seq 0 k)
  /\ attempts (fst run) = S k
  /\ exists tr,
       fst run
       = tr ++ [ProgressAdd "AAD role deletion done" 10;
                LogInfo "AAD role deletion done"].
Proof.
  intros L A K. subst run. unfold _delete_role_assignments.
  destruct (loop_break remote role sp delay scope
              (seq 0 k) (seq (S k) (10 - S k)) k u) as (E & S & N).
  { intros x I. apply in_seq in I. apply A. lia. }
  { exact K. }
  rewrite <- (WaiterFacts.seq_split k 10 L) in E, S, N.
  destruct (retry_loop remote role sp delay scope (seq 0 10)) as [tr how].
  cbn [fst snd] in *. subst how. cbn [fst snd].
  rewrite !WaiterFacts.sleeps_app, !WaiterFacts.attempts_app, S, N.
  rewrite length_seq. cbn. rewrite app_nil_r. repeat split; try lia.
  exists (ProgressAdd "Waiting for AAD role to delete" 0
            :: LogInfo "Waiting for AAD role to delete" :: tr).
  reflexivity.
Qed.

Lemma call_false_only :
  snd run = Returned false ->
  forall x, (x < 10)%nat -> exists m, remote x = Raised (CloudError m).
Proof.
  subst run. unfold _delete_role_assignments. intros R x L.
  pose proof (loop_exhausted_only remote role sp delay scope (seq 0 10)) as O.
  destruct (retry_loop remote role sp delay scope (seq 0 10))
    as [tr [| |e]]; cbn [snd] in *; try discriminate.
  apply O; [reflexivity|]. apply in_seq. lia.
Qed.

(** Every deletion is asked for the role, the principal and the scope of
    the call. *)
Lemma loop_delete_calls (xs : list nat) (w : event) :
  In w (fst (retry_loop remote role sp delay scope xs)) ->
  match w with
  | DeleteCall r a s => r = role /\ a = sp /\ s = scope
  | _ => True
  end.
Proof.
  revert w. induction xs as [|x xs IH]; intros w J; [destruct J|].
  simpl in J.
  destruct (remote x) as [u|[m|m|m| | | |q|m]];
    try (cbn in J; destruct J as [<-|[<-|[]]]; auto).
  destruct (retry_loop remote role sp delay scope xs) as [later how].
  cbn in J. destruct J as [<-|[<-|[<-|[<-|J]]]]; auto.
  apply IH. exact J.
Qed.

Lemma call_delete_calls (w : event) :
  In w (fst run) ->
  match w with
  | DeleteCall r a s => r = role /\ a = sp /\ s = scope
  | _ => True
  end.
Proof.
  subst run. unfold _delete_role_assignments. intros J.
  pose proof (loop_delete_calls (seq 0 10) w) as D.
  destruct (retry_loop remote role sp delay scope (seq 0 10))
    as [tr [| |e]]; cbn [fst snd] in *;
    repeat (rewrite in_app_iff in J; cbn [In] in J);
    repeat match goal with
           | J : _ \/ _ |- _ => destruct J as [J|J]
           | J : False |- _ => destruct J
           end;
    subst; auto; try (apply D; exact J).
Qed.

Lemma call_bounds :
  (attempts (fst run) <= 10)%nat
  /\ exists n, sleeps (fst run) = map pause (firstn n (seq 0 10)).
Proof.
  subst run. unfold _delete_role_assignments.
  destruct (loop_bounds remote role sp delay scope (seq 0 10)) as [A [n S]].
  rewrite length_seq in A.
  destruct (retry_loop remote role sp delay scope (seq 0 10))
    as [tr [| |e]]; cbn [fst snd] in *;
    rewrite ?WaiterFacts.sleeps_app, ?WaiterFacts.attempts_app, S;
    cbn; rewrite ?app_nil_r; (split; [lia|now exists n]).
Qed.
End Call.

End WaiterMoreFacts.

(** X4. For a delay that is not negative ([time.sleep] raises
    [ValueError] on a negative argument): when the attempt numbered [k] is
    the first deletion that does not fail, [_delete_role_assignments]
    returns [True] after [k + 1] attempts, has slept [delay + delay * x]
    seconds after each of the [k] failed ones and not after the last, and
    ends by reporting "AAD role deletion done". *)
Theorem delete_role_assignments_succeeds
    (remote : nat -> outcome unit) (role sp : string) (delay : Z)
    (scope : option string) (k : nat) :
  (0 <= delay)%Z ->
  (k < 10)%nat ->
  (forall x, (x < k)%nat -> exists m, remote x = Raised (CloudError m)) ->
  remote k = Returned tt ->
  let run := RoleAssignmentWaiter._delete_role_assignments
               remote role sp delay scope in
  snd run = Returned true
  /\ RoleAssignmentWaiter.attempts (fst run) = S k
  /\ RoleAssignmentWaiter.sleeps (fst run)
     = map (fun x : nat => (delay + delay * Z.of_nat x)%Z) (seq 0 k)
  /\ exists tr,
       fst run
       = tr ++ [RoleAssignmentWaiter.ProgressAdd "AAD role deletion done" 10;
                RoleAssignmentWaiter.LogInfo "AAD role deletion done"].
Proof.
  intros _ L A K run.
  destruct (WaiterMoreFacts.call_success remote role sp delay scope k tt L A K)
    as (R & S & N & T).
  repeat split; assumption.
Qed.

Lemma delete_role_assignments_succeeds_witness :
  let run := RoleAssignmentWaiter._delete_role_assignments
               (fun x => if (x <? 3)%nat then Raised (CloudError "lag")
                         else Returned tt)
               "acrpull" "sp" 2 None in
  snd run = Returned true
  /\ RoleAssignmentWaiter.attempts (fst run) = 4%nat
  /\ RoleAssignmentWaiter.sleeps (fst run) = [2; 4; 6]%Z.
Proof.
  assert (D : (0 <= 2)%Z) by lia.
  assert (L : (3 < 10)%nat) by lia.
  destruct (delete_role_assignments_succeeds
              (fun x => if (x <? 3)%nat then Raised (CloudError "lag")
                        else Returned tt)
              "acrpull" "sp" 2 None 3 D L) as (R & N & S & _).
  { intros x Lx. exists "lag".
    destruct x as [|[|[|x]]]; try reflexivity. lia. }
  { reflexivity. }
  repeat split; assumption.
Defined.

(** X5. For a delay that is not negative ([time.sleep] raises
    [ValueError] on a negative argument): whatever the deletion does,
    [_delete_role_assignments] makes at most ten attempts and sleeps no
    more than [55 * delay] seconds in all; it returns [False] exactly when
    each of the ten attempts has failed with a [CloudError]. *)
Theorem delete_role_assignments_bounded
    (remote : nat -> outcome unit) (role sp : string) (delay : Z)
    (scope : option string) :
  (0 <= delay)%Z ->
  let run := RoleAssignmentWaiter._delete_role_assignments
               remote role sp delay scope in
  (RoleAssignmentWaiter.attempts (fst run) <= 10)%nat
  /\ (0 <= RoleAssignmentWaiter.total
             (RoleAssignmentWaiter.sleeps (fst run)) <= 55 * delay)%Z
  /\ (snd run = Returned false <->
      forall x, (x < 10)%nat -> exists m, remote x = Raised (CloudError m)).
Proof.
  intros D run.
  destruct (WaiterMoreFacts.call_bounds remote role sp delay scope)
    as [A [n S]].
  split; [exact A|]. split.
  - subst run. rewrite S.
    rewrite <- (WaiterFacts.total_linear delay).
    apply WaiterMoreFacts.total_firstn. intros x. nia.
  - split.
    + apply WaiterMoreFacts.call_false_only.
    + intros C.
      now destruct (WaiterMoreFacts.call_exhausted remote role sp delay
                      scope C).
Qed.

Lemma delete_role_assignments_bounded_witness :
  let run := RoleAssignmentWaiter._delete_role_assignments
               (fun x => if (x <? 3)%nat then Raised (CloudError "lag")
                         else Returned tt)
               "acrpull" "sp" 2 None in
  (RoleAssignmentWaiter.attempts (fst run) <= 10)%nat
  /\ (0 <= RoleAssignmentWaiter.total
             (RoleAssignmentWaiter.sleeps (fst run)) <= 110)%Z
  /\ snd run <> Returned false.
Proof.
  assert (D : (0 <= 2)%Z) by lia.
  destruct (delete_role_assignments_bounded
              (fun x => if (x <? 3)%nat then Raised (CloudError "lag")
                        else Returned tt)
              "acrpull" "sp" 2 None D) as (A & T & F).
  split; [exact A|]. split; [exact T|]. discriminate.
Defined.

(** X6. Detaching a registry waits for the deletion of the "acrpull" role
    of the client at the scope of the registry, with the default delay:
    when each of the ten attempts fails with a [CloudError] it raises "Could
    not delete role assignments for ACR. ..." after 110 seconds of sleep,
    and when an attempt goes through after failures it returns; it never
    adds a role assignment. *)
Theorem acr_detach_waits
    (remote : nat -> outcome unit)
    (add_role_assignment : string -> string -> option string -> outcome bool)
    (client_id registry_id : string) :
  let run := Acr._ensure_aks_acr_role_assignment remote add_role_assignment
               client_id registry_id true in
  ((forall x, (x < 10)%nat -> exists m, remote x = Raised (CloudError m)) ->
   snd run = Raised (CLIError Acr.delete_failed_message)
   /\ RoleAssignmentWaiter.total
        (RoleAssignmentWaiter.sleeps (Acr.waiting (fst run))) = 110%Z)
  /\ (forall k,
        (k < 10)%nat ->
        (forall x, (x < k)%nat -> exists m, remote x = Raised (CloudError m)) ->
        remote k = Returned tt ->
        snd run = Returned tt
        /\ RoleAssignmentWaiter.attempts (Acr.waiting (fst run)) = S k)
  /\ (forall e, In e (fst run) ->
        match e with
        | Acr.AddRoleAssignment _ _ _ => False
        | Acr.Waiting (RoleAssignmentWaiter.DeleteCall r a s) =>
            r = "acrpull" /\ a = client_id /\ s = Some registry_id
        | Acr.Waiting _ => True
        end).
Proof.
  intros run. subst run. unfold Acr._ensure_aks_acr_role_assignment.
  assert (W : forall tr, Acr.waiting (map Acr.Waiting tr) = tr).
  { induction tr as [|e tr IH]; [reflexivity|]. cbn. now rewrite <- IH at 2. }
  split; [|split].
  - intros A.
    destruct (WaiterMoreFacts.call_exhausted remote "acrpull" client_id
                RoleAssignmentWaiter.default_delay (Some registry_id) A)
      as (R & S & _).
    destruct (RoleAssignmentWaiter._delete_role_assignments _ _ _ _ _)
      as [tr r]. cbn [fst snd] in *. subst r. cbn [fst snd].
    rewrite W, S. split; [reflexivity|].
    apply (WaiterFacts.total_linear 2).
  - intros k L A K.
    destruct (WaiterMoreFacts.call_success remote "acrpull" client_id
                RoleAssignmentWaiter.default_delay (Some registry_id)
                k tt L A K) as (R & _ & N & _).
    destruct (RoleAssignmentWaiter._delete_role_assignments _ _ _ _ _)
      as [tr r]. cbn [fst snd] in *. subst r. cbn [fst snd].
    now rewrite W.
  - intros e I.
    pose proof (WaiterMoreFacts.call_delete_calls remote "acrpull" client_id
                  RoleAssignmentWaiter.default_delay (Some registry_id)) as D.
    destruct (RoleAssignmentWaiter._delete_role_assignments _ _ _ _ _)
      as [tr [[|]|ex]]; cbn [fst snd] in *;
      apply in_map_iff in I; destruct I as (w & <- & J);
      specialize (D w J); now destruct w.
Qed.

Lemma acr_detach_waits_witness :
  let run := Acr._ensure_aks_acr_role_assignment
               (fun _ => Raised (CloudError "lag"))
               (fun _ _ _ => Returned true) "client" "registry" true in
  snd run = Raised (CLIError Acr.delete_failed_message)
  /\ RoleAssignmentWaiter.total
       (RoleAssignmentWaiter.sleeps (Acr.waiting (fst run))) = 110%Z.
Proof.
  destruct (acr_detach_waits (fun _ => Raised (CloudError "lag"))
              (fun _ _ _ => Returned true) "client" "registry") as [E _].
  apply E. intros x _. now exists "lag".
Defined.

(** ** Opening the browser *)

Module BrowserFacts.
Import Browser.

(** The loop is left in its first turn. *)
Lemma wait_then_open_first (urlopen : nat -> probe) (url : string) :
  wait_then_open urlopen url
  = match urlopen 1%nat with
    | Reached => ([UrlOpen url; OpenNewTab url], Returned tt)
    | UrlError => ([UrlOpen url; Sleep 1; OpenNewTab url], Returned tt)
    | Failure e => ([UrlOpen url], Raised e)
    end.
Proof.
  unfold wait_then_open. change (seq 1 9) with (1%nat :: seq 2 8).
  cbn [for_each]. unfold turn. destruct (urlopen 1%nat); reflexivity.
Qed.

End BrowserFacts.

(** X7. [wait_then_open] probes the URL once, whatever the probe does: it
    depends on the outcome of the first probe only, sleeps one second when
    that probe raised [URLError] and not at all otherwise, and then opens
    the tab, unless the probe raised another exception, which it passes
    on. *)
Theorem wait_then_open_probes_once (urlopen : nat -> Browser.probe)
    (url : string) :
  let run := Browser.wait_then_open urlopen url in
  Browser.probes (fst run) = 1%nat
  /\ (forall other,
        other 1%nat = urlopen 1%nat ->
        Browser.wait_then_open other url = run)
  /\ Browser.slept (fst run)
     = match urlopen 1%nat with Browser.UrlError => 1%Z | _ => 0%Z end
  /\ match urlopen 1%nat with
     | Browser.Failure e =>
         snd run = Raised e /\ ~ In (Browser.OpenNewTab url) (fst run)
     | _ =>
         snd run = Returned tt
         /\ exists tr, fst run = tr ++ [Browser.OpenNewTab url]
     end.
Proof.
  intros run. subst run. rewrite BrowserFacts.wait_then_open_first.
  split; [|split; [|split]].
  - destruct (urlopen 1%nat); reflexivity.
  - intros other E. now rewrite BrowserFacts.wait_then_open_first, E.
  - destruct (urlopen 1%nat); reflexivity.
  - destruct (urlopen 1%nat); cbn [fst snd].
    + split; [reflexivity|]. now exists [Browser.UrlOpen url].
    + split; [reflexivity|].
      now exists [Browser.UrlOpen url; Browser.Sleep 1].
    + split; [reflexivity|]. intros [I|[]]. discriminate.
Qed.

(** ** Disabling from the command line *)

Module DisablerFacts.
Import Disabler.

Section Handler.
Context `{Casing} `{Consts} `{Collaborators}.
Variables (subscription_id resource_group_name name : string).
Variable no_wait : bool.
Variable remove_container_insights :
  ManagedClusterAddonProfile -> string -> string -> string -> string ->
  option exn.

Let removal := remove_association subscription_id resource_group_name name
                 remove_container_insights.
Let handler := aks_disable_addons subscription_id resource_group_name name
                 no_wait remove_container_insights.

Lemma removal_events instance addons :
  fst (removal instance addons) = []
  \/ exists p,
       fst (removal instance addons) = [RemoveMonitoring p]
       /\ removal_due instance addons p.
Proof.
  subst removal. unfold remove_association, removal_due.
  destruct (String.eqb_spec addons "monitoring") as [->|N]; [|now left].
  destruct (addon_profiles instance) as [d|]; [|now left].
  destruct (Py.get d CONST_MONITORING_ADDON_NAME) as [p|] eqn:G; [|now left].
  destruct (enabled p) eqn:E; [|now left].
  destruct (config p) as [c|] eqn:C; [|now left].
  destruct (Py.get c CONST_MONITORING_USING_AAD_MSI_AUTH) as [v|] eqn:M;
    [|now left].
  destruct (String.eqb_spec (Py.lower (Py.str v)) "true") as [T|T];
    [|now left].
  right. exists p. split.
  - destruct (remove_container_insights p _ _ _ _) as [[]|]; reflexivity.
  - split; [reflexivity|]. exists d, c, v. repeat split; assumption.
Qed.

Lemma removal_when_due instance addons p :
  removal_due instance addons p ->
  fst (removal instance addons) = [RemoveMonitoring p].
Proof.
  intros (-> & d & c & v & A & G & E & C & M & T).
  subst removal. unfold remove_association.
  rewrite A, G, E, C, M, T. cbn.
  destruct (remove_container_insights p _ _ _ _) as [[]|]; reflexivity.
Qed.

(** The handler in terms of its two steps. *)
Lemma handler_trace instance addons :
  fst (handler instance addons)
  = fst (removal instance addons)
    ++ match snd (removal instance addons),
             fst (Reconciler._update_addons subscription_id
                    resource_group_name name false Kwargs.default
                    instance addons) with
       | Returned _, Returned i => [SdkNoWait no_wait i]
       | _, _ => []
       end.
Proof.
  subst handler removal. unfold aks_disable_addons.
  destruct (remove_association _ _ _ _ instance addons) as [tr [u|e]];
    cbn [fst snd]; [|now rewrite app_nil_r].
  destruct (Reconciler._update_addons _ _ _ _ _ instance addons)
    as [[i|e] final]; cbn [fst snd]; [reflexivity|now rewrite app_nil_r].
Qed.

Lemma handler_outcome instance addons :
  snd (handler instance addons)
  = match snd (removal instance addons),
          fst (Reconciler._update_addons subscription_id
                 resource_group_name name false Kwargs.default
                 instance addons) with
    | Raised e, _ => Raised e
    | Returned _, Raised e => Raised e
    | Returned _, Returned i => Returned (Submitter.Handle no_wait i)
    end.
Proof.
  subst handler removal. unfold aks_disable_addons.
  destruct (remove_association _ _ _ _ instance addons) as [tr [u|e]];
    cbn [fst snd]; [|reflexivity].
  destruct (Reconciler._update_addons _ _ _ _ _ instance addons)
    as [[i|e] final]; reflexivity.
Qed.
End Handler.

End DisablerFacts.

(** X8. [aks_disable_addons] submits the cluster through [sdk_no_wait],
    as its last call and with the [no_wait] it was given, exactly when
    the removal step and the reconciliation have returned: what it submits
    and returns the handle of is the cluster [_update_addons] returned,
    whose service principal profile is [None].  When it raises, nothing
    has been submitted. *)
Theorem disable_submits_reconciled `{Casing} `{Consts} `{Collaborators}
    (subscription_id resource_group_name name : string) (no_wait : bool)
    (remove_container_insights :
       ManagedClusterAddonProfile -> string -> string -> string -> string ->
       option exn)
    (instance : ManagedCluster) (addons : string) :
  let run := Disabler.aks_disable_addons subscription_id resource_group_name
               name no_wait remove_container_insights instance addons in
  (forall s,
     snd run = Returned s ->
     exists i final tr,
       Reconciler._update_addons subscription_id resource_group_name name
         false Kwargs.default instance addons = (Returned i, final)
       /\ s = Submitter.Handle no_wait i
       /\ fst run = tr ++ [Disabler.SdkNoWait no_wait i]
       /\ (forall e, In e tr -> Disabler.is_submission e = false)
       /\ service_principal_profile i = None)
  /\ (forall e,
        snd run = Raised e ->
        forall ev, In ev (fst run) -> Disabler.is_submission ev = false).
Proof.
  intros run. subst run.
  pose proof (DisablerFacts.handler_trace subscription_id resource_group_name
                name no_wait remove_container_insights instance addons) as T.
  pose proof (DisablerFacts.handler_outcome subscription_id
                resource_group_name name no_wait remove_container_insights
                instance addons) as O.
  assert (RE : forall ev,
            In ev (fst (Disabler.remove_association subscription_id
                          resource_group_name name remove_container_insights
                          instance addons)) ->
            Disabler.is_submission ev = false).
  { intros ev I.
    destruct (DisablerFacts.removal_events subscription_id
                resource_group_name name remove_container_insights
                instance addons) as [E|[p [E _]]];
      rewrite E in I; [destruct I|]. destruct I as [<-|[]]. reflexivity. }
  rewrite T, O. clear T O.
  destruct (snd (Disabler.remove_association _ _ _ _ instance addons))
    as [u|e0].
  - destruct (Reconciler._update_addons subscription_id resource_group_name
                name false Kwargs.default instance addons)
      as [[i|e1] final] eqn:U; cbn [fst snd].
    + split; [|discriminate].
      intros s E. injection E as <-. exists i, final. eexists.
      split; [reflexivity|]. split; [reflexivity|]. split; [reflexivity|].
      split; [exact RE|].
      unfold Reconciler._update_addons in U.
      destruct (Reconciler.reconcile_all _ _ _ _ _ _ _) as [[[]|ex] st];
        [|discriminate].
      injection U as <- _. reflexivity.
    + split; [discriminate|]. intros e _ ev I.
      rewrite app_nil_r in I. now apply RE.
  - cbn. split; [discriminate|]. intros e _ ev I.
    rewrite app_nil_r in I. now apply RE.
Qed.

Lemma disable_submits_reconciled_witness :
  let run := @Disabler.aks_disable_addons ascii_casing aks_consts quiet_collaborators
               "s" "rg" "c1" true (fun _ _ _ _ _ => None)
               Samples.two_addons "kube-dashboard" in
  exists i,
    snd run = Returned (Submitter.Handle true i)
    /\ fst run = [Disabler.SdkNoWait true i]
    /\ service_principal_profile i = None.
Proof.
  destruct (@disable_submits_reconciled ascii_casing aks_consts quiet_collaborators
              "s" "rg" "c1" true (fun _ _ _ _ _ => None)
              Samples.two_addons "kube-dashboard") as [R _].
  destruct (R _ eq_refl) as (i & final & tr & U & _ & T & _ & P).
  exists i. split; [|split; [|exact P]].
  - vm_compute in U. injection U as <- _. reflexivity.
  - vm_compute in U. injection U as <- _. reflexivity.
Defined.

(** X9. Before reconciling, [aks_disable_addons] asks for the removal of
    the data collection rule association at most once, and exactly when
    its [addons] argument is the one word "monitoring" and the profile
    under the monitoring key of the cluster as fetched is enabled with an
    MSI-auth value that reads as true under [str(...).lower()]; a list
    such as "monitoring,kube-dashboard" never triggers it. *)
Theorem disable_removes_association_when_due `{Casing} `{Consts} `{Collaborators}
    (subscription_id resource_group_name name : string) (no_wait : bool)
    (remove_container_insights :
       ManagedClusterAddonProfile -> string -> string -> string -> string ->
       option exn)
    (instance : ManagedCluster) (addons : string) :
  let run := Disabler.aks_disable_addons subscription_id resource_group_name
               name no_wait remove_container_insights instance addons in
  (forall p,
     In (Disabler.RemoveMonitoring p) (fst run)
     <-> Disabler.removal_due instance addons p)
  /\ (length (filter (fun e => negb (Disabler.is_submission e)) (fst run))
      <= 1)%nat
  /\ (addons <> "monitoring" ->
      forall e, In e (fst run) -> Disabler.is_submission e = true).
Proof.
  intros run. subst run.
  rewrite (DisablerFacts.handler_trace subscription_id resource_group_name
             name no_wait remove_container_insights instance addons).
  set (tail := match _, _ with
               | Returned _, Returned i => [Disabler.SdkNoWait no_wait i]
               | _, _ => []
               end).
  assert (TS : forall e, In e tail -> Disabler.is_submission e = true).
  { subst tail. intros e I.
    destruct (snd (Disabler.remove_association _ _ _ _ instance addons));
      [|destruct I].
    destruct (fst (Reconciler._update_addons _ _ _ _ _ instance addons));
      [|destruct I].
    destruct I as [<-|[]]. reflexivity. }
  assert (TF : filter (fun e => negb (Disabler.is_submission e)) tail = []).
  { induction tail as [|e tl IH]; [reflexivity|]. cbn.
    rewrite (TS e (or_introl eq_refl)). cbn. apply IH.
    intros e' I. apply TS. now right. }
  split; [|split].
  - intros p. rewrite in_app_iff. split.
    + intros [I|I].
      * destruct (DisablerFacts.removal_events subscription_id
                    resource_group_name name remove_container_insights
                    instance addons) as [E|[q [E D]]];
          rewrite E in I; [destruct I|].
        destruct I as [I|[]]. injection I as <-. exact D.
      * apply TS in I. discriminate.
    + intros D. left.
      rewrite (DisablerFacts.removal_when_due subscription_id
                 resource_group_name name remove_container_insights
                 instance addons p D).
      now left.
  - rewrite filter_app, TF, app_nil_r.
    destruct (DisablerFacts.removal_events subscription_id
                resource_group_name name remove_container_insights
                instance addons) as [E|[q [E D]]]; rewrite E; cbn; lia.
  - intros N e I. apply in_app_iff in I. destruct I as [I|I]; [|now apply TS].
    destruct (DisablerFacts.removal_events subscription_id
                resource_group_name name remove_container_insights
                instance addons) as [E|[q [E [D _]]]];
      rewrite E in I; [destruct I|contradiction].
Qed.

(** ** What the add-on queries see after a reconciliation *)

Module MarkFacts.
Import Reconciler Props MoreProps.

Lemma get_remove_other {V} (d : Py.dict V) (k c : string) :
  k <> c -> Py.get (Py.remove d k) c = Py.get d c.
Proof.
  intros N. unfold Py.remove.
  induction d as [|[k0 v0] d IH]; simpl; [reflexivity|].
  destruct (String.eqb_spec k0 k) as [->|D]; simpl.
  - apply String.eqb_neq in N. now rewrite N.
  - now rewrite IH.
Qed.

(** The coalescing for [addon] leaves the entries of other add-ons. *)
Lemma honor_names_get_other `{Casing} ks addon c
    (d : Py.dict ManagedClusterAddonProfile) :
  c <> addon -> ~ variant addon c ->
  Py.get (honor_names ks addon d) c = Py.get d c.
Proof.
  intros N NV. revert d.
  induction ks as [|key rest IH]; intros d; simpl; [reflexivity|].
  destruct (_ && _) eqn:T; [|apply IH].
  apply CoalesceFacts.variant_test in T.
  unfold Py.pop. destruct (Py.get d key) as [p|]; [|apply IH].
  rewrite IH. rewrite PyFacts.get_set_other by congruence.
  apply get_remove_other. intros ->. contradiction.
Qed.

Lemma get_pair_in {V} (d : Py.dict V) (k : string) (v : V) :
  Py.get d k = Some v -> In (k, v) d.
Proof.
  induction d as [|[k0 v0] d IH]; simpl; [discriminate|].
  destruct (String.eqb_spec k0 k) as [->|N]; intros G.
  - injection G as ->. now left.
  - right. now apply IH.
Qed.

Section Runs.
Context `{Casing} `{Consts} `{Collaborators}.
Variables (subscription_id resource_group_name name : string).
Variable enable : bool.
Variable kw : Kwargs.t.

Let step := reconcile_addon subscription_id resource_group_name name
              enable kw.
Let run := reconcile_all subscription_id resource_group_name name
             enable kw.

(** A turn that returns has marked the profile of its add-on. *)
Lemma step_marks t a st st' :
  t <> "web_application_routing" ->
  Py.get ADDONS t = Some a ->
  step t st = (Returned tt, st') ->
  marked (canonical a) enable (profiles st').
Proof.
  intros N G S.
  destruct (StepFacts.step_shape subscription_id resource_group_name
              name enable kw t a st N G) as [[e E]|[p [w E]]];
    fold step in E; rewrite E in S; [discriminate|].
  injection S as <-. cbn [profiles with_workspace store].
  eexists. split; [apply PyFacts.get_set_same|reflexivity].
Qed.

(** A later turn keeps the mark of an earlier add-on. *)
Lemma step_keeps_mark t0 a0 t st st' :
  catalog_case_distinct ->
  Py.get ADDONS t0 = Some a0 ->
  marked (canonical a0) enable (profiles st) ->
  step t st = (Returned tt, st') ->
  marked (canonical a0) enable (profiles st').
Proof.
  intros C G0 M S.
  destruct (String.eqb_spec t "web_application_routing") as [->|N].
  { unfold step in S. rewrite StepFacts.step_routing in S.
    injection S as <-. exact M. }
  destruct (Py.get ADDONS t) as [a|] eqn:G.
  - destruct (String.eqb_spec (canonical a) (canonical a0)) as [E|D].
    + rewrite <- E. now apply (step_marks t a st st').
    + destruct (StepFacts.step_shape subscription_id resource_group_name
                  name enable kw t a st N G) as [[e E]|[p [w E]]];
        fold step in E; rewrite E in S; [discriminate|].
      injection S as <-. cbn [profiles with_workspace store].
      destruct M as (q & Q & EQ). exists q. split; [|exact EQ].
      rewrite PyFacts.get_set_other by exact D.
      rewrite honor_names_get_other; [exact Q|congruence|].
      intros [L _]. apply D. symmetry. apply (C t0 t); auto.
  - unfold step in S.
    rewrite (ReconcilerFacts.step_unknown subscription_id
               resource_group_name name enable kw t st (conj N G)) in S.
    discriminate.
Qed.

Lemma run_keeps_mark t0 a0 ts st st' :
  catalog_case_distinct ->
  Py.get ADDONS t0 = Some a0 ->
  marked (canonical a0) enable (profiles st) ->
  run ts st = (Returned tt, st') ->
  marked (canonical a0) enable (profiles st').
Proof.
  intros C G0. revert st.
  induction ts as [|t ts IH]; intros st M R.
  - injection R as <-. exact M.
  - apply InvariantFacts.run_cons in R. destruct R as (st1 & S & R).
    apply (IH st1); [|exact R].
    now apply (step_keeps_mark t0 a0 t st st1).
Qed.

Lemma run_marks ts st st' t a :
  catalog_case_distinct ->
  run ts st = (Returned tt, st') ->
  In t ts -> t <> "web_application_routing" ->
  Py.get ADDONS t = Some a ->
  marked (canonical a) enable (profiles st').
Proof.
  intros C. revert st.
  induction ts as [|t1 ts IH]; intros st R I N G; [contradiction|].
  apply InvariantFacts.run_cons in R. destruct R as (st1 & S & R).
  destruct I as [->|I].
  - apply (run_keeps_mark t a ts st1 st' C G); [|exact R].
    now apply (step_marks t a st st1).
  - now apply (IH st1).
Qed.
End Runs.

(** The key under which [aks_addon_list] looks is the canonical key. *)
Lemma listed_key `{Consts} (t a : string) :
  virtual_node_named -> In (t, a) ADDONS ->
  (if String.eqb t "virtual-node" then (a ++ os_type)%string else a)
  = canonical a.
Proof.
  intros V I. unfold canonical.
  destruct (String.eqb_spec t "virtual-node") as [E|N];
    destruct (String.eqb_spec a CONST_VIRTUAL_NODE_ADDON_NAME) as [E'|N'];
    try reflexivity.
  - apply (V t a I) in E. contradiction.
  - apply (V t a I) in E'. contradiction.
Qed.

End MarkFacts.

(** X10. After a call of [_update_addons] that returns, [aks_addon_list]
    on the returned cluster reports every add-on that the call named, other
    than web application routing, under its canonical key and with
    [enabled] equal to the [enable] of the call.  The catalog is taken to
    have canonical keys that are distinct up to case and to give the name
    "virtual-node" to the virtual node key alone. *)
Theorem list_reflects_reconciliation `{Casing} `{Consts} `{Collaborators}
    (subscription_id resource_group_name name : string) (enable : bool)
    (kw : Kwargs.t) (i : ManagedCluster) (addons : string)
    (i' final : ManagedCluster) :
  Props.catalog_case_distinct ->
  MoreProps.virtual_node_named ->
  Reconciler._update_addons subscription_id resource_group_name name
    enable kw i addons = (Returned i', final) ->
  forall t a,
    In t (Py.split Py.comma addons) ->
    t <> "web_application_routing" ->
    Py.get ADDONS t = Some a ->
    In {| Listed.name := t;
          Listed.api_key := Reconciler.canonical a;
          Listed.enabled := enable |}
       (AddonQueries.aks_addon_list i').
Proof.
  intros C V U t a I N G.
  apply InvariantFacts.update_returned in U.
  destruct U as (st' & R & _ & A & _).
  destruct (MarkFacts.run_marks subscription_id resource_group_name name
              enable kw _ _ _ t a C R I N G) as (p & P & E).
  unfold AddonQueries.aks_addon_list. apply in_map_iff.
  exists (t, a). split; [|now apply MarkFacts.get_pair_in].
  cbn [fst snd]. apply String.eqb_neq in N. rewrite N.
  rewrite (MarkFacts.listed_key t a V (MarkFacts.get_pair_in _ _ _ G)).
  unfold AddonQueries.profile_enabled. now rewrite A, P, E.
Qed.

(** The sample catalog names the virtual node key "virtual-node" alone. *)
Lemma aks_virtual_node_named : MoreProps.virtual_node_named (H := aks_consts).
Proof.
  intros t a I. cbn [ADDONS aks_consts In] in I.
  repeat (destruct I as [I|I]; [injection I as <- <-|]);
    try contradiction;
    (split; [intros E|intros E]); (reflexivity || discriminate E).
Qed.

Lemma list_reflects_reconciliation_witness :
  exists i',
    fst (@Reconciler._update_addons ascii_casing aks_consts quiet_collaborators
           "s" "rg" "c1" true Samples.with_subnet Samples.bare
           "virtual-node,kube-dashboard") = Returned i'
    /\ In {| Listed.name := "virtual-node";
             Listed.api_key := "aciConnectorLinux";
             Listed.enabled := true |}
          (AddonQueries.aks_addon_list (H := aks_consts) i')
    /\ In {| Listed.name := "kube-dashboard";
             Listed.api_key := "kubeDashboard";
             Listed.enabled := true |}
          (AddonQueries.aks_addon_list (H := aks_consts) i').
Proof.
  eexists. split; [reflexivity|].
  pose proof (@list_reflects_reconciliation ascii_casing aks_consts quiet_collaborators
                "s" "rg" "c1" true Samples.with_subnet Samples.bare
                "virtual-node,kube-dashboard" _ _
                aks_catalog_case_distinct aks_virtual_node_named eq_refl)
    as L.
  split.
  - apply (L "virtual-node" "aciConnector");
      [cbn; tauto|discriminate|reflexivity].
  - apply (L "kube-dashboard" "kubeDashboard");
      [cbn; tauto|discriminate|reflexivity].
Defined.

(** ** Showing and updating one add-on *)

(** X11. [aks_addon_show] and [aks_addon_update] look a virtual node up
    under the catalog key without the OS suffix: on a cluster whose
    virtual-node profile is enabled under the suffixed key, where
    [_update_addons] puts it, and which has no entry under the bare key,
    both refuse with 'Addon "virtual-node" is not enabled in this
    cluster.', while [aks_addon_list] reports the add-on as enabled. *)
Theorem show_misses_virtual_node `{Consts}
    (R : Type)
    (enable_addons : string -> Kwargs.t -> bool -> AddonQueries.result R)
    (mc : ManagedCluster) (p : ManagedClusterAddonProfile)
    (kw : Kwargs.t) (no_wait : bool) :
  Py.get ADDONS "virtual-node" = Some CONST_VIRTUAL_NODE_ADDON_NAME ->
  Py.get (Props.profiles_of mc) (CONST_VIRTUAL_NODE_ADDON_NAME ++ "Linux")
  = Some p ->
  enabled p = true ->
  Py.get (Props.profiles_of mc) CONST_VIRTUAL_NODE_ADDON_NAME = None ->
  AddonQueries.aks_addon_show mc "virtual-node"
  = AddonQueries.Error
      (AddonQueries.InvalidArgumentValueError
         (AddonQueries.not_enabled_message "virtual-node"))
  /\ AddonQueries.aks_addon_update R enable_addons mc "virtual-node"
       kw no_wait
     = AddonQueries.Error
         (AddonQueries.InvalidArgumentValueError
            (AddonQueries.not_enabled_message "virtual-node"))
  /\ In {| Listed.name := "virtual-node";
           Listed.api_key := (CONST_VIRTUAL_NODE_ADDON_NAME ++ "Linux")%string;
           Listed.enabled := true |}
        (AddonQueries.aks_addon_list mc).
Proof.
  intros G P E B. unfold Props.profiles_of in *.
  destruct (addon_profiles mc) as [[|kv d]|] eqn:A; try discriminate.
  split; [|split].
  - unfold AddonQueries.aks_addon_show. rewrite G, A.
    change (String.eqb "virtual-node" "web_application_routing") with false.
    cbv iota. now rewrite B.
  - unfold AddonQueries.aks_addon_update. rewrite G.
    change (String.eqb "virtual-node" "web_application_routing") with false.
    cbv iota. unfold AddonQueries.profile_enabled. now rewrite A, B.
  - unfold AddonQueries.aks_addon_list. apply in_map_iff.
    exists ("virtual-node", CONST_VIRTUAL_NODE_ADDON_NAME).
    split; [|now apply MarkFacts.get_pair_in].
    cbn [fst snd].
    change (String.eqb "virtual-node" "web_application_routing") with false.
    change (String.eqb "virtual-node" "virtual-node") with true.
    cbv iota. unfold AddonQueries.profile_enabled.
    change Reconciler.os_type with "Linux". now rewrite A, P, E.
Qed.

Lemma show_misses_virtual_node_witness :
  exists i',
    fst (@Reconciler._update_addons ascii_casing aks_consts quiet_collaborators
           "s" "rg" "c1" true Samples.with_subnet Samples.bare
           "virtual-node") = Returned i'
    /\ AddonQueries.aks_addon_show (H := aks_consts) i' "virtual-node"
       = AddonQueries.Error
           (AddonQueries.InvalidArgumentValueError
              (AddonQueries.not_enabled_message "virtual-node"))
    /\ In {| Listed.name := "virtual-node";
             Listed.api_key := "aciConnectorLinux";
             Listed.enabled := true |}
          (AddonQueries.aks_addon_list (H := aks_consts) i').
Proof.
  pose (p := {| enabled := true;
                config := Some [("SubnetName", Py.Str "vn-subnet")];
                identity := None |}).
  pose (mc := with_service_principal_profile
                (with_addon_profiles Samples.bare
                   (Some [("aciConnectorLinux", p)])) None).
  exists mc. split; [reflexivity|].
  destruct (@show_misses_virtual_node aks_consts unit
              (fun _ _ _ => AddonQueries.Ok tt) mc p Kwargs.default false
              eq_refl eq_refl eq_refl eq_refl) as (Sh & _ & L).
  split; [exact Sh|exact L].
Defined.

(** X12. For web application routing [aks_addon_show] never answers
    'not enabled': when the add-on is in the catalog it returns the routing
    object of the cluster, be it disabled or [None], and fails with an
    [AttributeError] when the cluster has no ingress profile; on a cluster
    where routing is not enabled [aks_addon_update] does refuse with that
    message, without calling [enable_addons]. *)
Theorem show_routing_never_refuses `{Consts} (mc : ManagedCluster) :
  let r := AddonQueries.aks_addon_show mc "web_application_routing" in
  (forall msg,
     r <> AddonQueries.Error (AddonQueries.InvalidArgumentValueError msg))
  /\ (forall k,
        Py.get ADDONS "web_application_routing" = Some k ->
        r = match ingress_profile mc with
            | Some g =>
                AddonQueries.Ok
                  (AddonQueries.ShownRouting "web_application_routing" k
                     (web_app_routing g))
            | None => AddonQueries.Error (AddonQueries.Python AttributeError)
            end)
  /\ (AddonQueries.routing_enabled mc = false ->
      forall R enable_addons kw no_wait,
        AddonQueries.aks_addon_update R enable_addons mc
          "web_application_routing" kw no_wait
        = AddonQueries.Error
            (AddonQueries.InvalidArgumentValueError
               (AddonQueries.not_enabled_message "web_application_routing"))).
Proof.
  intros r. subst r. unfold AddonQueries.aks_addon_show.
  split; [|split].
  - intros msg.
    destruct (Py.get ADDONS "web_application_routing"); [|discriminate].
    cbn. destruct (ingress_profile mc); discriminate.
  - intros k ->. cbn. now destruct (ingress_profile mc).
  - intros N R enable_addons kw no_wait.
    unfold AddonQueries.aks_addon_update. cbn. now rewrite N.
Qed.

(** ** The ingress profile under reconciliation *)

Module IngressFacts.
Import Reconciler Props MoreProps.

Section Runs.
Context `{Casing} `{Consts} `{Collaborators}.
Variables (subscription_id resource_group_name name : string).
Variable enable : bool.
Variable kw : Kwargs.t.

Let step := reconcile_addon subscription_id resource_group_name name
              enable kw.
Let run := reconcile_all subscription_id resource_group_name name
             enable kw.

(** A turn for another token leaves the ingress profile alone. *)
Lemma step_keeps_ingress t st :
  t <> "web_application_routing" ->
  ingress_profile (instance (snd (step t st)))
  = ingress_profile (instance st).
Proof.
  intros N. subst step. unfold reconcile_addon.
  apply String.eqb_neq in N. rewrite N.
  destruct (Py.get ADDONS t) as [addon|]; [|reflexivity].
  set (st1 := store st _).
  assert (S1 : same_but_profiles (instance st) (instance st1))
    by (subst st1; apply ReconcilerFacts.store_same).
  assert (E : same_but_profiles (instance st1)
                (instance (snd (if enable
                                then enable_addon subscription_id
                                       resource_group_name name kw
                                       (canonical addon) st1
                                else disable_addon (canonical addon) st1)))).
  { case enable;
      [apply ReconcilerFacts.enable_addon_same
      |apply ReconcilerFacts.disable_addon_same]. }
  destruct (if enable then _ else _) as [[u|e] st2]; cbn [snd] in *.
  - pose proof (ReconcilerFacts.mark_enabled_same enable (canonical addon)
                  st2) as M.
    destruct S1 as (_ & I1 & _), E as (_ & I2 & _), M as (_ & I3 & _).
    congruence.
  - destruct S1 as (_ & I1 & _), E as (_ & I2 & _). congruence.
Qed.

Lemma routed_same_ingress i j :
  ingress_profile i = ingress_profile j -> routed enable kw i = routed enable kw j.
Proof. unfold routed, routing_of. now intros ->. Qed.

(** The turn for the routing token. *)
Lemma routing_turn i :
  ingress_profile (web_application_routing enable kw i)
  = Some {| web_app_routing := Some (routed enable kw i) |}.
Proof.
  unfold web_application_routing, routed, routing_of. cbn.
  destruct (ingress_profile i) as [[[r|]]|]; reflexivity.
Qed.

Lemma routed_again i :
  routed enable kw (web_application_routing enable kw i) = routed enable kw i.
Proof.
  unfold routed at 1. unfold routing_of. rewrite routing_turn. cbn.
  unfold routed. now destruct (Kwargs.dns_zone_resource_id kw).
Qed.

Lemma run_ingress ts st st' :
  run ts st = (Returned tt, st') ->
  ingress_profile (instance st')
  = if existsb (String.eqb "web_application_routing") ts
    then Some {| web_app_routing := Some (routed enable kw (instance st)) |}
    else ingress_profile (instance st).
Proof.
  revert st. induction ts as [|t ts IH]; intros st R.
  - injection R as <-. reflexivity.
  - apply InvariantFacts.run_cons in R. destruct R as (st1 & S & R).
    rewrite (IH st1 R). cbn [existsb].
    destruct (String.eqb_spec "web_application_routing" t) as [<-|N].
    + unfold step in S. rewrite StepFacts.step_routing in S.
      injection S as <-. cbn [instance with_instance orb].
      rewrite routed_again, routing_turn.
      now destruct (existsb _ ts).
    + assert (K : ingress_profile (instance st1)
                  = ingress_profile (instance st)).
      { pose proof (step_keeps_ingress t st) as K. unfold step in K.
        rewrite S in K. apply K. congruence. }
      cbn [orb]. rewrite K, (routed_same_ingress _ _ K). reflexivity.
Qed.
End Runs.

Lemma existsb_in (ts : list string) (t : string) :
  existsb (String.eqb t) ts = true <-> In t ts.
Proof.
  rewrite existsb_exists. split.
  - intros (x & I & E). apply String.eqb_eq in E. now subst.
  - intros I. exists t. split; [exact I|apply String.eqb_refl].
Qed.

End IngressFacts.

(** X13. A call of [_update_addons] that returns leaves the ingress
    profile of the cluster as it was when the list does not name web
    application routing, whatever else it enables or disables; when the
    list names it, the routing object of the returned cluster has
    [enabled] equal to the [enable] of the call and the DNS zone of the
    call when one is given, the former zone otherwise. *)
Theorem reconciliation_and_ingress `{Casing} `{Consts} `{Collaborators}
    (subscription_id resource_group_name name : string) (enable : bool)
    (kw : Kwargs.t) (i : ManagedCluster) (addons : string)
    (i' final : ManagedCluster) :
  Reconciler._update_addons subscription_id resource_group_name name
    enable kw i addons = (Returned i', final) ->
  (~ In "web_application_routing" (Py.split Py.comma addons) ->
   ingress_profile i' = ingress_profile i)
  /\ (In "web_application_routing" (Py.split Py.comma addons) ->
      ingress_profile i'
      = Some {| web_app_routing := Some (MoreProps.routed enable kw i) |}).
Proof.
  intros U. apply InvariantFacts.update_returned in U.
  destruct U as (st' & R & _ & _ & G & _).
  rewrite G.
  rewrite (IngressFacts.run_ingress subscription_id resource_group_name
             name enable kw _ _ _ R).
  rewrite ReconcilerFacts.enter_instance.
  destruct (existsb _ _) eqn:E.
  - apply IngressFacts.existsb_in in E. split; [contradiction|reflexivity].
  - split; [reflexivity|]. intros I.
    apply IngressFacts.existsb_in in I. congruence.
Qed.

Lemma reconciliation_and_ingress_witness :
  exists i',
    fst (@Reconciler._update_addons ascii_casing aks_consts quiet_collaborators
           "s" "rg" "c1" true Kwargs.default Samples.two_addons
           "web_application_routing,kube-dashboard,web_application_routing")
    = Returned i'
    /\ ingress_profile i'
       = Some {| web_app_routing :=
                   Some {| WebAppRouting.enabled := Some true;
                           WebAppRouting.dns_zone_resource_id := None |} |}.
Proof.
  eexists. split; [reflexivity|].
  destruct (@reconciliation_and_ingress ascii_casing aks_consts quiet_collaborators
              "s" "rg" "c1" true Kwargs.default Samples.two_addons
              "web_application_routing,kube-dashboard,web_application_routing"
              _ _ eq_refl) as [_ W].
  apply W. cbn. tauto.
Defined.

(** ** Enabling monitoring, then disabling it *)

Module MonitoringFacts.
Import Reconciler Props.

Section Monitoring.
Context `{Casing} `{Consts} `{Collaborators}.
Variables (subscription_id resource_group_name name : string).

(** The profile that enabling monitoring writes on a cluster without
    add-ons, for a workspace id that the caller supplies. *)
Lemma enable_monitoring_from_empty (kw : Kwargs.t) (i : ManagedCluster)
    (ws : string) :
  profiles_of i = [] ->
  Py.get ADDONS "monitoring" = Some CONST_MONITORING_ADDON_NAME ->
  CONST_MONITORING_ADDON_NAME <> CONST_VIRTUAL_NODE_ADDON_NAME ->
  CONST_MONITORING_LOG_ANALYTICS_WORKSPACE_RESOURCE_ID
  <> CONST_MONITORING_USING_AAD_MSI_AUTH ->
  Kwargs.workspace_resource_id kw = Some ws -> ws <> "" ->
  let p :=
    {| enabled := true;
       config :=
         Some [(CONST_MONITORING_LOG_ANALYTICS_WORKSPACE_RESOURCE_ID,
                Py.Str (sanitize_loganalytics_ws_resource_id ws));
               (CONST_MONITORING_USING_AAD_MSI_AUTH,
                Py.Bool (Kwargs.enable_msi_auth_for_monitoring kw))];
       identity := None |} in
  let i' := with_service_principal_profile
              (with_addon_profiles i
                 (Some [(CONST_MONITORING_ADDON_NAME, p)])) None in
  _update_addons subscription_id resource_group_name name true kw i
    "monitoring" = (Returned i', i').
Proof.
  intros E G NV NK W NW p i'.
  rewrite CallFacts.update_single by reflexivity.
  rewrite (CallFacts.enter_empty kw i E).
  unfold reconcile_addon.
  change (String.eqb "monitoring" "web_application_routing") with false.
  cbv iota. rewrite G.
  assert (C : canonical CONST_MONITORING_ADDON_NAME
              = CONST_MONITORING_ADDON_NAME).
  { unfold canonical. apply String.eqb_neq in NV. now rewrite NV. }
  rewrite C. cbn [profiles Py.keys map honor_names].
  unfold enable_addon. rewrite String.eqb_refl.
  cbn [profiles store workspace shared instance Py.get new_addon_profile
       enabled].
  rewrite W. apply String.eqb_neq in NW. rewrite NW.
  apply String.eqb_neq in NK. cbn [Py.set]. rewrite NK.
  unfold mark_enabled.
  cbn [profiles store with_workspace shared instance Py.get Py.set].
  rewrite ?String.eqb_refl.
  cbn [profiles store with_workspace shared instance Py.get Py.set].
  reflexivity.
Qed.

(** Disabling monitoring on a cluster whose only profile is the monitoring
    one. *)
Lemma disable_only_monitoring (kw : Kwargs.t) (i : ManagedCluster)
    (p : ManagedClusterAddonProfile) :
  Py.get ADDONS "monitoring" = Some CONST_MONITORING_ADDON_NAME ->
  CONST_MONITORING_ADDON_NAME <> CONST_VIRTUAL_NODE_ADDON_NAME ->
  addon_profiles i = Some [(CONST_MONITORING_ADDON_NAME, p)] ->
  let i' := with_service_principal_profile
              (with_addon_profiles i
                 (Some [(CONST_MONITORING_ADDON_NAME, switched_off p)]))
              None in
  _update_addons subscription_id resource_group_name name false kw i
    "monitoring" = (Returned i', i').
Proof.
  intros G NV A i'.
  assert (N : "monitoring" <> "web_application_routing") by discriminate.
  assert (C : canonical CONST_MONITORING_ADDON_NAME
              = CONST_MONITORING_ADDON_NAME).
  { unfold canonical. apply String.eqb_neq in NV. now rewrite NV. }
  assert (P : profiles_of i = [(CONST_MONITORING_ADDON_NAME, p)])
    by (unfold profiles_of; now rewrite A).
  assert (HN : honor_names (Py.keys (profiles_of i))
                 CONST_MONITORING_ADDON_NAME (profiles_of i)
               = profiles_of i).
  { apply CoalesceFacts.honor_names_settled. rewrite P.
    intros k [<-|[]] _. reflexivity. }
  rewrite CallFacts.update_single by reflexivity.
  rewrite (DisableFacts.step_present subscription_id resource_group_name
             name kw "monitoring" CONST_MONITORING_ADDON_NAME _ p N G);
    rewrite InvariantFacts.profiles_enter, C, HN, P;
    [|cbn; now rewrite String.eqb_refl].
  cbv zeta. rewrite DisableFacts.returned_any.
  cbn [Py.set]. now rewrite String.eqb_refl.
Qed.
End Monitoring.

End MonitoringFacts.

(** X14. The MSI-auth flag that enabling writes is the one that disabling
    reads.  On a cluster without add-ons, enable monitoring with a
    workspace id; then [aks_disable_addons] with "monitoring" on the
    cluster so obtained asks for the removal of the data collection rule
    association exactly when the cluster was enabled with
    [enable_msi_auth_for_monitoring], and in either case submits the
    monitoring profile switched off and without [config]. *)
Theorem enable_then_disable_monitoring `{Casing} `{Consts} `{Collaborators}
    (subscription_id resource_group_name name : string) (no_wait : bool)
    (remove_container_insights :
       ManagedClusterAddonProfile -> string -> string -> string -> string ->
       option exn)
    (kw : Kwargs.t) (i : ManagedCluster) (ws : string) :
  Props.profiles_of i = [] ->
  Py.get ADDONS "monitoring" = Some CONST_MONITORING_ADDON_NAME ->
  CONST_MONITORING_ADDON_NAME <> CONST_VIRTUAL_NODE_ADDON_NAME ->
  CONST_MONITORING_LOG_ANALYTICS_WORKSPACE_RESOURCE_ID
  <> CONST_MONITORING_USING_AAD_MSI_AUTH ->
  Kwargs.workspace_resource_id kw = Some ws -> ws <> "" ->
  (forall p l,
     remove_container_insights p subscription_id resource_group_name name l
     = None) ->
  exists i1 p i2,
    Reconciler._update_addons subscription_id resource_group_name name
      true kw i "monitoring" = (Returned i1, i1)
    /\ Props.profiles_of i1 = [(CONST_MONITORING_ADDON_NAME, p)]
    /\ Disabler.aks_disable_addons subscription_id resource_group_name name
         no_wait remove_container_insights i1 "monitoring"
       = ((if Kwargs.enable_msi_auth_for_monitoring kw
           then [Disabler.RemoveMonitoring p] else [])
            ++ [Disabler.SdkNoWait no_wait i2],
          Returned (Submitter.Handle no_wait i2))
    /\ Props.profiles_of i2
       = [(CONST_MONITORING_ADDON_NAME, new_addon_profile false None)].
Proof.
  intros E G NV NK W NW Q.
  pose proof (MonitoringFacts.enable_monitoring_from_empty subscription_id
                resource_group_name name kw i ws E G NV NK W NW) as U.
  cbv zeta in U.
  set (p := {| enabled := true; config := _; identity := None |}) in U.
  set (i1 := with_service_principal_profile _ None) in U.
  pose proof (MonitoringFacts.disable_only_monitoring subscription_id
                resource_group_name name Kwargs.default i1 p G NV eq_refl)
    as D.
  cbv zeta in D.
  set (i2 := with_service_principal_profile _ None) in D.
  exists i1, p, i2.
  split; [exact U|]. split; [reflexivity|]. split; [|reflexivity].
  unfold Disabler.aks_disable_addons. rewrite D.
  unfold Disabler.remove_association.
  change (String.eqb "monitoring" "monitoring") with true. cbv iota.
  change (addon_profiles i1)
    with (Some [(CONST_MONITORING_ADDON_NAME, p)]).
  cbn [Py.get]. rewrite String.eqb_refl.
  change (enabled p) with true. cbv iota.
  unfold p at 1. cbn [config Py.get].
  apply String.eqb_neq in NK. rewrite NK, String.eqb_refl.
  destruct (Kwargs.enable_msi_auth_for_monitoring kw); cbn.
  - now rewrite Q.
  - reflexivity.
Qed.

Lemma enable_then_disable_monitoring_witness :
  let kw :=
    {| Kwargs.workspace_resource_id := Some Samples.workspace_id;
       Kwargs.enable_msi_auth_for_monitoring := true;
       Kwargs.subnet_name := None;
       Kwargs.appgw_name := None;
       Kwargs.appgw_subnet_prefix := None;
       Kwargs.appgw_subnet_cidr := None;
       Kwargs.appgw_id := None;
       Kwargs.appgw_subnet_id := None;
       Kwargs.appgw_watch_namespace := None;
       Kwargs.enable_sgxquotehelper := false;
       Kwargs.enable_secret_rotation := false;
       Kwargs.disable_secret_rotation := false;
       Kwargs.rotation_poll_interval := None;
       Kwargs.dns_zone_resource_id := None |} in
  exists i1 p i2,
    @Reconciler._update_addons ascii_casing aks_consts quiet_collaborators "s" "rg" "c1"
      true kw Samples.bare "monitoring" = (Returned i1, i1)
    /\ @Disabler.aks_disable_addons ascii_casing aks_consts quiet_collaborators
         "s" "rg" "c1" false (fun _ _ _ _ _ => None) i1 "monitoring"
       = ([Disabler.RemoveMonitoring p; Disabler.SdkNoWait false i2],
          Returned (Submitter.Handle false i2)).
Proof.
  intros kw.
  assert (NV : "omsagent" <> "aciConnector") by discriminate.
  assert (NK : "logAnalyticsWorkspaceResourceID" <> "useAADAuth")
    by discriminate.
  assert (NW : Samples.workspace_id <> "") by discriminate.
  destruct (@enable_then_disable_monitoring ascii_casing aks_consts quiet_collaborators
              "s" "rg" "c1" false (fun _ _ _ _ _ => None) kw Samples.bare
              Samples.workspace_id eq_refl eq_refl NV NK eq_refl NW
              (fun _ _ => eq_refl))
    as (i1 & p & i2 & U & _ & D & _).
  exists i1, p, i2. split; [exact U|exact D].
Defined.

(** ** Deleting role assignments *)

Module RoleAssignmentFacts.
Import RoleAssignments.

Lemma truthy_spec (o : option string) :
  truthy o = true <-> exists s, o = Some s /\ s <> "".
Proof.
  split.
  - destruct o as [[|c r]|]; try discriminate.
    intros _. exists (String c r). split; [reflexivity|discriminate].
  - intros (s & -> & N). destruct s; [now elim N|reflexivity].
Qed.

Lemma in_firstn {A : Type} (n : nat) (l : list A) (x : A) :
  In x (firstn n l) -> In x l.
Proof.
  intros I. rewrite <- (firstn_skipn n l). apply in_or_app. now left.
Qed.

Lemma deleted_app (a b : list event) :
  deleted (a ++ b) = deleted a ++ deleted b.
Proof. unfold deleted. apply flat_map_app. Qed.

Lemma deleted_map (ids : list string) : deleted (map DeleteById ids) = ids.
Proof. induction ids as [|i r IH]; [reflexivity|]. cbn. now f_equal. Qed.

Section World.
Variable w : world.

(** The loop deletes the ids in order and stops at the first failure. *)
Lemma delete_each_prefix (ids done : list string) (tr : list event)
    (r : outcome unit) :
  delete_each w done ids = (tr, r) ->
  exists n, tr = map DeleteById (firstn n ids)
            /\ (r = Returned tt -> tr = map DeleteById ids).
Proof.
  revert done tr r. induction ids as [|i rest IH]; intros done tr r E.
  - injection E as <- <-. exists 0%nat. split; [reflexivity|easy].
  - cbn in E. destruct (delete_by_id w done i) as [e|].
    + injection E as <- <-. exists 1%nat. split.
      * reflexivity.
      * discriminate.
    + destruct (delete_each w (done ++ [i]) rest) as [tr' r'] eqn:E'.
      injection E as <- <-.
      destruct (IH _ _ _ E') as (n & -> & K).
      exists (S n). split; [reflexivity|].
      intros ->. cbn. f_equal. now apply K.
Qed.

Lemma delete_each_only_deletes (ids done : list string) (tr : list event)
    (r : outcome unit) :
  delete_each w done ids = (tr, r) ->
  exists n, deleted tr = firstn n ids
            /\ (r = Returned tt -> deleted tr = ids).
Proof.
  intros E. destruct (delete_each_prefix _ _ _ _ E) as (n & T & K).
  exists n. split.
  - now rewrite T, deleted_map.
  - intros R. now rewrite (K R), deleted_map.
Qed.

(** What a search that returns has kept. *)
Lemma comprehension_in {A : Type} (keep : A -> outcome bool) (l res : list A) :
  comprehension keep l = Returned res ->
  forall a, In a res <-> In a l /\ keep a = Returned true.
Proof.
  revert res. induction l as [|x l IH]; intros res E a.
  - injection E as <-. cbn. tauto.
  - cbn in E. destruct (keep x) as [b|e] eqn:K; [|discriminate].
    destruct (comprehension keep l) as [r'|e]; [|discriminate].
    injection E as <-. specialize (IH r' eq_refl a).
    destruct b; cbn; rewrite IH; split.
    + intros [<-|[I Ka]]; [now split; [left|]|now split; [right|]].
    + intros [[<-|I] Ka]; [now left|right; now split].
    + intros [I Ka]. now split; [right|].
    + intros [[<-|I] Ka]; [congruence|now split].
Qed.

Lemma comprehension_returns {A : Type} (keep : A -> outcome bool)
    (l res : list A) :
  comprehension keep l = Returned res ->
  forall a, In a l -> exists b, keep a = Returned b.
Proof.
  revert res. induction l as [|x l IH]; intros res E a I; [easy|].
  cbn in E. destruct (keep x) as [b|e] eqn:K; [|discriminate].
  destruct (comprehension keep l) as [r'|e]; [|discriminate].
  destruct I as [<-|I]; [now exists b|]. now apply (IH r' eq_refl).
Qed.

Lemma in_scope_true (s : string) (include_inherited : bool)
    (a : RoleAssignment.t) :
  s <> "" ->
  in_scope w (Some s) include_inherited a = Returned true ->
  lower w (RoleAssignment.scope a) = lower w s
  \/ (include_inherited = true
      /\ re_match w (RoleAssignment.scope a) s = Returned true).
Proof.
  intros N. destruct s as [|c r]; [now elim N|].
  unfold in_scope. destruct include_inherited.
  - destruct (re_match w _ _) as [[|]|e]; try discriminate.
    + intros _. right. now split.
    + intros E. injection E as E. left. now apply String.eqb_eq.
  - intros E. injection E as E. left. now apply String.eqb_eq.
Qed.

Lemma in_scope_selected (s : string) (include_inherited b : bool)
    (a : RoleAssignment.t) :
  in_scope w (Some s) include_inherited a = Returned b ->
  (s <> "" ->
   lower w (RoleAssignment.scope a) = lower w s
   \/ (include_inherited = true
       /\ re_match w (RoleAssignment.scope a) s = Returned true)) ->
  b = true.
Proof.
  destruct s as [|c r]; [cbn; congruence|].
  intros E K. specialize (K ltac:(discriminate)).
  unfold in_scope in E. destruct K as [K|[-> K]].
  - apply String.eqb_eq in K. rewrite K in E.
    destruct include_inherited;
      [destruct (re_match w _ _) as [[|]|e]|]; congruence.
  - rewrite K in E. congruence.
Qed.

Lemma principal_filter_in (oid : option string)
    (l : list RoleAssignment.t) (a : RoleAssignment.t) :
  In a match oid with
       | Some (String c r) => filter (with_principal (String c r)) l
       | _ => l
       end
  <-> In a l /\ (forall o, oid = Some o -> o <> "" ->
                 RoleAssignment.principal_id a = o).
Proof.
  destruct oid as [[|c r]|].
  - split; [intros I; split; [exact I|]|tauto].
    intros o [= <-] N. now elim N.
  - rewrite filter_In. unfold with_principal. rewrite String.eqb_eq.
    split; intros [I K]; (split; [exact I|]).
    + now intros o [= <-] _.
    + apply K; [reflexivity|discriminate].
  - split; [intros I; split; [exact I|]|tauto]. discriminate.
Qed.

(** The resolution of the role, and the filter on its id. *)
Lemma role_filter_in (scope : option string) (role : option string)
    (l : list RoleAssignment.t) (tr : list event)
    (r : outcome (list RoleAssignment.t)) :
  match role with
  | Some (String c q) =>
      role_id <- call (ResolveRoleId (String c q) scope)
                   (resolve_role_id w (String c q) scope) ;;
      ret (filter (with_role role_id) l)
  | _ => ret l
  end = (tr, r) ->
  deleted tr = []
  /\ forall res, r = Returned res ->
       forall a, In a res
                 <-> In a l
                     /\ (forall q, role = Some q -> q <> "" ->
                         resolve_role_id w q scope
                         = Returned (RoleAssignment.role_definition_id a)).
Proof.
  destruct role as [[|c q]|]; cbn.
  - intros [= <- <-]. split; [reflexivity|]. intros res [= <-] a.
    split; [intros I; split; [exact I|]|tauto].
    intros q [= <-] N. now elim N.
  - destruct (resolve_role_id w (String c q) scope) as [rid|e] eqn:R;
      intros [= <- <-]; (split; [reflexivity|]); [|discriminate].
    intros res [= <-] a. rewrite filter_In. unfold with_role.
    rewrite String.eqb_eq. split; intros [I K]; (split; [exact I|]).
    + intros q' [= <-] _. now rewrite K.
    + specialize (K _ eq_refl ltac:(discriminate)). congruence.
  - intros [= <- <-]. split; [reflexivity|]. intros res [= <-] a.
    split; [intros I; split; [exact I|]|tauto]. discriminate.
Qed.

(** The resolution of the assignee. *)
Lemma assignee_resolved (assignee : option string) (tr : list event)
    (r : outcome (option string)) :
  match assignee with
  | Some (String c q) =>
      o <- call (ResolveObjectId (String c q))
             (resolve_object_id w (String c q)) ;;
      ret (Some o)
  | _ => ret None
  end = (tr, r) ->
  deleted tr = []
  /\ forall oid, r = Returned oid ->
       forall o, o <> "" ->
         (oid = Some o
          <-> exists s, assignee = Some s /\ s <> ""
                        /\ resolve_object_id w s = Returned o).
Proof.
  destruct assignee as [[|c q]|]; cbn.
  - intros [= <- <-]. split; [reflexivity|]. intros oid [= <-] o N.
    split; [discriminate|]. intros (s & [= <-] & K & _). now elim K.
  - destruct (resolve_object_id w (String c q)) as [o'|e] eqn:R;
      intros [= <- <-]; (split; [reflexivity|]); [|discriminate].
    intros oid [= <-] o N. split.
    + intros [= ->]. exists (String c q). now repeat split.
    + intros (s & [= <-] & _ & K). congruence.
  - intros [= <- <-]. split; [reflexivity|]. intros oid [= <-] o N.
    split; [discriminate|]. now intros (s & K & _).
Qed.

Lemma assignee_calls (assignee : option string) (tr : list event)
    (r : outcome (option string)) :
  match assignee with
  | Some (String c q) =>
      o <- call (ResolveObjectId (String c q))
             (resolve_object_id w (String c q)) ;;
      ret (Some o)
  | _ => ret None
  end = (tr, r) ->
  existsb is_role_resolution tr = false
  /\ forall e, r = Raised e ->
       exists a, assignee = Some a /\ resolve_object_id w a = Raised e
                 /\ r = Raised e.
Proof.
  destruct assignee as [[|c q]|]; cbn.
  - intros [= <- <-]. split; [reflexivity|discriminate].
  - destruct (resolve_object_id w (String c q)) as [o'|e] eqn:R;
      intros [= <- <-]; (split; [reflexivity|]); [discriminate|].
    intros e' [= <-]. now exists (String c q).
  - intros [= <- <-]. split; [reflexivity|discriminate].
Qed.

Lemma bind_inv {A B : Type} (m : M A) (k : A -> M B) (tr : list event)
    (r : outcome B) :
  bind m k = (tr, r) ->
  (exists e, m = (tr, Raised e) /\ r = Raised e)
  \/ (exists tr1 a tr2,
        m = (tr1, Returned a) /\ k a = (tr2, r) /\ tr = tr1 ++ tr2).
Proof.
  destruct m as [tr1 [a|e]]; cbn.
  - destruct (k a) as [tr2 r2] eqn:K. intros [= <- <-]. right.
    now exists tr1, a, tr2.
  - intros [= <- <-]. left. now exists e.
Qed.

(** A search under a scope: nothing is deleted, and what is returned is
    what the listing holds and the selectors let through. *)
Lemma search_scoped (s : string) (assignee role : option string)
    (include_inherited include_groups : bool) (l : list RoleAssignment.t)
    (tr : list event) (r : outcome (list RoleAssignment.t)) :
  s <> "" ->
  list_for_scope w s "atScope()" = Returned l ->
  _search_role_assignments w (Some s) assignee role include_inherited
    include_groups = (tr, r) ->
  deleted tr = []
  /\ forall res, r = Returned res ->
       forall a, In a res
                 <-> In a l /\ selected w s assignee role include_inherited a.
Proof.
  intros N L E. unfold _search_role_assignments in E.
  apply bind_inv in E.
  destruct E as [(e & E1 & ->)|(tr1 & oid & tr2 & E1 & E & ->)];
    apply assignee_resolved in E1; destruct E1 as [D1 O];
    [split; [exact D1|discriminate]|].
  specialize (O oid eq_refl).
  assert (Ls : listing w (Some s) oid include_groups
               = ([ListForScope s "atScope()"], Returned l)).
  { destruct s; [now elim N|]. unfold listing, call. now rewrite L. }
  rewrite Ls in E. cbn [bind] in E.
  assert (P : forall a,
             (forall o, oid = Some o -> o <> "" ->
                        RoleAssignment.principal_id a = o)
             <-> (forall q o, assignee = Some q -> q <> "" ->
                    resolve_object_id w q = Returned o -> o <> "" ->
                    RoleAssignment.principal_id a = o)).
  { intros a. split.
    - intros K q o Q NQ R NO. apply K; [|exact NO].
      apply O; [exact NO|]. now exists q.
    - intros K o Q NO. apply O in Q; [|exact NO].
      destruct Q as (q & Q & NQ & R). now apply (K q o). }
  destruct l as [|a0 l0].
  - cbn in E. injection E as <- <-. rewrite deleted_app, D1.
    split; [reflexivity|]. intros res [= <-] a. cbn. tauto.
  - cbv iota in E. remember (a0 :: l0) as l eqn:El.
    destruct (_ <- _ ;; _) as [tr3 r3] eqn:E3 in E.
    injection E as <- <-.
    rewrite !deleted_app, D1. cbn [deleted flat_map app].
    apply bind_inv in E3.
    destruct E3 as [(e & E3 & ->)|(tr4 & kept & tr5 & E3 & E & ->)];
      [injection E3 as <- _; split; [reflexivity|discriminate]|].
    unfold lift in E3. injection E3 as <- C.
    apply bind_inv in E.
    destruct E as [(e & E4 & ->)|(tr6 & sel & tr7 & E4 & E & ->)];
      apply role_filter_in in E4; destruct E4 as [D4 Rl];
      [split; [exact D4|discriminate]|].
    unfold ret in E. injection E as <- <-.
    rewrite ?deleted_app, D4.
    split; [reflexivity|]. intros res [= <-] a.
    rewrite principal_filter_in, (Rl sel eq_refl a), P.
    rewrite (comprehension_in _ _ _ C a). unfold selected.
    split.
    + intros [[[I S1] S2] S3]. split; [exact I|]. repeat split.
      * intros _. now apply in_scope_true.
      * exact S2.
      * exact S3.
    + intros (I & S1 & S2 & S3). repeat split; try assumption.
      destruct (comprehension_returns _ _ _ C a I) as [b K].
      now rewrite K, (in_scope_selected _ _ _ _ K S1).
Qed.

(** The part of [delete_role_assignments] that follows the consent. *)
Lemma delete_selected (assignee role resource_group_name scope
                         : option string)
    (include_inherited : bool) (s : string) (l : list RoleAssignment.t)
    (tr : list event) (r : outcome unit) :
  build_role_scope w resource_group_name scope (subscription_id w)
  = Returned s ->
  s <> "" ->
  list_for_scope w s "atScope()" = Returned l ->
  (scope <- lift (build_role_scope w resource_group_name scope
                    (subscription_id w)) ;;
   assignments <- _search_role_assignments w (Some scope) assignee role
                    include_inherited false ;;
   delete_each w [] (map RoleAssignment.id assignments)) = (tr, r) ->
  (forall x, In x (deleted tr) ->
     exists a, In a l /\ RoleAssignment.id a = x
               /\ selected w s assignee role include_inherited a)
  /\ (r = Returned tt ->
      forall a, In a l -> selected w s assignee role include_inherited a ->
                In (RoleAssignment.id a) (deleted tr)).
Proof.
  intros B N L E. rewrite B in E. cbn [lift bind] in E.
  destruct (_ <- _ ;; _) as [tr0 r0] eqn:E0 in E.
  injection E as <- <-. cbn [app].
  apply bind_inv in E0.
  destruct E0 as [(e & E1 & ->)|(tr1 & res & tr2 & E1 & E2 & ->)];
    destruct (search_scoped _ _ _ _ _ _ _ _ N L E1) as [D1 Sel].
  - rewrite D1. split; [intros x []|discriminate].
  - specialize (Sel res eq_refl).
    destruct (delete_each_only_deletes _ _ _ _ E2) as (n & D2 & All).
    rewrite deleted_app, D1. cbn [app]. split.
    + intros x I. rewrite D2 in I. apply in_firstn, in_map_iff in I.
      destruct I as (a & <- & I). apply Sel in I. destruct I as [I S0].
      now exists a.
    + intros R a I S0. rewrite (All R). apply in_map. now apply Sel.
Qed.
End World.

End RoleAssignmentFacts.

(** X15. Called with assignment ids, [delete_role_assignments] asks for
    nothing but deletions by id: its calls are the deletions of the first
    ids of the list, in the order of the list.  When it returns, every id
    was deleted and no other selector was given; with another selector
    (assignee, role, resource group, scope or [include_inherited]) it
    raises before any call. *)
Theorem delete_by_ids_only (w : RoleAssignments.world)
    (i : string) (rest : list string)
    (assignee role resource_group_name scope : option string)
    (include_inherited : bool) (yes : option bool)
    (tr : list RoleAssignments.event) (r : outcome unit) :
  RoleAssignments.delete_role_assignments w (Some (i :: rest)) assignee role
    resource_group_name scope include_inherited yes = (tr, r) ->
  let other :=
    RoleAssignments.truthy assignee || RoleAssignments.truthy role
    || RoleAssignments.truthy resource_group_name
    || RoleAssignments.truthy scope || include_inherited in
  (exists n, tr = map RoleAssignments.DeleteById (firstn n (i :: rest)))
  /\ (r = Returned tt ->
      tr = map RoleAssignments.DeleteById (i :: rest) /\ other = false)
  /\ (other = true ->
      tr = [] /\ r = Raised (CLIError RoleAssignments.ids_message)).
Proof.
  intros E other. unfold RoleAssignments.delete_role_assignments in E.
  fold other in E. destruct other.
  - injection E as <- <-. split; [now exists 0%nat|]. split; [discriminate|].
    now intros _.
  - destruct (RoleAssignmentFacts.delete_each_prefix _ _ _ _ _ E)
      as (n & T & K).
    split; [now exists n|]. split; [|discriminate].
    intros R. split; [now apply K|reflexivity].
Qed.

Lemma delete_by_ids_only_witness :
  let run :=
    RoleAssignments.delete_role_assignments RoleSamples.directory
      (Some ["a2"; "a1"]) None None None None false (Some true) in
  fst run = [RoleAssignments.DeleteById "a2"; RoleAssignments.DeleteById "a1"]
  /\ (snd run = Returned tt ->
      fst run = map RoleAssignments.DeleteById ["a2"; "a1"]).
Proof.
  intros run. split; [reflexivity|].
  intros R.
  apply (delete_by_ids_only RoleSamples.directory "a2" ["a1"] None None None
           None false (Some true) (fst run) (snd run)
           (surjective_pairing run)).
  exact R.
Defined.

(** X16. Without ids and without any of assignee, role, resource group,
    scope and [yes], whatever [include_inherited] is, nothing is deleted
    unless the user was asked and agreed: a call that deletes something
    begins with the prompt, and the prompt was answered with yes. *)
Theorem unfiltered_delete_needs_consent (w : RoleAssignments.world)
    (ids : option (list string))
    (assignee role resource_group_name scope : option string)
    (include_inherited : bool) (yes : option bool)
    (tr : list RoleAssignments.event) (r : outcome unit) :
  ids = None \/ ids = Some [] ->
  RoleAssignments.any_selector assignee role resource_group_name scope yes
  = false ->
  RoleAssignments.delete_role_assignments w ids assignee role
    resource_group_name scope include_inherited yes = (tr, r) ->
  RoleAssignments.deleted tr <> [] ->
  RoleAssignments.prompt_y_n w RoleAssignments.all_message = Returned true
  /\ exists tr',
       tr = RoleAssignments.Prompt RoleAssignments.all_message :: tr'.
Proof.
  intros I A E D.
  assert (E' :
    RoleAssignments.bind
      (RoleAssignments.call
         (RoleAssignments.Prompt RoleAssignments.all_message)
         (RoleAssignments.prompt_y_n w RoleAssignments.all_message))
      (fun go_on : bool =>
         if go_on then
           RoleAssignments.bind
             (RoleAssignments.lift
                (RoleAssignments.build_role_scope w resource_group_name
                   scope (RoleAssignments.subscription_id w)))
             (fun scope =>
                RoleAssignments.bind
                  (RoleAssignments._search_role_assignments w (Some scope)
                     assignee role include_inherited false)
                  (fun assignments =>
                     RoleAssignments.delete_each w []
                       (map RoleAssignment.id assignments)))
         else RoleAssignments.ret tt) = (tr, r)).
  { destruct I as [-> | ->];
      unfold RoleAssignments.delete_role_assignments in E;
      rewrite A in E; exact E. }
  clear E. unfold RoleAssignments.call in E'.
  destruct (RoleAssignments.prompt_y_n w RoleAssignments.all_message)
    as [[|]|e].
  - split; [reflexivity|]. cbn [RoleAssignments.bind] in E'.
    destruct (RoleAssignments.bind _ _) as [tr0 r0] in E'.
    injection E' as <- <-. now exists tr0.
  - injection E' as <- <-. now elim D.
  - injection E' as <- <-. now elim D.
Qed.

Lemma unfiltered_delete_needs_consent_witness :
  let run :=
    RoleAssignments.delete_role_assignments RoleSamples.agreeing None None
      None None None true None in
  RoleAssignments.deleted (fst run) = ["a1"]
  /\ RoleAssignments.prompt_y_n RoleSamples.agreeing
       RoleAssignments.all_message = Returned true
  /\ exists tr',
       fst run = RoleAssignments.Prompt RoleAssignments.all_message :: tr'.
Proof.
  intros run. split; [reflexivity|].
  apply (unfiltered_delete_needs_consent RoleSamples.agreeing None None None
           None None true None (fst run) (snd run)
           (or_introl eq_refl) eq_refl (surjective_pairing run)).
  discriminate.
Defined.

(** X17. Without ids, once the scope is built and listed, the assignments
    that [delete_role_assignments] deletes are assignments of the listing
    that pass every selector: the scope (equal once both are lowered by
    [str.lower], of which nothing is assumed, or matched when
    [include_inherited]), the resolved role and the resolved assignee.  When the call returns after the user agreed or a selector
    was given, every such assignment of the listing was deleted. *)
Theorem deleted_exactly_selected (w : RoleAssignments.world)
    (ids : option (list string))
    (assignee role resource_group_name scope : option string)
    (include_inherited : bool) (yes : option bool)
    (s : string) (l : list RoleAssignment.t)
    (tr : list RoleAssignments.event) (r : outcome unit) :
  ids = None \/ ids = Some [] ->
  RoleAssignments.build_role_scope w resource_group_name scope
    (RoleAssignments.subscription_id w) = Returned s ->
  s <> "" ->
  RoleAssignments.list_for_scope w s "atScope()" = Returned l ->
  RoleAssignments.delete_role_assignments w ids assignee role
    resource_group_name scope include_inherited yes = (tr, r) ->
  (forall x, In x (RoleAssignments.deleted tr) ->
     exists a, In a l /\ RoleAssignment.id a = x
               /\ RoleAssignments.selected w s assignee role
                    include_inherited a)
  /\ (r = Returned tt ->
      RoleAssignments.any_selector assignee role resource_group_name scope
        yes = true
      \/ RoleAssignments.prompt_y_n w RoleAssignments.all_message
         = Returned true ->
      forall a, In a l ->
        RoleAssignments.selected w s assignee role include_inherited a ->
        In (RoleAssignment.id a) (RoleAssignments.deleted tr)).
Proof.
  intros I B N L E.
  assert (E' :
    RoleAssignments.bind
      (if RoleAssignments.any_selector assignee role resource_group_name
            scope yes
       then RoleAssignments.ret true
       else RoleAssignments.call
              (RoleAssignments.Prompt RoleAssignments.all_message)
              (RoleAssignments.prompt_y_n w RoleAssignments.all_message))
      (fun go_on : bool =>
         if go_on then
           RoleAssignments.bind
             (RoleAssignments.lift
                (RoleAssignments.build_role_scope w resource_group_name
                   scope (RoleAssignments.subscription_id w)))
             (fun scope =>
                RoleAssignments.bind
                  (RoleAssignments._search_role_assignments w (Some scope)
                     assignee role include_inherited false)
                  (fun assignments =>
                     RoleAssignments.delete_each w []
                       (map RoleAssignment.id assignments)))
         else RoleAssignments.ret tt) = (tr, r)).
  { destruct I as [-> | ->]; exact E. }
  clear E. apply RoleAssignmentFacts.bind_inv in E'.
  destruct E' as [(e & E1 & ->)|(tr1 & go_on & tr2 & E1 & E2 & ->)].
  - assert (D : RoleAssignments.deleted tr = []
                /\ RoleAssignments.any_selector assignee role
                     resource_group_name scope yes = false
                /\ RoleAssignments.prompt_y_n w RoleAssignments.all_message
                   = Raised e).
    { destruct (RoleAssignments.any_selector _ _ _ _ _); [discriminate|].
      injection E1 as <- E1. now repeat split. }
    destruct D as (D & _ & _). rewrite D. split; [intros x []|discriminate].
  - assert (D : RoleAssignments.deleted tr1 = []
                /\ (go_on = false ->
                    RoleAssignments.any_selector assignee role
                      resource_group_name scope yes = false
                    /\ RoleAssignments.prompt_y_n w
                         RoleAssignments.all_message = Returned false)).
    { destruct (RoleAssignments.any_selector _ _ _ _ _).
      - injection E1 as <- <-. split; [reflexivity|discriminate].
      - injection E1 as <- E1. split; [reflexivity|].
        intros ->. now split. }
    destruct D as [D G]. rewrite RoleAssignmentFacts.deleted_app, D.
    cbn [app]. destruct go_on.
    + destruct (RoleAssignmentFacts.delete_selected w assignee role
                  resource_group_name scope include_inherited s l tr2 r
                  B N L E2) as [Sound Complete].
      split; [exact Sound|]. intros R _. now apply Complete.
    + injection E2 as <- <-. split; [intros x []|].
      destruct (G eq_refl) as [G1 G2]. intros _ [K|K]; congruence.
Qed.

Lemma deleted_exactly_selected_witness :
  let run :=
    RoleAssignments.delete_role_assignments RoleSamples.directory None
      (Some "p1") None None None false None in
  RoleAssignments.deleted (fst run) = ["a1"]
  /\ (forall x, In x (RoleAssignments.deleted (fst run)) ->
        exists a, In a [RoleSamples.reader; RoleSamples.owner]
                  /\ RoleAssignment.id a = x
                  /\ RoleAssignments.selected RoleSamples.directory
                       "/subscriptions/s" (Some "p1") None false a).
Proof.
  intros run. split; [reflexivity|].
  assert (N : "/subscriptions/s" <> "") by discriminate.
  apply (deleted_exactly_selected RoleSamples.directory None (Some "p1")
           None None None false None "/subscriptions/s"
           [RoleSamples.reader; RoleSamples.owner] (fst run) (snd run)
           (or_introl eq_refl) eq_refl N eq_refl (surjective_pairing run)).
Defined.

(** X18. A role name is resolved only when something is listed: when the
    directory lists no assignment, [_search_role_assignments] never calls
    [resolve_role_id], so a role name that does not resolve goes
    unreported, and the search returns the empty list unless the
    resolution of the assignee raised. *)
Theorem empty_listing_skips_role (w : RoleAssignments.world)
    (scope assignee role : option string)
    (include_inherited include_groups : bool)
    (tr : list RoleAssignments.event)
    (r : outcome (list RoleAssignment.t)) :
  (forall s f, RoleAssignments.list_for_scope w s f = Returned []) ->
  (forall f, RoleAssignments.list_assignments w f = Returned []) ->
  RoleAssignments._search_role_assignments w scope assignee role
    include_inherited include_groups = (tr, r) ->
  existsb RoleAssignments.is_role_resolution tr = false
  /\ (r = Returned []
      \/ exists a e, assignee = Some a
                     /\ RoleAssignments.resolve_object_id w a = Raised e
                     /\ r = Raised e).
Proof.
  intros L1 L2 E. unfold RoleAssignments._search_role_assignments in E.
  assert (Ls : forall oid,
             snd (RoleAssignments.listing w scope oid include_groups)
             = Returned []
             /\ existsb RoleAssignments.is_role_resolution
                  (fst (RoleAssignments.listing w scope oid include_groups))
                = false).
  { intros oid. unfold RoleAssignments.listing, RoleAssignments.call.
    destruct scope as [[|c q]|]; try destruct oid as [[|c' q']|];
      cbn [fst snd]; rewrite ?L1, ?L2; now split. }
  apply RoleAssignmentFacts.bind_inv in E.
  destruct E as [(e & E1 & ->)|(tr1 & oid & tr2 & E1 & E2 & ->)];
    apply RoleAssignmentFacts.assignee_calls in E1; destruct E1 as [T1 R1].
  - split; [exact T1|]. right.
    destruct (R1 e eq_refl) as (a & K). now exists a, e.
  - destruct (Ls oid) as [K1 K2].
    apply RoleAssignmentFacts.bind_inv in E2.
    destruct E2 as [(e & E2 & ->)|(tr3 & l & tr4 & E2 & E3 & ->)];
      rewrite E2 in K1, K2; cbn [fst snd] in K1, K2; [discriminate|].
    injection K1 as ->. injection E3 as <- <-.
    rewrite !existsb_app, T1, K2. split; [reflexivity|now left].
Qed.

Lemma empty_listing_skips_role_witness :
  let run :=
    RoleAssignments._search_role_assignments RoleSamples.vacant
      (Some "/subscriptions/s") None (Some "No such role") false false in
  RoleAssignments.resolve_role_id RoleSamples.vacant "No such role"
    (Some "/subscriptions/s") = Raised (CLIError "Role doesn't exist.")
  /\ existsb RoleAssignments.is_role_resolution (fst run) = false
  /\ (snd run = Returned []
      \/ exists a e, None = Some a
                     /\ RoleAssignments.resolve_object_id RoleSamples.vacant a
                        = Raised e
                     /\ snd run = Raised e).
Proof.
  intros run. split; [reflexivity|].
  apply (empty_listing_skips_role RoleSamples.vacant
           (Some "/subscriptions/s") None (Some "No such role") false false
           (fst run) (snd run) (fun _ _ => eq_refl) (fun _ => eq_refl)
           (surjective_pairing run)).
Defined.

(** ** Scaling *)

Module ScaleFacts.
Import Scale.

(** The loop changes the count of the first pool that is addressed. *)
Lemma scale_first_returned (single : bool) (nodepool_name : string)
    (node_count : Z) (pools pools' : list AgentPool.t) :
  scale_first single nodepool_name node_count pools = Returned pools' ->
  exists before p after,
    pools = before ++ p :: after
    /\ pools' = before ++ AgentPool.with_count p node_count :: after
    /\ (AgentPool.name p = nodepool_name
        \/ (nodepool_name = "" /\ single = true))
    /\ AgentPool.auto_scaling p = false
    /\ forall q, In q before ->
         AgentPool.name q <> nodepool_name
         /\ ~ (nodepool_name = "" /\ single = true).
Proof.
  revert pools'. induction pools as [|a rest IH]; intros pools' E;
    [discriminate|].
  cbn in E.
  destruct (String.eqb (AgentPool.name a) nodepool_name
            || (String.eqb nodepool_name "" && single)) eqn:T.
  - destruct (AgentPool.auto_scaling a) eqn:A; [discriminate|].
    injection E as <-. exists [], a, rest. repeat split; try easy.
    apply orb_true_iff in T. destruct T as [T|T].
    + left. now apply String.eqb_eq.
    + right. apply andb_true_iff in T. destruct T as [T1 T2].
      split; [now apply String.eqb_eq|exact T2].
  - destruct (scale_first single nodepool_name node_count rest)
      as [rest'|e]; [|discriminate].
    injection E as <-.
    destruct (IH rest' eq_refl) as (before & p & after & -> & -> & Ad & A & F).
    exists (a :: before), p, after.
    split; [reflexivity|]. split; [reflexivity|]. split; [exact Ad|].
    split; [exact A|]. intros q [<-|I]; [|now apply F].
    apply orb_false_iff in T. destruct T as [T1 T2]. split.
    + now apply String.eqb_neq.
    + intros [-> ->]. now rewrite String.eqb_refl in T2.
Qed.

Lemma scale_first_length (single : bool) (nodepool_name : string)
    (node_count : Z) (pools pools' : list AgentPool.t) :
  scale_first single nodepool_name node_count pools = Returned pools' ->
  length pools' = length pools.
Proof.
  intros E. apply scale_first_returned in E.
  destruct E as (before & p & after & -> & -> & _).
  now rewrite !length_app.
Qed.

Lemma scale_first_again (single : bool) (nodepool_name : string)
    (node_count : Z) (pools pools' : list AgentPool.t) :
  scale_first single nodepool_name node_count pools = Returned pools' ->
  scale_first single nodepool_name node_count pools' = Returned pools'.
Proof.
  revert pools'. induction pools as [|a rest IH]; intros pools' E;
    [discriminate|].
  cbn in E.
  destruct (String.eqb (AgentPool.name a) nodepool_name
            || (String.eqb nodepool_name "" && single)) eqn:T.
  - destruct (AgentPool.auto_scaling a) eqn:A; [discriminate|].
    injection E as <-. cbn. rewrite T.
    unfold AgentPool.auto_scaling in *. cbn. now rewrite A.
  - destruct (scale_first single nodepool_name node_count rest)
      as [rest'|e]; [|discriminate].
    injection E as <-. cbn. rewrite T. now rewrite (IH rest' eq_refl).
Qed.

End ScaleFacts.

(** X19. A call of [aks_scale] that submits changes one pool and the
    service principal profile only: the pools are those of the cluster
    with the count of the first addressed pool (the pool of the given
    name, or the only pool when no name is given) set to the new count,
    that pool has no autoscaler, the service principal profile is [None],
    and nothing else differs from the cluster after
    [_fill_defaults_for_pod_identity_profile]. *)
Theorem scale_changes_one_pool (Identity : Type)
    (fill : option (PodIdentityProfile.t Identity) ->
            outcome (option (PodIdentityProfile.t Identity)))
    (instance : PreviewCluster.t Identity) (node_count : Z)
    (nodepool_name : string) (no_wait : bool)
    (h : PreviewCluster.handle Identity) :
  Scale.aks_scale Identity fill instance node_count nodepool_name no_wait
  = Returned h ->
  exists pools before p after profile,
    PreviewCluster.agent_pool_profiles instance = Some pools
    /\ pools = before ++ p :: after
    /\ Scale.addressed pools nodepool_name p
    /\ (forall q, In q before -> ~ Scale.addressed pools nodepool_name q)
    /\ AgentPool.auto_scaling p = false
    /\ fill (PreviewCluster.pod_identity_profile instance) = Returned profile
    /\ h = PreviewCluster.Handle no_wait
             {| PreviewCluster.pod_identity_profile := profile;
                PreviewCluster.agent_pool_profiles :=
                  Some (before ++ AgentPool.with_count p node_count :: after);
                PreviewCluster.service_principal_profile := None;
                PreviewCluster.other_properties :=
                  PreviewCluster.other_properties instance |}.
Proof.
  unfold Scale.aks_scale. intros E.
  destruct (fill _) as [profile|e]; [|discriminate].
  destruct (PreviewCluster.agent_pool_profiles instance) as [pools|];
    [|discriminate].
  destruct ((1 <? length pools)%nat && String.eqb nodepool_name "");
    [discriminate|].
  destruct (Scale.scale_first _ _ _ _) as [pools'|e] eqn:S1; [|discriminate].
  injection E as <-.
  destruct (ScaleFacts.scale_first_returned _ _ _ _ _ S1)
    as (before & p & after & P & -> & Ad & A & F).
  exists pools, before, p, after, profile.
  assert (Sg : forall x, (x = "" /\ (length pools =? 1)%nat = true)
                         <-> (x = "" /\ length pools = 1%nat)).
  { intros x. now rewrite Nat.eqb_eq. }
  repeat split; try easy.
  - unfold Scale.addressed. destruct Ad as [Ad|Ad]; [now left|right].
    now apply Sg.
  - intros q I [K|K]; destruct (F q I) as [F1 F2]; [easy|].
    apply F2. now apply Sg.
Qed.

Lemma scale_changes_one_pool_witness :
  exists pools before p after profile,
    PreviewCluster.agent_pool_profiles PoolSamples.three_pools = Some pools
    /\ pools = before ++ p :: after
    /\ Scale.addressed pools "userpool" p
    /\ (forall q, In q before -> ~ Scale.addressed pools "userpool" q)
    /\ AgentPool.auto_scaling p = false
    /\ PoolSamples.filled
         (PreviewCluster.pod_identity_profile PoolSamples.three_pools)
       = Returned profile
    /\ PreviewCluster.Handle false
         {| PreviewCluster.pod_identity_profile :=
              PreviewCluster.pod_identity_profile PoolSamples.three_pools;
            PreviewCluster.agent_pool_profiles :=
              Some [PoolSamples.nodepool1; PoolSamples.nodepool2;
                    AgentPool.with_count PoolSamples.userpool 5];
            PreviewCluster.service_principal_profile := None;
            PreviewCluster.other_properties :=
              PreviewCluster.other_properties PoolSamples.three_pools |}
       = PreviewCluster.Handle false
           {| PreviewCluster.pod_identity_profile := profile;
              PreviewCluster.agent_pool_profiles :=
                Some (before ++ AgentPool.with_count p 5 :: after);
              PreviewCluster.service_principal_profile := None;
              PreviewCluster.other_properties :=
                PreviewCluster.other_properties PoolSamples.three_pools |}.
Proof.
  exact (scale_changes_one_pool unit PoolSamples.filled
           PoolSamples.three_pools 5%Z "userpool" false _ eq_refl).
Defined.

(** X20. [aks_scale] can be repeated: when a call has submitted a cluster
    and [_fill_defaults_for_pod_identity_profile] leaves the profile of
    that cluster as it is, the same call on the submitted cluster submits
    it unchanged. *)
Theorem scale_twice (Identity : Type)
    (fill : option (PodIdentityProfile.t Identity) ->
            outcome (option (PodIdentityProfile.t Identity)))
    (instance instance' : PreviewCluster.t Identity) (node_count : Z)
    (nodepool_name : string) (no_wait no_wait' : bool) :
  Scale.aks_scale Identity fill instance node_count nodepool_name no_wait
  = Returned (PreviewCluster.Handle no_wait' instance') ->
  fill (PreviewCluster.pod_identity_profile instance')
  = Returned (PreviewCluster.pod_identity_profile instance') ->
  Scale.aks_scale Identity fill instance' node_count nodepool_name no_wait
  = Returned (PreviewCluster.Handle no_wait instance').
Proof.
  unfold Scale.aks_scale. intros E Fi.
  destruct (fill (PreviewCluster.pod_identity_profile instance))
    as [profile|e]; [|discriminate].
  destruct (PreviewCluster.agent_pool_profiles instance) as [pools|];
    [|discriminate].
  destruct ((1 <? length pools)%nat && String.eqb nodepool_name "") eqn:G;
    [discriminate|].
  destruct (Scale.scale_first _ _ _ _) as [pools'|e] eqn:S1; [|discriminate].
  injection E as <- <-.
  cbn [PreviewCluster.pod_identity_profile
       PreviewCluster.agent_pool_profiles] in Fi |- *. rewrite Fi.
  rewrite (ScaleFacts.scale_first_length _ _ _ _ _ S1), G.
  now rewrite (ScaleFacts.scale_first_again _ _ _ _ _ S1).
Qed.

Lemma scale_twice_witness :
  exists i',
    Scale.aks_scale unit PoolSamples.filled PoolSamples.three_pools 5
      "userpool" false = Returned (PreviewCluster.Handle false i')
    /\ Scale.aks_scale unit PoolSamples.filled i' 5 "userpool" false
       = Returned (PreviewCluster.Handle false i').
Proof.
  eexists. split; [reflexivity|].
  exact (scale_twice unit PoolSamples.filled PoolSamples.three_pools _ 5%Z
           "userpool" false false eq_refl eq_refl).
Defined.

(** X21. [aks_agentpool_scale] cannot be repeated: a call that submits
    hands over the fetched pool with the new count, the pool had no
    autoscaler and another count, and the same call on the submitted pool
    is refused because the count is the same. *)
Theorem agentpool_scale_once (instance : AgentPool.t)
    (nodepool_name : string) (node_count : Z) (no_wait : bool)
    (h : Scale.pool_handle) :
  Scale.aks_agentpool_scale instance nodepool_name node_count no_wait
  = Returned h ->
  h = Scale.PoolHandle no_wait nodepool_name
        (AgentPool.with_count instance node_count)
  /\ AgentPool.auto_scaling instance = false
  /\ AgentPool.count instance <> Some node_count
  /\ Scale.aks_agentpool_scale (AgentPool.with_count instance node_count)
       nodepool_name node_count no_wait
     = Raised (CLIError Scale.same_count_message).
Proof.
  unfold Scale.aks_agentpool_scale. intros E.
  destruct (AgentPool.auto_scaling instance) eqn:A; [discriminate|].
  destruct (match AgentPool.count instance with
            | Some c => Z.eqb node_count c
            | None => false
            end) eqn:C; [discriminate|].
  injection E as <-. split; [reflexivity|]. split; [reflexivity|]. split.
  - intros K. rewrite K, Z.eqb_refl in C. discriminate.
  - unfold AgentPool.auto_scaling in *. cbn. now rewrite A, Z.eqb_refl.
Qed.

Lemma agentpool_scale_once_witness :
  Scale.aks_agentpool_scale PoolSamples.nodepool1 "nodepool1" 4 false
  = Returned (Scale.PoolHandle false "nodepool1"
                (AgentPool.with_count PoolSamples.nodepool1 4))
  /\ Scale.aks_agentpool_scale (AgentPool.with_count PoolSamples.nodepool1 4)
       "nodepool1" 4 false
     = Raised (CLIError Scale.same_count_message).
Proof.
  split; [reflexivity|].
  apply (agentpool_scale_once PoolSamples.nodepool1 "nodepool1" 4%Z false
           _ eq_refl).
Defined.

(** ** Pod identity exceptions *)

Module PodIdentityFacts.
Import PodIdentity.

Lemma named_key (exc_name exc_namespace : string)
    (exc : PodIdentityException.t) :
  named exc_name exc_namespace exc = true
  <-> key exc = (exc_name, exc_namespace).
Proof.
  unfold named, key. rewrite andb_true_iff, !String.eqb_eq.
  split; [intros [-> ->]; reflexivity|intros [= -> ->]; now split].
Qed.

Lemma filter_absent (exc_name exc_namespace : string)
    (l : list PodIdentityException.t) :
  ~ In (exc_name, exc_namespace) (map key l) ->
  filter (fun exc => negb (named exc_name exc_namespace exc)) l = l.
Proof.
  induction l as [|e l IH]; [reflexivity|]. cbn. intros N.
  destruct (named exc_name exc_namespace e) eqn:K.
  - apply named_key in K. elim N. now left.
  - cbn. f_equal. apply IH. intros I. apply N. now right.
Qed.

Lemma filter_added (exc_name exc_namespace : string)
    (pod_labels : Py.dict string) (l : list PodIdentityException.t) :
  filter (fun exc => negb (named exc_name exc_namespace exc))
    (l ++ [{| PodIdentityException.name := exc_name;
              PodIdentityException.namespace := exc_namespace;
              PodIdentityException.pod_labels := pod_labels |}])
  = filter (fun exc => negb (named exc_name exc_namespace exc)) l.
Proof.
  rewrite filter_app. cbn. unfold named at 2. cbn.
  rewrite !String.eqb_refl. cbn. apply app_nil_r.
Qed.

(** The loop of the update keeps the places and tells whether it found
    the exception. *)
Lemma replace_named_spec (exc_name exc_namespace : string)
    (updated_exc : PodIdentityException.t)
    (l l' : list PodIdentityException.t) (found_target : bool) :
  replace_named exc_name exc_namespace updated_exc l = (l', found_target) ->
  Forall2 (fun exc exc' =>
             if named exc_name exc_namespace exc
             then exc' = updated_exc else exc' = exc) l l'
  /\ (found_target = true <-> In (exc_name, exc_namespace) (map key l)).
Proof.
  revert l' found_target. induction l as [|e l IH]; intros l' ft E.
  - injection E as <- <-. split; [constructor|]. cbn. split; easy.
  - cbn in E.
    destruct (replace_named exc_name exc_namespace updated_exc l)
      as [rest' ft'].
    destruct (IH rest' ft' eq_refl) as [F K].
    destruct (named exc_name exc_namespace e) eqn:Nm; injection E as <- <-.
    + split; [constructor; [now rewrite Nm|exact F]|].
      split; [|reflexivity]. intros _. left. now apply named_key.
    + split; [constructor; [now rewrite Nm|exact F]|].
      rewrite K. cbn. split; [now right|]. intros [I|I]; [|exact I].
      apply named_key in I. congruence.
Qed.

Section Handlers.
Variable Identity : Type.
Variable ensure : PreviewCluster.t Identity -> option exn.

(** The list that the addition hands over. *)
Lemma added_list (instance : PreviewCluster.t Identity)
    (exc_name exc_namespace : string) (pod_labels : Py.dict string)
    (u : update Identity) :
  added Identity ensure instance exc_name exc_namespace pod_labels
  = Returned u ->
  pod_identity_exceptions u
  = Some (exceptions_of Identity instance
            ++ [{| PodIdentityException.name := exc_name;
                   PodIdentityException.namespace := exc_namespace;
                   PodIdentityException.pod_labels := pod_labels |}]).
Proof.
  unfold added, exceptions_of. destruct (ensure instance); [discriminate|].
  destruct (PreviewCluster.pod_identity_profile instance) as [p|];
    [|discriminate].
  destruct (PodIdentityProfile.user_assigned_identity_exceptions p)
    as [[|e0 l0]|]; intros [= <-]; reflexivity.
Qed.

(** The list that the deletion hands over. *)
Lemma deleted_list (instance : PreviewCluster.t Identity)
    (exc_name exc_namespace : string) (u : update Identity) :
  deleted Identity ensure instance exc_name exc_namespace = Returned u ->
  pod_identity_exceptions u
  = Some (filter (fun exc => negb (named exc_name exc_namespace exc))
            (exceptions_of Identity instance)).
Proof.
  unfold deleted, exceptions_of. destruct (ensure instance); [discriminate|].
  destruct (PreviewCluster.pod_identity_profile instance) as [p|];
    [|discriminate].
  destruct (PodIdentityProfile.user_assigned_identity_exceptions p);
    intros [= <-]; reflexivity.
Qed.
End Handlers.

End PodIdentityFacts.

(** X22. [aks_pod_identity_exception_update] replaces in place: when it
    returns, the cluster has an exception of the given name and
    namespace, and the list handed to [_update_addon_pod_identity] has,
    place by place, the new exception where the cluster has one of that
    name and namespace and the exception of the cluster elsewhere; the
    identities are handed over as they are. *)
Theorem exception_update_replaces (Identity : Type)
    (ensure : PreviewCluster.t Identity -> option exn)
    (update_addon : PodIdentity.update Identity ->
                    outcome (PreviewCluster.t Identity))
    (instance : PreviewCluster.t Identity)
    (exc_name exc_namespace : string) (pod_labels : Py.dict string)
    (no_wait : bool) (h : PreviewCluster.handle Identity) :
  PodIdentity.aks_pod_identity_exception_update Identity ensure update_addon
    instance exc_name exc_namespace pod_labels no_wait = Returned h ->
  let updated_exc :=
    {| PodIdentityException.name := exc_name;
       PodIdentityException.namespace := exc_namespace;
       PodIdentityException.pod_labels := pod_labels |} in
  exists u i l' p,
    update_addon u = Returned i
    /\ h = PreviewCluster.Handle no_wait i
    /\ PodIdentity.instance u = instance
    /\ PreviewCluster.pod_identity_profile instance = Some p
    /\ PodIdentity.pod_identities u
       = PodIdentityProfile.user_assigned_identities p
    /\ PodIdentity.pod_identity_exceptions u = Some l'
    /\ In (exc_name, exc_namespace)
         (map PodIdentity.key (PodIdentity.exceptions_of Identity instance))
    /\ Forall2 (fun exc exc' =>
                  if PodIdentity.named exc_name exc_namespace exc
                  then exc' = updated_exc else exc' = exc)
         (PodIdentity.exceptions_of Identity instance) l'.
Proof.
  intros E updated_exc.
  unfold PodIdentity.aks_pod_identity_exception_update, PodIdentity.updated,
    PodIdentity.submit in E.
  unfold PodIdentity.exceptions_of. fold updated_exc in E.
  destruct (ensure instance); [discriminate|].
  destruct (PreviewCluster.pod_identity_profile instance) as [p|];
    [|discriminate].
  destruct (match PodIdentityProfile.user_assigned_identity_exceptions p with
            | Some l =>
                PodIdentity.replace_named exc_name exc_namespace
                  updated_exc l
            | None => ([], false)
            end) as [l' ft] eqn:R.
  destruct ft; [|discriminate].
  destruct (update_addon _) as [i|e] eqn:U; [|discriminate].
  injection E as <-.
  eexists _, i, l', p. split; [exact U|]. repeat split.
  all: destruct (PodIdentityProfile.user_assigned_identity_exceptions p)
         as [l|]; [|discriminate].
  all: apply PodIdentityFacts.replace_named_spec in R; destruct R as [F K].
  - now apply K.
  - exact F.
Qed.

Lemma exception_update_replaces_witness :
  exists u i l' p,
    PoolSamples.set_lists u = Returned i
    /\ PreviewCluster.Handle false i = PreviewCluster.Handle false i
    /\ PodIdentity.instance u = PoolSamples.three_pools
    /\ PreviewCluster.pod_identity_profile PoolSamples.three_pools = Some p
    /\ PodIdentity.pod_identities u
       = PodIdentityProfile.user_assigned_identities p
    /\ PodIdentity.pod_identity_exceptions u = Some l'
    /\ In ("system", "kube-system")
         (map PodIdentity.key
            (PodIdentity.exceptions_of unit PoolSamples.three_pools))
    /\ Forall2 (fun exc exc' =>
                  if PodIdentity.named "system" "kube-system" exc
                  then exc' = {| PodIdentityException.name := "system";
                                 PodIdentityException.namespace :=
                                   "kube-system";
                                 PodIdentityException.pod_labels :=
                                   [("app", "nmi")] |}
                  else exc' = exc)
         (PodIdentity.exceptions_of unit PoolSamples.three_pools) l'.
Proof.
  destruct (exception_update_replaces unit PoolSamples.enabled_addon
              PoolSamples.set_lists PoolSamples.three_pools "system"
              "kube-system" [("app", "nmi")] false _ eq_refl)
    as (u & i & l' & p & U & Hh & K).
  exists u, i, l', p. split; [exact U|]. split; [reflexivity|exact K].
Defined.

(** X23. Adding an exception and then deleting it: when
    [_update_addon_pod_identity] stores the list it is handed, an addition
    followed by the deletion of the same name and namespace on the cluster
    so obtained leaves the exceptions of the first cluster without those
    of that name and namespace, which are the exceptions of the first
    cluster when it had none of that name and namespace.  The deletion
    does not raise for want of the exception. *)
Theorem exception_add_then_delete (Identity : Type)
    (ensure : PreviewCluster.t Identity -> option exn)
    (update_addon : PodIdentity.update Identity ->
                    outcome (PreviewCluster.t Identity))
    (instance i1 i2 : PreviewCluster.t Identity)
    (exc_name exc_namespace : string) (pod_labels : Py.dict string)
    (no_wait : bool) :
  (forall u i l, update_addon u = Returned i ->
     PodIdentity.pod_identity_exceptions u = Some l ->
     PodIdentity.exceptions_of Identity i = l) ->
  PodIdentity.aks_pod_identity_exception_add Identity ensure update_addon
    instance exc_name exc_namespace pod_labels no_wait
  = Returned (PreviewCluster.Handle no_wait i1) ->
  PodIdentity.aks_pod_identity_exception_delete Identity ensure update_addon
    i1 exc_name exc_namespace no_wait
  = Returned (PreviewCluster.Handle no_wait i2) ->
  PodIdentity.exceptions_of Identity i2
  = filter (fun exc => negb (PodIdentity.named exc_name exc_namespace exc))
      (PodIdentity.exceptions_of Identity instance)
  /\ (~ In (exc_name, exc_namespace)
        (map PodIdentity.key (PodIdentity.exceptions_of Identity instance)) ->
      PodIdentity.exceptions_of Identity i2
      = PodIdentity.exceptions_of Identity instance).
Proof.
  intros St A D.
  unfold PodIdentity.aks_pod_identity_exception_add, PodIdentity.submit in A.
  destruct (PodIdentity.added _ _ _ _ _ _) as [u1|e] eqn:A1; [|discriminate].
  destruct (update_addon u1) as [j1|e] eqn:U1; [|discriminate].
  injection A as ->.
  unfold PodIdentity.aks_pod_identity_exception_delete, PodIdentity.submit
    in D.
  destruct (PodIdentity.deleted _ _ _ _ _) as [u2|e] eqn:D1; [|discriminate].
  destruct (update_addon u2) as [j2|e] eqn:U2; [|discriminate].
  injection D as ->.
  apply PodIdentityFacts.added_list in A1.
  apply PodIdentityFacts.deleted_list in D1.
  pose proof (St _ _ _ U1 A1) as S1. pose proof (St _ _ _ U2 D1) as S2.
  rewrite S1, PodIdentityFacts.filter_added in S2.
  split; [exact S2|]. intros N. rewrite S2.
  now apply PodIdentityFacts.filter_absent.
Qed.

Lemma exception_add_then_delete_witness :
  exists i1 i2,
    PodIdentity.aks_pod_identity_exception_add unit PoolSamples.enabled_addon
      PoolSamples.set_lists PoolSamples.three_pools "web" "default"
      [("app", "web")] false = Returned (PreviewCluster.Handle false i1)
    /\ length (PodIdentity.exceptions_of unit i1) = 2%nat
    /\ PodIdentity.aks_pod_identity_exception_delete unit
         PoolSamples.enabled_addon PoolSamples.set_lists i1 "web" "default"
         false = Returned (PreviewCluster.Handle false i2)
    /\ PodIdentity.exceptions_of unit i2
       = PodIdentity.exceptions_of unit PoolSamples.three_pools.
Proof.
  eexists. eexists.
  split; [reflexivity|]. split; [reflexivity|]. split; [reflexivity|].
  assert (N : ~ In ("web", "default")
                (map PodIdentity.key
                   (PodIdentity.exceptions_of unit PoolSamples.three_pools))).
  { cbn. intros [K|[]]. discriminate. }
  assert (St : forall u i l,
             PoolSamples.set_lists u = Returned i ->
             PodIdentity.pod_identity_exceptions u = Some l ->
             PodIdentity.exceptions_of unit i = l).
  { intros u i l [= <-] L. unfold PodIdentity.exceptions_of. cbn.
    now rewrite L. }
  exact (proj2 (exception_add_then_delete unit PoolSamples.enabled_addon
                  PoolSamples.set_lists PoolSamples.three_pools _ _ "web"
                  "default" [("app", "web")] false St eq_refl eq_refl) N).
Defined.

(** ** The service principal file *)

(** X24. What [store_acs_service_principal] stores for a subscription,
    [load_acs_service_principal] finds again on the file that was
    written: an entry with the secret and the service principal that were
    not empty.  The entries of the other subscriptions are those of the
    former file, and none when that file was missing, unreadable or did
    not hold an object. *)
Theorem store_then_load (f f' : ServicePrincipals.file)
    (subscription_id : string)
    (client_secret service_principal : option string) :
  ServicePrincipals.store_acs_service_principal f subscription_id
    client_secret service_principal = Returned f' ->
  ServicePrincipals.load_acs_service_principal f' subscription_id
  = Returned (Some (ServicePrincipals.entry client_secret service_principal))
  /\ forall other,
       other <> subscription_id ->
       ServicePrincipals.load_acs_service_principal f' other
       = Returned (Py.get (ServicePrincipals.entries f) other).
Proof.
  unfold ServicePrincipals.store_acs_service_principal.
  set (obj := ServicePrincipals.entry client_secret service_principal).
  assert (L : forall d,
             ServicePrincipals.load_acs_service_principal
               (ServicePrincipals.Text
                  (ServicePrincipals.Object (Py.set d subscription_id obj)))
               subscription_id = Returned (Some obj)
             /\ forall other,
                  other <> subscription_id ->
                  ServicePrincipals.load_acs_service_principal
                    (ServicePrincipals.Text
                       (ServicePrincipals.Object
                          (Py.set d subscription_id obj))) other
                  = Returned (Py.get d other)).
  { intros d. unfold ServicePrincipals.load_acs_service_principal.
    cbn [ServicePrincipals.load_service_principals].
    pose proof (PyFacts.set_not_nil d subscription_id obj) as N.
    destruct (Py.set d subscription_id obj) as [|kv d'] eqn:S0;
      [now elim N|].
    rewrite <- S0. split.
    - now rewrite PyFacts.get_set_same.
    - intros other O. rewrite PyFacts.get_set_other; [reflexivity|].
      congruence. }
  destruct f as [| |[[|kv d]|[|]]]; cbn; intros [= <-];
    try apply (L []); apply (L (kv :: d)).
Qed.

Lemma store_then_load_witness :
  let f :=
    ServicePrincipals.Text
      (ServicePrincipals.Object
         [("sub1", [("client_secret", "s1"); ("service_principal", "sp1")])])
  in
  exists f',
    ServicePrincipals.store_acs_service_principal f "sub2" None (Some "sp2")
    = Returned f'
    /\ ServicePrincipals.load_acs_service_principal f' "sub2"
       = Returned (Some [("service_principal", "sp2")])
    /\ ServicePrincipals.load_acs_service_principal f' "sub1"
       = Returned (Some [("client_secret", "s1");
                         ("service_principal", "sp1")]).
Proof.
  intros f. eexists. split; [reflexivity|].
  assert (N : "sub1" <> "sub2") by discriminate.
  destruct (store_then_load f _ "sub2" None (Some "sp2") eq_refl) as [A B].
  split; [exact A|exact (B "sub1" N)].
Defined.
